(** * uiUtil.js : utility functions for the user interface (Kiwix JS)

    A shallow embedding of [www/js/lib/uiUtil.js] and the properties of
    its asset injector, theme engine, update notifier and download alert.

    Layout: JavaScript strings and the regular expressions of the file
    (module [JS]); the host page and the effect monad; the functions of
    the file under their own names; then the theorems. *)

From Stdlib Require Import ZArith NArith Ascii String List Lia Bool QArith.
From stdpp Require Import base option list gmap.

Local Open Scope nat_scope.

(** ** JavaScript strings and regular expressions *)

Module JS.

(** A JavaScript string is a sequence of UTF-16 code units. *)
Abbreviation jsstring := (list N).

(** The string written by an ASCII literal of the source. *)
Definition js (s : string) : jsstring :=
  map N_of_ascii (list_ascii_of_string s).

(** The double quote, written by its code. *)
Definition dquote : N := 34%N.

(** [\d] *)
Definition is_digit (c : N) : bool := ((48 <=? c) && (c <=? 57))%N.

(** LineTerminator: LF, CR, LS, PS. The dot matches anything else. *)
Definition line_terminator (c : N) : bool :=
  ((c =? 10) || (c =? 13) || (c =? 8232) || (c =? 8233))%N.
Definition dot (c : N) : bool := negb (line_terminator c).

(** ASCII whitespace, as the DOM uses it to split token lists. *)
Definition ascii_whitespace (c : N) : bool :=
  ((c =? 9) || (c =? 10) || (c =? 12) || (c =? 13) || (c =? 32))%N.

Definition chr (a : ascii) : N -> bool := fun c => (c =? N_of_ascii a)%N.
Definition not_chr (a : ascii) : N -> bool := fun c => negb (chr a c).

(** Canonicalize of a pattern without the u flag, on the code units an
    ASCII pattern character can meet: a-z go to A-Z, and no code unit
    above 127 is ever mapped below 128. *)
Definition canonicalize (c : N) : N :=
  if ((97 <=? c) && (c <=? 122))%N then (c - 32)%N else c.
Definition chr_i (a : ascii) : N -> bool :=
  fun c => (canonicalize c =? canonicalize (N_of_ascii a))%N.

(** The regular expressions of uiUtil.js are sequences of assertions,
    single-unit classes, greedy stars of such classes and one capture
    group. [One p; Star p] is the greedy plus. *)
Inductive item : Type :=
| Bol                      (* ^ *)
| Eol                      (* $ *)
| One (p : N -> bool)      (* a class, a literal or the dot *)
| Star (p : N -> bool)     (* greedy star of a class *)
| Open                     (* ( of group 1 *)
| Close.                   (* ) of group 1 *)

Abbreviation regex := (list item).

Definition plus (p : N -> bool) : regex := [One p; Star p].
Definition lit_i (s : string) : regex :=
  map (fun a => One (chr_i a)) (list_ascii_of_string s).

(** A match result: the end index and the span of group 1. *)
Abbreviation capture := (option (nat * nat)).

(** The backtracking matcher: [exec r i s g cap] runs [r] at index [i],
    where [s] is the input from [i] on, [g] the index of the last open
    parenthesis and [cap] the span captured so far. The star tries the
    longest run first and gives units back one at a time. *)
Fixpoint exec (r : regex) (i : nat) (s : jsstring) (g : nat) (cap : capture)
    {struct r} : option (nat * capture) :=
  match r with
  | [] => Some (i, cap)
  | Bol :: r' => if Nat.eqb i 0 then exec r' i s g cap else None
  | Eol :: r' => match s with [] => exec r' i s g cap | _ :: _ => None end
  | One p :: r' =>
      match s with
      | c :: s' => if p c then exec r' (S i) s' g cap else None
      | [] => None
      end
  | Star p :: r' =>
      (fix star (i : nat) (s : jsstring) {struct s} : option (nat * capture) :=
         match s with
         | c :: s' =>
             if p c then
               match star (S i) s' with
               | Some m => Some m
               | None => exec r' i s g cap
               end
             else exec r' i s g cap
         | [] => exec r' i [] g cap
         end) i s
  | Open :: r' => exec r' i s i cap
  | Close :: r' => exec r' i s g (Some (g, i))
  end.

(** RegExp.prototype.exec without the g and y flags: the leftmost start
    index at which the pattern matches. *)
Fixpoint scan (r : regex) (i : nat) (s : jsstring) : option (nat * nat * capture) :=
  match exec r i s i None with
  | Some (e, cap) => Some (i, e, cap)
  | None => match s with [] => None | _ :: s' => scan r (S i) s' end
  end.

Definition regexp_exec (r : regex) (s : jsstring) := scan r 0 s.

(** RegExp.prototype.test *)
Definition test (r : regex) (s : jsstring) : bool :=
  match regexp_exec r s with Some _ => true | None => false end.

(** Replacement templates: literal text and [$1]. *)
Inductive tpl : Type := TLit (s : jsstring) | TGroup1.

Definition substring (s : jsstring) (b e : nat) : jsstring := take (e - b) (drop b s).

Definition expand1 (whole : jsstring) (cap : capture) (t : tpl) : jsstring :=
  match t with
  | TLit s => s
  | TGroup1 => match cap with Some (b, e) => substring whole b e | None => [] end
  end.

Definition expand (whole : jsstring) (cap : capture) (t : list tpl) : jsstring :=
  concat (map (expand1 whole cap) t).

(** String.prototype.replace(regexp, template), regexp without g. *)
Definition replace (r : regex) (t : list tpl) (s : jsstring) : jsstring :=
  match regexp_exec r s with
  | None => s
  | Some (b, e, cap) => take b s ++ expand s cap t ++ drop e s
  end.

(** String.prototype.replace(regexp, template), regexp with g: every
    match from left to right; after an empty match the unit at the
    index is copied and the search moves on by one. *)
Fixpoint replace_g_from (r : regex) (t : list tpl) (whole : jsstring)
    (skip i : nat) (s : jsstring) : jsstring :=
  match s with
  | [] =>
      match skip, exec r i [] i None with
      | 0, Some (_, cap) => expand whole cap t
      | _, _ => []
      end
  | c :: s' =>
      match skip with
      | S k => replace_g_from r t whole k (S i) s'
      | 0 =>
          match exec r i s i None with
          | Some (e, cap) =>
              expand whole cap t ++
              (if Nat.eqb e i then c :: replace_g_from r t whole 0 (S i) s'
               else replace_g_from r t whole (e - i - 1) (S i) s')
          | None => c :: replace_g_from r t whole 0 (S i) s'
          end
      end
  end.

Definition replace_g (r : regex) (t : list tpl) (s : jsstring) : jsstring :=
  replace_g_from r t s 0 0 s.

(** [s] starts with [p]. *)
Fixpoint starts_with (p s : jsstring) : bool :=
  match p, s with
  | [], _ => true
  | a :: p', b :: s' => (a =? b)%N && starts_with p' s'
  | _ :: _, [] => false
  end.

(** String.prototype.indexOf(p): the first index at which [p] occurs, or -1. *)
Fixpoint indexOf_from (p : jsstring) (i : nat) (s : jsstring) : Z :=
  if starts_with p s then Z.of_nat i
  else match s with [] => (-1)%Z | _ :: s' => indexOf_from p (S i) s' end.

Definition indexOf (s p : jsstring) : Z := indexOf_from p 0 s.

(** String.prototype.replace(p, '') with a string pattern: the first
    occurrence of [p] is cut out. *)
Definition remove_first (s p : jsstring) : jsstring :=
  let i := indexOf s p in
  if (i <? 0)%Z then s
  else take (Z.to_nat i) s ++ drop (Z.to_nat i + length p) s.

(** ToBoolean of a string and of a number. *)
Definition truthy (s : jsstring) : bool := match s with [] => false | _ => true end.
Definition truthyZ (z : Z) : bool := negb (z =? 0)%Z.

(** [a || b] on strings. *)
Definition or_else (a b : jsstring) : jsstring := if truthy a then a else b.

End JS.

Import JS.

Arguments js : simpl never.
Arguments replace : simpl never.
Arguments replace_g : simpl never.
Arguments test : simpl never.
Arguments indexOf : simpl never.
Arguments remove_first : simpl never.

(** ** The regular expressions of the file *)

(** [/\?[^?]*$/] *)
Definition re_querystring : regex := [One (chr "?"); Star (not_chr "?"); Eol].

(** [/#[^#;]*$/] *)
Definition re_anchor : regex :=
  [One (chr "#"); Star (fun c => negb (chr "#" c || chr ";" c)); Eol].

(** Removes parameters and anchors from a URL (lines 111-117). *)
Definition removeUrlParameters (url : jsstring) : jsstring :=
  let strippedUrl := replace re_querystring [] url in
  let strippedUrl := replace re_anchor [] strippedUrl in
  strippedUrl.


(** ** The host page, the platform and the effects of the module *)

(** Exceptions the modelled calls raise. *)
Inductive exn : Type := TypeError | InvalidCharacterError | SyntaxError.

Inductive res (A : Type) : Type :=
| Ok (a : A)
| Throw (e : exn).
Arguments Ok {A} a.
Arguments Throw {A} e.

(** What uiUtil.js reads from the platform and never writes. *)
Class Platform : Type := {
  (* the global webpMachine is truthy: init.js loaded the WebP polyfill *)
  webpMachine : bool;
  (* 'serviceWorker' in navigator *)
  serviceWorker_in_navigator : bool;
  (* window.navigator && window.navigator.msSaveBlob *)
  msSaveBlob : bool;
  (* a programmatic click on an anchor throws *)
  click_throws : bool;
  location_protocol : jsstring;
  location_host : jsstring;
  location_pathname : jsstring;
  (* what follows blob: in the n-th URL that URL.createObjectURL returns *)
  object_url_id : nat -> jsstring;
  (* setAttribute accepts the name *)
  valid_attribute_name : jsstring -> bool;
  (* s.search(p) where p is a string: the RegExp constructor may throw,
     otherwise the index of the first match or -1 *)
  String_search : jsstring -> jsstring -> res Z;
  (* the href property of a link element whose href attribute is given *)
  href_property : jsstring -> jsstring
}.

Record Blob : Type := mkBlob { blob_parts : list Byte.byte; blob_type : jsstring }.

(** The type of a blob as the Blob constructor stores it: the empty
    string when the given type holds a unit outside U+0020..U+007E, and
    the given type in ASCII lower case otherwise. *)
Definition ascii_lowercase (c : N) : N :=
  if ((65 <=? c) && (c <=? 90))%N then (c + 32)%N else c.

Definition Blob_type (type : jsstring) : jsstring :=
  if forallb (fun c => ((32 <=? c) && (c <=? 126))%N) type
  then map ascii_lowercase type
  else [].

(** [new Blob([content], { type: type })] *)
Definition new_Blob (content : list Byte.byte) (type : jsstring) : Blob :=
  mkBlob content (Blob_type type).

(** The event listeners the module registers, one constructor for each
    function expression, with the variables it closes over. *)
Inductive Handler : Type :=
| HideDownloadAlert                                   (* lines 192-195 *)
| HideUpdateAlert                                     (* lines 258-260 *)
| RevokeObjectURL (url : jsstring)                    (* lines 69-71 *)
| MsSaveBlobAndPrevent (blob : Blob) (filename : jsstring)  (* lines 221-224 *)
| ReturnToArticle.                                    (* lines 458-472 *)

(** The anchor that displayFileDownloadAlert builds. *)
Record Anchor : Type := mkAnchor {
  a_href : jsstring;
  a_target : jsstring;
  a_type : jsstring;
  a_download : jsstring;
  a_classList : list jsstring;
  a_innerHTML : jsstring;
  a_listeners : list (jsstring * Handler)
}.

(** An element of the host page that the module reaches by its id. *)
Record Element : Type := mkElement {
  display : jsstring;                         (* style.display *)
  classList : list jsstring;                  (* the token set, in order *)
  innerHTML : jsstring;
  appended : list Anchor;                     (* children appended since innerHTML was written *)
  listeners : list (jsstring * Handler);      (* listeners on the element itself *)
  (* the click listeners of querySelector('button[data-hide]'), when
     the element has such a descendant *)
  data_hide_button : option (list Handler)
}.

(** An element child of the head of the embedded document. *)
Record HeadChild : Type := mkHeadChild {
  hc_id : jsstring;
  hc_rel : jsstring;
  hc_type : jsstring;
  hc_href : jsstring        (* the href attribute *)
}.

(** iframe.contentDocument: its title and the element children of its head. *)
Record Doc : Type := mkDoc { doc_title : jsstring; doc_head : list HeadChild }.

(** A node of the article, as feedNodeWithBlob sees it. *)
Record Node : Type := mkNode {
  attributes : gmap (list N) (list N);
  node_listeners : list (jsstring * Handler)
}.
Definition empty_node : Node := mkNode ∅ [].

(** What settingsStore.getCacheNames hands to its callback. *)
Record CacheNames : Type := mkCacheNames {
  cn_app : jsstring;
  cn_assets : jsstring;
  cn_error : bool          (* the error marker is truthy *)
}.

(** Asynchronous operations in flight, with the continuation each one
    carries. *)
Inductive Reaction : Type :=
| DecodeThenCatch (node : nat) (nodeAttribute : jsstring) (callback : option nat)  (* lines 54-62 *)
| GetCacheNamesCallback                                                           (* lines 236-255 *)
| CachesKeysThen (cacheNames : CacheNames).                                        (* lines 240-253 *)

(** How the environment settles an operation in flight. *)
Inductive Settlement : Type :=
| Decoded (uri : jsstring)
| DecodeRejected
| CacheNamesReply (cacheNames : option CacheNames)
| KeyList (keyList : list jsstring)
| KeysRejected.

(** What the module does to code it does not own. *)
Inductive Effect : Type :=
| Call (callback : nat) (arg : option jsstring)        (* callback(uri), callback() *)
| SetAttribute (node : nat) (name value : jsstring)
| ConsoleError (msg : jsstring)
| Click (a : Anchor).                                  (* a.click() went through *)

Record Page : Type := mkPage {
  html_classList : list jsstring;                (* document.querySelector('html').classList *)
  html_dataset_theme : option jsstring;          (* its dataset.theme *)
  footer_classList : option (list jsstring);     (* document.querySelector('footer'), its classList *)
  byId : gmap (list N) Element;                  (* document.getElementById *)
  contentDocument : option Doc                   (* of the iframe articleContent *)
}.

Record Session : Type := mkSession {
  downloadAlertSetup : bool;                     (* line 188 *)
  updateAlert : option jsstring;                 (* line 233: the element found at load time *)
  pwaUpdateNeeded : bool;                        (* appstate.pwaUpdateNeeded *)
  params_cacheNames : option CacheNames          (* params.cacheNames *)
}.

Record World : Type := mkWorld {
  page : Page;
  session : Session;
  objectURLs : list (jsstring * Blob);           (* live object URLs *)
  issued : nat;                                  (* object URLs created so far *)
  nodes : gmap nat Node;
  pending : list Reaction;
  log : list Effect
}.

(** Field updates. *)
Definition with_page (f : Page -> Page) (w : World) : World :=
  mkWorld (f (page w)) (session w) (objectURLs w) (issued w) (nodes w) (pending w) (log w).
Definition with_session (f : Session -> Session) (w : World) : World :=
  mkWorld (page w) (f (session w)) (objectURLs w) (issued w) (nodes w) (pending w) (log w).
Definition with_objectURLs (f : list (jsstring * Blob) -> list (jsstring * Blob)) (w : World) : World :=
  mkWorld (page w) (session w) (f (objectURLs w)) (issued w) (nodes w) (pending w) (log w).
Definition with_issued (f : nat -> nat) (w : World) : World :=
  mkWorld (page w) (session w) (objectURLs w) (f (issued w)) (nodes w) (pending w) (log w).
Definition with_nodes (f : gmap nat Node -> gmap nat Node) (w : World) : World :=
  mkWorld (page w) (session w) (objectURLs w) (issued w) (f (nodes w)) (pending w) (log w).
Definition with_pending (f : list Reaction -> list Reaction) (w : World) : World :=
  mkWorld (page w) (session w) (objectURLs w) (issued w) (nodes w) (f (pending w)) (log w).
Definition with_log (f : list Effect -> list Effect) (w : World) : World :=
  mkWorld (page w) (session w) (objectURLs w) (issued w) (nodes w) (pending w) (f (log w)).

Definition with_html_classList (f : list jsstring -> list jsstring) (p : Page) : Page :=
  mkPage (f (html_classList p)) (html_dataset_theme p) (footer_classList p) (byId p) (contentDocument p).
Definition with_html_dataset_theme (f : option jsstring -> option jsstring) (p : Page) : Page :=
  mkPage (html_classList p) (f (html_dataset_theme p)) (footer_classList p) (byId p) (contentDocument p).
Definition with_footer_classList (f : list jsstring -> list jsstring) (p : Page) : Page :=
  mkPage (html_classList p) (html_dataset_theme p) (f <$> footer_classList p) (byId p) (contentDocument p).
Definition with_byId (f : gmap (list N) Element -> gmap (list N) Element) (p : Page) : Page :=
  mkPage (html_classList p) (html_dataset_theme p) (footer_classList p) (f (byId p)) (contentDocument p).
Definition with_contentDocument (f : Doc -> Doc) (p : Page) : Page :=
  mkPage (html_classList p) (html_dataset_theme p) (footer_classList p) (byId p) (f <$> contentDocument p).

Definition with_downloadAlertSetup (b : bool) (s : Session) : Session :=
  mkSession b (updateAlert s) (pwaUpdateNeeded s) (params_cacheNames s).
Definition with_updateAlert (r : option jsstring) (s : Session) : Session :=
  mkSession (downloadAlertSetup s) r (pwaUpdateNeeded s) (params_cacheNames s).
Definition with_pwaUpdateNeeded (b : bool) (s : Session) : Session :=
  mkSession (downloadAlertSetup s) (updateAlert s) b (params_cacheNames s).
Definition with_params_cacheNames (c : option CacheNames) (s : Session) : Session :=
  mkSession (downloadAlertSetup s) (updateAlert s) (pwaUpdateNeeded s) c.

Definition with_display (v : jsstring) (e : Element) : Element :=
  mkElement v (classList e) (innerHTML e) (appended e) (listeners e) (data_hide_button e).
Definition with_classList (f : list jsstring -> list jsstring) (e : Element) : Element :=
  mkElement (display e) (f (classList e)) (innerHTML e) (appended e) (listeners e) (data_hide_button e).
(* writing innerHTML replaces the children *)
Definition with_innerHTML (v : jsstring) (e : Element) : Element :=
  mkElement (display e) (classList e) v [] (listeners e) (data_hide_button e).
Definition with_appended (f : list Anchor -> list Anchor) (e : Element) : Element :=
  mkElement (display e) (classList e) (innerHTML e) (f (appended e)) (listeners e) (data_hide_button e).
Definition with_listeners (f : list (jsstring * Handler) -> list (jsstring * Handler)) (e : Element) : Element :=
  mkElement (display e) (classList e) (innerHTML e) (appended e) (f (listeners e)) (data_hide_button e).
Definition with_data_hide_button (f : list Handler -> list Handler) (e : Element) : Element :=
  mkElement (display e) (classList e) (innerHTML e) (appended e) (listeners e) (f <$> data_hide_button e).

Definition with_a_listeners (f : list (jsstring * Handler) -> list (jsstring * Handler)) (a : Anchor) : Anchor :=
  mkAnchor (a_href a) (a_target a) (a_type a) (a_download a) (a_classList a) (a_innerHTML a) (f (a_listeners a)).

(** ** The effect monad

    A computation runs on a world and returns a value or throws; what it
    wrote before throwing stays written. *)
Definition M (A : Type) : Type := World -> res A * World.

Definition ret {A} (a : A) : M A := fun w => (Ok a, w).
Definition throw {A} (e : exn) : M A := fun w => (Throw e, w).
Definition bind {A B} (m : M A) (k : A -> M B) : M B :=
  fun w => match m w with
           | (Ok a, w') => k a w'
           | (Throw e, w') => (Throw e, w')
           end.
Definition try_catch {A} (m : M A) (h : exn -> M A) : M A :=
  fun w => match m w with
           | (Ok a, w') => (Ok a, w')
           | (Throw e, w') => h e w'
           end.
Definition gets {A} (f : World -> A) : M A := fun w => (Ok (f w), w).
Definition modify (f : World -> World) : M unit := fun w => (Ok tt, f w).
Definition lift {A} (r : res A) : M A := fun w => (r, w).

Declare Scope js_scope.
Delimit Scope js_scope with js.
Notation "x <- m ;; k" := (bind m (fun x => k))
  (at level 100, m at next level, right associativity) : js_scope.
Notation "m ;; k" := (bind m (fun _ => k))
  (at level 100, right associativity) : js_scope.
Local Open Scope js_scope.

(** [if (c) m] *)
Definition when (c : bool) (m : M unit) : M unit := if c then m else ret tt.

(** Array.prototype.forEach *)
Fixpoint forEach {A} (l : list A) (f : A -> M unit) : M unit :=
  match l with
  | [] => ret tt
  | x :: l' => f x ;; forEach l' f
  end.

(** The state a computation leaves, whether it returned or threw. *)
Definition exec_state {A} (m : M A) (w : World) : World := snd (m w).
Definition returns {A} (m : M A) (w : World) : Prop := exists a, fst (m w) = Ok a.

(** ** The DOM and URL calls the module makes *)

Section DOM.
Context `{pf : Platform}.

(** document.getElementById: the id stands for the element, [None] for null. *)
Definition getElementById (id : jsstring) : M (option jsstring) :=
  gets (fun w => match byId (page w) !! id with Some _ => Some id | None => None end).

(** Reading a property of null is a TypeError. *)
Definition deref {A} (r : option A) : M A :=
  match r with Some x => ret x | None => throw TypeError end.

Definition alter_element (f : Element -> Element) (r : option jsstring) : M unit :=
  id <- deref r ;; modify (with_page (with_byId (alter f id))).

Definition style_display_set (r : option jsstring) (v : jsstring) : M unit :=
  alter_element (with_display v) r.
Definition innerHTML_set (r : option jsstring) (v : jsstring) : M unit :=
  alter_element (with_innerHTML v) r.
Definition appendChild (r : option jsstring) (a : Anchor) : M unit :=
  alter_element (with_appended (fun l => l ++ [a])) r.
Definition addEventListener (r : option jsstring) (type : jsstring) (h : Handler) : M unit :=
  alter_element (with_listeners (fun l => l ++ [(type, h)])) r.

(** [r.querySelector('button[data-hide]').addEventListener('click', h)] *)
Definition data_hide_button_addClickListener (r : option jsstring) (h : Handler) : M unit :=
  id <- deref r ;;
  e <- gets (fun w => byId (page w) !! id) ;;
  match e ≫= data_hide_button with
  | Some _ => modify (with_page (with_byId (alter (with_data_hide_button (fun l => l ++ [h])) id)))
  | None => throw TypeError
  end.

(** DOMTokenList: add and remove reject the empty token and tokens with
    ASCII whitespace; the token set holds no token twice. *)
Definition validate_token (t : jsstring) : M unit :=
  if truthy t then
    if existsb ascii_whitespace t then throw InvalidCharacterError else ret tt
  else throw SyntaxError.
Definition token_add (t : jsstring) (l : list jsstring) : list jsstring :=
  if bool_decide (t ∈ l) then l else l ++ [t].
Definition token_remove (t : jsstring) (l : list jsstring) : list jsstring :=
  filter (fun x => x ≠ t) l.
Definition token_contains (t : jsstring) (l : list jsstring) : bool :=
  bool_decide (t ∈ l).

Definition html_classList_remove (t : jsstring) : M unit :=
  validate_token t ;; modify (with_page (with_html_classList (token_remove t))).
Definition html_classList_add (t : jsstring) : M unit :=
  validate_token t ;; modify (with_page (with_html_classList (token_add t))).

(** document.querySelector('footer') *)
Definition footer : M (option unit) :=
  gets (fun w => match footer_classList (page w) with Some _ => Some tt | None => None end).
Definition footer_classList_remove (r : option unit) (t : jsstring) : M unit :=
  deref r ;; validate_token t ;; modify (with_page (with_footer_classList (token_remove t))).
Definition footer_classList_add (r : option unit) (t : jsstring) : M unit :=
  deref r ;; validate_token t ;; modify (with_page (with_footer_classList (token_add t))).

Definition classList_remove (r : option jsstring) (t : jsstring) : M unit :=
  id <- deref r ;; validate_token t ;;
  modify (with_page (with_byId (alter (with_classList (token_remove t)) id))).
Definition classList_add (r : option jsstring) (t : jsstring) : M unit :=
  id <- deref r ;; validate_token t ;;
  modify (with_page (with_byId (alter (with_classList (token_add t)) id))).
Definition classList_contains (r : option jsstring) (t : jsstring) : M bool :=
  id <- deref r ;;
  gets (fun w => match byId (page w) !! id with
                 | Some e => token_contains t (classList e)
                 | None => false
                 end).

(** jQuery's [$('#id').hide()]: nothing happens when no element has the id. *)
Definition jquery_hide (id : jsstring) : M unit :=
  modify (with_page (with_byId (alter (with_display (js "none")) id))).

Definition emit (e : Effect) : M unit := modify (with_log (fun l => l ++ [e])).

(** The callback is code of the host: its invocations are recorded and it
    is taken to return. *)
Definition call (callback : nat) (arg : option jsstring) : M unit := emit (Call callback arg).

Definition console_error (msg : jsstring) : M unit := emit (ConsoleError msg).

(** URL.createObjectURL: a fresh blob: URL that stays live until revoked. *)
Definition blob_scheme : jsstring := js "blob:".
Definition object_url (n : nat) : jsstring := blob_scheme ++ object_url_id n.
#[global] Arguments object_url : simpl never.
Definition createObjectURL (b : Blob) : M jsstring :=
  n <- gets issued ;;
  let url := object_url n in
  modify (fun w => with_issued S (with_objectURLs (fun l => l ++ [(url, b)]) w)) ;;
  ret url.
Definition revokeObjectURL (url : jsstring) : M unit :=
  modify (with_objectURLs (filter (fun p => p.1 ≠ url))).

(** Article nodes are reached through the reference the caller holds. *)
Definition node_at (w : World) (n : nat) : Node := default empty_node (nodes w !! n).
Definition update_node (n : nat) (f : Node -> Node) : M unit :=
  modify (fun w => with_nodes (insert n (f (node_at w n))) w).
Definition node_addEventListener (n : nat) (type : jsstring) (h : Handler) : M unit :=
  update_node n (fun nd => mkNode (attributes nd) (node_listeners nd ++ [(type, h)])).
Definition node_setAttribute (n : nat) (name value : jsstring) : M unit :=
  if valid_attribute_name name then
    update_node n (fun nd => mkNode (<[name := value]> (attributes nd)) (node_listeners nd)) ;;
    emit (SetAttribute n name value)
  else throw InvalidCharacterError.

(** An asynchronous operation is started: its continuation waits. *)
Definition await (r : Reaction) : M unit := modify (with_pending (fun l => l ++ [r])).

End DOM.

(** ** The functions of uiUtil.js *)

(** [/image\/webp/i] *)
Definition re_webp : regex := lit_i "image/webp".

(** [/^.*\/([^\/]+)$/] *)
Definition re_trailing_segment : regex :=
  [Bol; Star dot; One (chr "/"); Open] ++ plus (not_chr "/") ++ [Close; Eol].

(** The class of the file-name sanitiser of line 205, a regular
    expression with the g flag: slash, backslash, colon, star, question
    mark, double quote, less-than, greater-than and bar. *)
Definition unsafe_char (c : N) : bool :=
  existsb (N.eqb c) (dquote :: js "/\:*?<>|").
Definition re_unsafe : regex := [One unsafe_char].

(** [/^([^\d]+).+/] *)
Definition re_cache_prefix : regex :=
  [Bol; Open] ++ plus (fun c => negb (is_digit c)) ++ [Close] ++ plus dot.

(** [/_.*$/] *)
Definition re_from_underscore : regex := [One (chr "_"); Star dot; Eol].

(** [/^[^_]*/] *)
Definition re_to_underscore : regex := [Bol; Star (not_chr "_")].

(** [/\/[^/]*$/] *)
Definition re_last_segment : regex := [One (chr "/"); Star (not_chr "/"); Eol].

(** The download argument of displayFileDownloadAlert: a Boolean or a file name. *)
Inductive Directive : Type :=
| DBoolean (b : bool)
| DString (s : jsstring).

Section UiUtil.
Context `{pf : Platform}.

(** Lines 57-58: the function given to [then]. *)
Definition decode_then (node : nat) (nodeAttribute : jsstring) (callback : option nat)
    (uri : jsstring) : M unit :=
  match callback with Some cb => call cb (Some uri) | None => ret tt end ;;
  node_setAttribute node nodeAttribute uri.

(** Lines 60-61: the function given to [catch]. *)
Definition decode_catch (callback : option nat) : M unit :=
  console_error (js "There was an error decoding image in WebpMachine") ;;
  match callback with Some cb => call cb None | None => ret tt end.

(** Creates either a blob: or data: URI from the given content and sets
    the given attribute of the node to it (lines 48-74). *)
Definition feedNodeWithBlob (node : nat) (nodeAttribute : jsstring)
    (content : list Byte.byte) (mimeType : jsstring) (callback : option nat) : M unit :=
  if webpMachine && test re_webp mimeType then
    await (DecodeThenCatch node nodeAttribute callback)
  else
    let blob := new_Blob content mimeType in
    url <- createObjectURL blob ;;
    match callback with Some cb => call cb (Some url) | None => ret tt end ;;
    node_addEventListener node (js "load") (RevokeObjectURL url) ;;
    node_setAttribute node nodeAttribute url.

(** Displays the alert box for saving a file and starts the download
    (lines 188-228). *)
Definition displayFileDownloadAlert (title : jsstring) (download : Directive)
    (contentType : option jsstring) (content : list Byte.byte) : M unit :=
  downloadAlert <- getElementById (js "downloadAlert") ;;
  style_display_set downloadAlert (js "block") ;;
  setup <- gets (fun w => downloadAlertSetup (session w)) ;;
  when (negb setup) (data_hide_button_addClickListener downloadAlert HideDownloadAlert) ;;
  modify (with_session (with_downloadAlertSetup true)) ;;
  let contentType :=
    match contentType with
    | Some t => if truthy t then t else js "application/octet-stream"
    | None => js "application/octet-stream"
    end in
  let blob := new_Blob content contentType in
  filename <- match download with
              | DBoolean true => ret (replace re_trailing_segment [TGroup1] title)
              | DString s => ret s
              | DBoolean false => throw TypeError     (* false.replace is not a function *)
              end ;;
  let filename := replace_g re_unsafe [TLit (js "_")] filename in
  href <- createObjectURL blob ;;
  let a := mkAnchor href (js "_blank") contentType filename [js "alert-link"] filename [] in
  alertMessage <- getElementById (js "alertMessage") ;;
  innerHTML_set alertMessage
    (js "<strong>Download</strong> If the download does not start, please tap the following link: ") ;;
  appendChild alertMessage a ;;
  try_catch
    (if click_throws then throw TypeError else emit (Click a))
    (fun err =>
       when msSaveBlob
         (alter_element
            (with_appended (fmap (with_a_listeners
               (fun l => l ++ [(js "click", MsSaveBlobAndPrevent blob filename)]))))
            alertMessage)) ;;
  jquery_hide (js "searchingArticles").

(** Lines 243-252: the function given to [forEach]. *)
Definition check_key (cacheNames : CacheNames) (cachePrefix : jsstring)
    (updateAlert : option jsstring) (key : jsstring) : M unit :=
  if bool_decide (key = cn_app cacheNames) || bool_decide (key = cn_assets cacheNames) then ret tt
  else if truthyZ (indexOf key cachePrefix) then ret tt
  else
    modify (with_session (with_pwaUpdateNeeded true)) ;;
    style_display_set updateAlert (js "block") ;;
    persistentMessage <- getElementById (js "persistentMessage") ;;
    innerHTML_set persistentMessage
      (js "Version " ++ remove_first key cachePrefix ++
       js " is ready to install. (Re-launch app to install.)").

(** Lines 240-253: the function given to [caches.keys().then]. *)
Definition caches_keys_then (cacheNames : CacheNames) (keyList : list jsstring) : M unit :=
  updateAlert <- gets (fun w => updateAlert (session w)) ;;
  style_display_set updateAlert (js "none") ;;
  let cachePrefix := replace re_cache_prefix [TGroup1] (cn_app cacheNames) in
  forEach keyList (check_key cacheNames cachePrefix updateAlert).

(** Lines 236-255: the callback given to settingsStore.getCacheNames. *)
Definition getCacheNames_callback (cacheNames : option CacheNames) : M unit :=
  match cacheNames with
  | Some cn =>
      if negb (cn_error cn) then
        modify (with_session (with_params_cacheNames (Some cn))) ;;
        await (CachesKeysThen cn)
      else ret tt
  | None => ret tt
  end.

(** Check for update of the Service Worker (lines 234-257). *)
Definition checkUpdateStatus : M unit :=
  needed <- gets (fun w => pwaUpdateNeeded (session w)) ;;
  if serviceWorker_in_navigator && negb needed then await GetCacheNamesCallback
  else ret tt.

(** Lines 233 and 258-260, run once when the module is loaded. *)
Definition module_load : M unit :=
  found <- getElementById (js "updateAlert") ;;
  modify (with_session (with_updateAlert found)) ;;
  match found with
  | Some _ => data_hide_button_addClickListener found HideUpdateAlert
  | None => ret tt
  end.

End UiUtil.

Section Theme.
Context `{pf : Platform}.

Definition kiwixJSTheme : jsstring := js "kiwixJSTheme".

Definition is_sheet (c : HeadChild) : bool := bool_decide (hc_id c = kiwixJSTheme).

(** doc.getElementById('kiwixJSTheme'): the first such child of the head. *)
Definition find_sheet (d : Doc) : option HeadChild :=
  List.find is_sheet (doc_head d).

(** kiwixJSSheet.parentNode.removeChild(kiwixJSSheet) *)
Fixpoint remove_sheet (l : list HeadChild) : list HeadChild :=
  match l with
  | [] => []
  | c :: l' => if is_sheet c then l' else c :: remove_sheet l'
  end.

(** The argument of String.search in line 431. *)
Definition sheet_pattern (contentTheme : jsstring) : jsstring :=
  js "kiwixJS" ++ contentTheme ++ js ".css".

(** The href of the link of lines 436-442. *)
Definition sheet_href (contentTheme : jsstring) : jsstring :=
  let prefix := replace re_last_segment []
                  (location_protocol ++ js "//" ++ location_host ++ location_pathname) in
  prefix ++ js "/css/kiwixJS" ++ contentTheme ++ js ".css".

(** Displays the return link and handles its click event (lines 455-473). *)
Definition showReturnLink : M unit :=
  viewArticle <- getElementById (js "viewArticle") ;;
  style_display_set viewArticle (js "block") ;;
  addEventListener viewArticle (js "click") ReturnToArticle.

(** Lines 405-414: the classes of the shell root and of the footer, and
    the theme marker. *)
Definition theme_shell (footer : option unit)
    (oldAppTheme oldContentTheme appTheme contentTheme theme : jsstring) : M unit :=
  when (truthy oldAppTheme) (html_classList_remove oldAppTheme) ;;
  footer_classList_remove footer (or_else oldContentTheme (js "_light")) ;;
  when (truthy appTheme) (html_classList_add appTheme) ;;
  footer_classList_add footer (or_else contentTheme (js "_light")) ;;
  modify (with_page (with_html_dataset_theme (fun _ => Some theme))).

(** Lines 416-420: the help of the previous theme and that of the new one. *)
Definition theme_help (oldTheme theme : jsstring) : M unit :=
  oldHelp <- getElementById (oldTheme ++ js "-help") ;;
  when (bool_decide (is_Some oldHelp)) (style_display_set oldHelp (js "none")) ;;
  help <- getElementById (theme ++ js "-help") ;;
  when (bool_decide (is_Some help)) (style_display_set help (js "block")).

(** Lines 423-445: the class of the content frame and the stylesheet
    link of the embedded document. *)
Definition theme_content (iframe : option jsstring) (doc : option Doc)
    (kiwixJSSheet : option HeadChild) (oldContentTheme contentTheme : jsstring) : M unit :=
  when (truthy oldContentTheme && negb (bool_decide (oldContentTheme = contentTheme)))
    (classList_remove iframe oldContentTheme ;;
     when (bool_decide (is_Some kiwixJSSheet))
       (* kiwixJSSheet.disabled = true, then the sheet leaves the document *)
       (modify (with_page (with_contentDocument
          (fun d => mkDoc (doc_title d) (remove_sheet (doc_head d))))))) ;;
  attach <- (if truthy contentTheme then
               match kiwixJSSheet with
               | None => ret true
               | Some sheet =>
                   i <- lift (String_search (href_property (hc_href sheet))
                                            (sheet_pattern contentTheme)) ;;
                   ret (i =? -1)%Z          (* !~i *)
               end
             else ret false) ;;
  when attach
    (classList_add iframe contentTheme ;;
     when (bool_decide (is_Some doc))
       (let link := mkHeadChild kiwixJSTheme (js "stylesheet") (js "text/css")
                      (sheet_href contentTheme) in
        modify (with_page (with_contentDocument
          (fun d => mkDoc (doc_title d) (doc_head d ++ [link])))))).

(** Lines 448-451: the return link, in Config and over a real document. *)
Definition theme_return_link (doc : option Doc) : M unit :=
  liConfigureNav <- getElementById (js "liConfigureNav") ;;
  active <- classList_contains liConfigureNav (js "active") ;;
  when (active && match doc with
                  | Some d => negb (bool_decide
                      (doc_title d = js "Placeholder for injecting an article into the iframe"))
                  | None => false
                  end)
    showReturnLink.

(** Applies the requested app and content theme (lines 393-452). *)
Definition applyAppTheme (theme : jsstring) : M unit :=
  footer <- footer ;;
  oldTheme <- gets (fun w => default [] (html_dataset_theme (page w))) ;;   (* dataset.theme || '' *)
  iframe <- getElementById (js "articleContent") ;;
  deref iframe ;;
  doc <- gets (fun w => contentDocument (page w)) ;;
  let kiwixJSSheet := doc ≫= find_sheet in
  let appTheme := replace re_from_underscore [] theme in
  let contentTheme := replace re_to_underscore [] theme in
  let oldAppTheme := replace re_from_underscore [] oldTheme in
  let oldContentTheme := replace re_to_underscore [] oldTheme in
  theme_shell footer oldAppTheme oldContentTheme appTheme contentTheme theme ;;
  theme_help oldTheme theme ;;
  theme_content iframe doc kiwixJSSheet oldContentTheme contentTheme ;;
  theme_return_link doc.

End Theme.

(** ** The session: calls of the host and events of the environment *)

Section Session.
Context `{pf : Platform}.

(** What a settlement does to the continuation it reaches; [None] when
    the settlement is not one of that operation. An exception of the
    function given to [then] reaches the one given to [catch]. *)
Definition react (r : Reaction) (s : Settlement) : option (M unit) :=
  match r, s with
  | DecodeThenCatch node nodeAttribute callback, Decoded uri =>
      Some (try_catch (decode_then node nodeAttribute callback uri)
                      (fun err => decode_catch callback))
  | DecodeThenCatch _ _ callback, DecodeRejected => Some (decode_catch callback)
  | GetCacheNamesCallback, CacheNamesReply cacheNames => Some (getCacheNames_callback cacheNames)
  | CachesKeysThen cacheNames, KeyList keyList => Some (caches_keys_then cacheNames keyList)
  | CachesKeysThen _, KeysRejected => Some (ret tt)
  | _, _ => None
  end.

(** The environment settles the [i]-th operation in flight. *)
Definition settle (i : nat) (s : Settlement) : M unit :=
  p <- gets pending ;;
  match p !! i with
  | Some r =>
      match react r s with
      | Some m => modify (with_pending (delete i)) ;; m
      | None => ret tt
      end
  | None => ret tt
  end.

(** The listeners whose body acts on the modelled state alone. *)
Definition listener_body (h : Handler) : option (M unit) :=
  match h with
  | HideDownloadAlert => Some (style_display_set (Some (js "downloadAlert")) (js "none"))
  | HideUpdateAlert =>
      Some (r <- gets (fun w => updateAlert (session w)) ;; style_display_set r (js "none"))
  | RevokeObjectURL url => Some (revokeObjectURL url)
  | MsSaveBlobAndPrevent _ _ => None
  | ReturnToArticle => None
  end.

(** An event is dispatched to listeners in the order of their
    registration; an exception in one does not stop the next. *)
Definition run_listener (h : Handler) : M unit :=
  match listener_body h with
  | Some m => try_catch m (fun _ => ret tt)
  | None => ret tt
  end.
Definition dispatch (hs : list Handler) : M unit := forEach hs run_listener.

(** The user clicks the button[data-hide] of the element with the id. *)
Definition click_data_hide (id : jsstring) : M unit :=
  e <- gets (fun w => byId (page w) !! id) ;;
  dispatch (default [] (e ≫= data_hide_button)).

(** The load event of a node. *)
Definition fire_load (n : nat) : M unit :=
  nd <- gets (fun w => node_at w n) ;;
  dispatch (snd <$> filter (fun p => p.1 = js "load") (node_listeners nd)).

Inductive Event : Type :=
| FeedNodeWithBlob (node : nat) (nodeAttribute : jsstring) (content : list Byte.byte)
    (mimeType : jsstring) (callback : option nat)
| DisplayFileDownloadAlert (title : jsstring) (download : Directive)
    (contentType : option jsstring) (content : list Byte.byte)
| CheckUpdateStatus
| ApplyAppTheme (theme : jsstring)
| Settle (i : nat) (s : Settlement)
| ClickDataHide (id : jsstring)
| Load (node : nat).

Definition step (e : Event) : M unit :=
  match e with
  | FeedNodeWithBlob n a c m cb => feedNodeWithBlob n a c m cb
  | DisplayFileDownloadAlert t d ct c => displayFileDownloadAlert t d ct c
  | CheckUpdateStatus => checkUpdateStatus
  | ApplyAppTheme t => applyAppTheme t
  | Settle i s => settle i s
  | ClickDataHide id => click_data_hide id
  | Load n => fire_load n
  end.

(** A run of the session: an uncaught exception ends the event, not the
    session. *)
Definition run (es : list Event) (w : World) : World :=
  fold_left (fun w e => exec_state (step e) w) es w.

End Session.

(** ** A concrete platform and a concrete page, for running the model *)

Module Example.

(** A pattern of letters, digits, underscores, hyphens and dots has no
    syntax character but the dot: as a regular expression it is the
    sequence of its units, the dot matching any unit but a line end. *)
Definition plain_unit (c : N) : bool :=
  ((48 <=? c) && (c <=? 57) || (65 <=? c) && (c <=? 90) || (97 <=? c) && (c <=? 122)
   || (c =? 95) || (c =? 45) || (c =? 46))%N.
Definition regex_of_plain (p : jsstring) : regex :=
  map (fun c => if (c =? 46)%N then One dot else One (N.eqb c)) p.
Definition plain_search (s p : jsstring) : res Z :=
  if forallb plain_unit p then
    match regexp_exec (regex_of_plain p) s with
    | Some (b, _, _) => Ok (Z.of_nat b)
    | None => Ok (-1)%Z
    end
  else Throw SyntaxError.

Definition decimal_digit (n : nat) : N := (48 + N.of_nat (n mod 10))%N.

#[local] Instance browser : Platform := {|
  webpMachine := false;
  serviceWorker_in_navigator := true;
  msSaveBlob := false;
  click_throws := false;
  location_protocol := js "https:";
  location_host := js "kiwix.example";
  location_pathname := js "/www/index.html";
  object_url_id := fun n => js "https://kiwix.example/" ++ [decimal_digit n];
  valid_attribute_name := fun s => truthy s && negb (existsb ascii_whitespace s);
  String_search := plain_search;
  href_property := fun s => s
|}.

(** The same platform with the WebP polyfill loaded. *)
Definition legacy_browser : Platform := {|
  webpMachine := true;
  serviceWorker_in_navigator := true;
  msSaveBlob := true;
  click_throws := true;
  location_protocol := js "https:";
  location_host := js "kiwix.example";
  location_pathname := js "/www/index.html";
  object_url_id := fun n => js "https://kiwix.example/" ++ [decimal_digit n];
  valid_attribute_name := fun s => truthy s && negb (existsb ascii_whitespace s);
  String_search := plain_search;
  href_property := fun s => s
|}.

Definition element (shown : string) (classes : list jsstring) (button : bool) : Element :=
  mkElement (js shown) classes [] [] [] (if button then Some [] else None).

(** The elements of index.html that the module names. *)
Definition markup : gmap (list N) Element :=
  list_to_map
    [ (js "downloadAlert", element "none" [] true);
      (js "alertMessage", element "" [] false);
      (js "updateAlert", element "none" [] true);
      (js "persistentMessage", element "" [] false);
      (js "searchingArticles", element "block" [] false);
      (js "articleContent", element "block" [] false);
      (js "liConfigureNav", element "" [js "active"] false);
      (js "viewArticle", element "none" [] false);
      (js "dark_invert-help", element "none" [] false) ].

Definition article : Doc := mkDoc (js "Ray Charles") [].

Definition fresh_page : Page := mkPage [] None (Some []) markup (Some article).

(** The world before the module is loaded. *)
Definition fresh : World :=
  mkWorld fresh_page (mkSession false None false None) [] 0 ∅ [] [].

(** The world once the module is loaded. *)
Definition loaded : World := exec_state module_load fresh.

(** The cache names of version 3.1.9 and a cache storage that also
    holds the caches of version 3.2.0 and of another application. *)
Definition cacheNames : CacheNames :=
  mkCacheNames (js "kiwix-appCache-3.1.9") (js "kiwixjs-assetsCache") false.
Definition keyList : list jsstring :=
  [js "kiwix-appCache-3.1.9"; js "kiwixjs-assetsCache"; js "other-app-1";
   js "kiwix-appCache-3.2.0"].
Definition stale_keyList : list jsstring :=
  [js "kiwix-appCache-3.1.9"; js "kiwixjs-assetsCache"; js "other-app-1"].

(** The page with the theme dark_mwInvert applied. *)
Definition themed : World := exec_state (applyAppTheme (js "dark_mwInvert")) loaded.

(** The loaded page over an article that carries the stylesheet of the
    theme _invert, while no theme marker is set. *)
Definition stale_sheet : HeadChild :=
  mkHeadChild kiwixJSTheme (js "stylesheet") (js "text/css")
    (js "https://kiwix.example/www/css/kiwixJS_invert.css").
Definition mismatched : World :=
  with_page (with_contentDocument (fun d => mkDoc (doc_title d) [stale_sheet])) loaded.

(** A check that finds the newer version. *)
Definition check_sees_update : list Event :=
  [CheckUpdateStatus; Settle 0 (CacheNamesReply (Some cacheNames)); Settle 0 (KeyList keyList)].

End Example.


(** ** What the host page is expected to hold, and what is read off it *)

Definition has_element (w : World) (id : jsstring) : Prop :=
  is_Some (byId (page w) !! id).

Definition has_data_hide_button (w : World) (id : jsstring) : Prop :=
  is_Some (byId (page w) !! id ≫= data_hide_button).

Definition element_display (w : World) (id : jsstring) : option jsstring :=
  display <$> byId (page w) !! id.

Definition element_innerHTML (w : World) (id : jsstring) : option jsstring :=
  innerHTML <$> byId (page w) !! id.

(** The file name of the link that the download alert offers. *)
Definition offered_download (w : World) : option jsstring :=
  byId (page w) !! js "alertMessage" ≫= fun e => a_download <$> last (appended e).

(** The listeners of the return link. *)
Definition return_link_listeners (w : World) : list (jsstring * Handler) :=
  default [] (listeners <$> byId (page w) !! js "viewArticle").

(** The click listeners of the button[data-hide] of an element. *)
Definition data_hide_listeners (w : World) (id : jsstring) : list Handler :=
  default [] (byId (page w) !! id ≫= data_hide_button).


(** ** Relations that every step of a computation keeps *)

(** [stable R m]: the state [m] leaves is related by [R] to the one it
    started in, whether [m] returns or throws. *)
Definition stable (R : relation World) {A} (m : M A) : Prop :=
  forall w, R w (exec_state m w).

(** The pending-update flag, once true, stays true. *)
Definition flag_kept (w w' : World) : Prop :=
  pwaUpdateNeeded (session w) = true -> pwaUpdateNeeded (session w') = true.

(** The dismiss buttons keep their listeners and the module its one-time
    flag and its reference to the update alert. *)
Definition buttons_kept (w w' : World) : Prop :=
  (forall id, byId (page w') !! id ≫= data_hide_button
              = byId (page w) !! id ≫= data_hide_button) /\
  downloadAlertSetup (session w') = downloadAlertSetup (session w) /\
  updateAlert (session w') = updateAlert (session w).

(** The shell root and the footer keep their classes and the theme marker. *)
Definition shell_kept (w w' : World) : Prop :=
  html_classList (page w') = html_classList (page w) /\
  footer_classList (page w') = footer_classList (page w) /\
  html_dataset_theme (page w') = html_dataset_theme (page w).

Definition is_HideDownloadAlert (h : Handler) : bool :=
  match h with HideDownloadAlert => true | _ => false end.
Definition is_HideUpdateAlert (h : Handler) : bool :=
  match h with HideUpdateAlert => true | _ => false end.
Definition is_DisplayFileDownloadAlert (e : Event) : bool :=
  match e with DisplayFileDownloadAlert _ _ _ _ => true | _ => false end.

(** How often a listener of a kind is attached. *)
Definition attached (kind : Handler -> bool) (l : list Handler) : nat :=
  length (List.filter kind l).

(** The values the pending-update flag takes along a run, and how often
    it goes from false to true. *)
Fixpoint flag_history `{pf : Platform} (es : list Event) (w : World) : list bool :=
  match es with
  | [] => []
  | e :: es' =>
      let w' := exec_state (step e) w in
      pwaUpdateNeeded (session w') :: flag_history es' w'
  end.
Fixpoint rises (prev : bool) (l : list bool) : nat :=
  match l with
  | [] => 0
  | b :: l' => (if negb prev && b then 1 else 0) + rises b l'
  end.


(** The dismiss listeners are in place: that of the download alert once
    iff the one-time flag [b] is set, that of the update alert once. *)
Definition listeners_once (b : bool) (w : World) : Prop :=
  has_data_hide_button w (js "downloadAlert") /\
  downloadAlertSetup (session w) = b /\
  attached is_HideDownloadAlert (data_hide_listeners w (js "downloadAlert"))
    = (if b then 1 else 0) /\
  attached is_HideUpdateAlert (data_hide_listeners w (js "updateAlert")) = 1.


(** The world with the update alert hidden. *)
Definition banner_hidden (w : World) : World :=
  with_page (with_byId (alter (with_display (js "none")) (js "updateAlert"))) w.

(** The message that announces a version. *)
Definition version_message (version : jsstring) : jsstring :=
  js "Version " ++ version ++ js " is ready to install. (Re-launch app to install.)".


(** An object URL is live from its creation to its release. *)
Definition live (w : World) (url : jsstring) : Prop := url ∈ (fst <$> objectURLs w).

(** A released object URL stays released. *)
Definition not_live_kept (url : jsstring) (w w' : World) : Prop :=
  ~ live w url -> ~ live w' url.


(** No element appears on the page or leaves it. *)
Definition markup_kept (w w' : World) : Prop :=
  forall id, is_Some (byId (page w') !! id) <-> is_Some (byId (page w) !! id).

(** The shell, the classes of every element and the embedded document
    are as before. *)
Definition frame_kept (w w' : World) : Prop :=
  shell_kept w w' /\
  (forall id, classList <$> byId (page w') !! id = classList <$> byId (page w) !! id) /\
  contentDocument (page w') = contentDocument (page w).


(** ** What the theme engine decides and leaves *)

Section ThemeObservations.
Context `{pf : Platform}.

(** What line 431 finds out: whether a link is to be attached. *)
Definition attach_decided (sheet : option HeadChild) (contentTheme : jsstring)
    (attach : bool) : Prop :=
  if truthy contentTheme then
    match sheet with
    | None => attach = true
    | Some s =>
        exists i, String_search (href_property (hc_href s)) (sheet_pattern contentTheme) = Ok i /\
                  attach = (i =? -1)%Z
    end
  else attach = false.

(** What lines 423-445 make of the children of the head. *)
Definition head_after (remove attach : bool) (contentTheme : jsstring)
    (l : list HeadChild) : list HeadChild :=
  (if attach
   then fun l => l ++ [mkHeadChild kiwixJSTheme (js "stylesheet") (js "text/css")
                         (sheet_href contentTheme)]
   else id)
    ((if remove then remove_sheet else id) l).

(** The classes of the content frame. *)
Definition frame_classes (w : World) : option (list jsstring) :=
  classList <$> byId (page w) !! js "articleContent".

(** The embedded document holds at most one theme stylesheet; that
    sheet, if any, is found by the search of line 431 exactly when the
    call is not about to remove it; and a sheet injected for the content
    theme is found by the search for that theme. *)
Definition sheet_agrees (theme : jsstring) (w : World) : Prop :=
  let oldContentTheme := replace re_to_underscore [] (default [] (html_dataset_theme (page w))) in
  let contentTheme := replace re_to_underscore [] theme in
  match contentDocument (page w) with
  | None => True
  | Some d =>
      length (List.filter is_sheet (doc_head d)) <= 1 /\
      (truthy contentTheme = true ->
       (exists j, String_search (href_property (sheet_href contentTheme))
                    (sheet_pattern contentTheme) = Ok j /\ (j =? -1)%Z = false) /\
       (forall s, find_sheet d = Some s ->
          exists i, String_search (href_property (hc_href s)) (sheet_pattern contentTheme) = Ok i /\
                    (i =? -1)%Z = truthy oldContentTheme
                                  && negb (bool_decide (oldContentTheme = contentTheme))))
  end.

(** A token that DOMTokenList takes when it is not empty. *)
Definition tokens_valid (t : jsstring) : bool := negb (existsb ascii_whitespace t).

End ThemeObservations.


(** ** Shapes of the patterns *)

(** A unit [a], then units of a class up to the end of the input: the
    shape of the two patterns of removeUrlParameters. *)
Definition suffix_cut (a : ascii) (q : N -> bool) : regex := [One (chr a); Star q; Eol].

(** Every unit [a] of the input has a unit outside the class behind it. *)
Definition guarded (a : ascii) (q : N -> bool) (s : jsstring) : Prop :=
  forall u t, s = u ++ N_of_ascii a :: t -> Exists (fun c => q c = false) t.

(** ** What the download alert offers *)

(** A file name with every unit of the class of line 205 replaced by an
    underscore. *)
Definition underscored (s : jsstring) : jsstring :=
  map (fun c => if unsafe_char c then N_of_ascii "_" else c) s.

(** The links in the message area of the download alert. *)
Definition download_links (w : World) : list Anchor :=
  default [] (appended <$> byId (page w) !! js "alertMessage").

(** Line 199: the content type handed to the Blob constructor and set
    on the link. *)
Definition download_type (contentType : option jsstring) : jsstring :=
  match contentType with
  | Some t => if truthy t then t else js "application/octet-stream"
  | None => js "application/octet-stream"
  end.

(** Line 203: the file name before it is made safe; [false] has none. *)
Definition download_name (title : jsstring) (download : Directive) : option jsstring :=
  match download with
  | DBoolean true => Some (replace re_trailing_segment [TGroup1] title)
  | DString s => Some s
  | DBoolean false => None
  end.

(** Lines 200-211: the link, before any listener is put on it. *)
Definition download_anchor `{pf : Platform} (w : World) (contentType filename : jsstring) : Anchor :=
  mkAnchor (object_url (issued w)) (js "_blank") contentType filename
    [js "alert-link"] filename [].

Definition download_prompt : jsstring :=
  js "<strong>Download</strong> If the download does not start, please tap the following link: ".

(** ** Relations kept along a session *)

(** No listener leaves a node of the article. *)
Definition node_listeners_kept (w w' : World) : Prop :=
  forall n, node_listeners (node_at w n) `prefix_of` node_listeners (node_at w' n).

(** Lines 244-246: the keys that announce a version. *)
Definition announces (cacheNames : CacheNames) (key : jsstring) : bool :=
  negb (bool_decide (key = cn_app cacheNames) || bool_decide (key = cn_assets cacheNames))
  && starts_with (replace re_cache_prefix [TGroup1] (cn_app cacheNames)) key.

(** Without a reference to the update alert, the module keeps it that
    way and the pending-update flag as it is. *)
Definition unannounced (w w' : World) : Prop :=
  updateAlert (session w) = None ->
  updateAlert (session w') = None /\
  pwaUpdateNeeded (session w') = pwaUpdateNeeded (session w).

(** ** The theme of the page *)

(** The theme that the page is marked with. *)
Definition marked_theme (w : World) : jsstring := default [] (html_dataset_theme (page w)).

(** Line 448: the Config tab is active and a real article is loaded. *)
Definition in_config (w : World) : bool :=
  match byId (page w) !! js "liConfigureNav" with
  | Some e => token_contains (js "active") (classList e)
  | None => false
  end
  && match contentDocument (page w) with
     | Some d => negb (bool_decide
                   (doc_title d = js "Placeholder for injecting an article into the iframe"))
     | None => false
     end.

(** The listeners of every element and the classes of every element but
    the content frame are as before. *)
Definition nav_kept (w w' : World) : Prop :=
  (forall id, listeners <$> byId (page w') !! id = listeners <$> byId (page w) !! id) /\
  (forall id, id <> js "articleContent" ->
              classList <$> byId (page w') !! id = classList <$> byId (page w) !! id).

(** The display of every element but the return link is as before. *)
Definition displays_kept (w w' : World) : Prop :=
  forall id, id <> js "viewArticle" -> element_display w' id = element_display w id.

(** ** The spinner, the viewport test and the animation classes *)

Section Spinner.
Context `{pf : Platform}.

(** Show or hide the spinner together with a message (lines 280-292);
    [None] is the null message. *)
Definition spinnerDisplay (show : bool) (message : option jsstring) : M unit :=
  searchingArticles <- getElementById (js "searchingArticles") ;;
  spinnerMessage <- getElementById (js "cachingAssets") ;;
  (if show then style_display_set searchingArticles (js "block")
   else style_display_set searchingArticles (js "none")) ;;
  if truthy (default [] message) then
    innerHTML_set spinnerMessage (default [] message) ;;
    style_display_set spinnerMessage (js "block")
  else
    innerHTML_set spinnerMessage (js "Caching assets...") ;;
    style_display_set spinnerMessage (js "none").

(** jQuery's [$('#id').removeClass(name)] for a single class name:
    nothing happens when no element has the id, and nothing is thrown. *)
Definition jquery_removeClass (id name : jsstring) : M unit :=
  modify (with_page (with_byId (alter (with_classList (token_remove name)) id))).

(** Removes the animation effect between various sections (lines 314-318). *)
Definition removeAnimationClasses : M unit :=
  jquery_removeClass (js "about") (js "slideIn_L") ;;
  jquery_removeClass (js "about") (js "slideOut_R") ;;
  jquery_removeClass (js "configuration") (js "slideIn_L") ;;
  jquery_removeClass (js "configuration") (js "slideIn_R") ;;
  jquery_removeClass (js "configuration") (js "slideOut_L") ;;
  jquery_removeClass (js "configuration") (js "slideOut_R") ;;
  jquery_removeClass (js "articleContent") (js "slideIn_R") ;;
  jquery_removeClass (js "articleContent") (js "slideOut_L").

End Spinner.

(** What getBoundingClientRect returns, as far as line 303 reads it. The
    coordinates are finite numbers, which compare as the rationals they
    are. *)
Record DOMRect : Type := mkDOMRect {
  rect_top : Q;
  rect_bottom : Q;
  rect_left : Q;
  rect_right : Q
}.

(** [a < b] and [a > b] on finite numbers. *)
Definition num_lt (a b : Q) : bool := negb (Qle_bool b a).
Definition num_gt (a b : Q) : bool := num_lt b a.

(** Checks whether an element is partially or fully inside the current
    viewport (lines 303-309): [rect] is el.getBoundingClientRect(), and
    the window has the given inner height and width. *)
Definition isElementInView (rect : DOMRect) (innerHeight innerWidth : Q) (fully : bool) : bool :=
  if fully then
    num_gt (rect_top rect) 0 && num_lt (rect_bottom rect) innerHeight
    && num_gt (rect_left rect) 0 && num_lt (rect_right rect) innerWidth
  else
    num_lt (rect_top rect) innerHeight && num_gt (rect_bottom rect) 0
    && num_lt (rect_left rect) innerWidth && num_gt (rect_right rect) 0.

(** ** The slide animation between sections *)

(** What jQuery reads from the layout of the page: whether the element
    with the id takes no space, which is what [:hidden] asks. *)
Class Layout : Type := {
  takes_no_space : World -> jsstring -> bool
}.

(** The functions that applyAnimationToSection hands to setTimeout, each
    with the delay 300. *)
Inductive Timeout : Type :=
| HideSection (id : jsstring)      (* $('#id').hide() *)
| ShowSection (id : jsstring).     (* $('#id').show() *)

Section Animation.
Context `{pf : Platform} `{ly : Layout}.

(** [$('#id').is(':hidden')]: false when no element has the id. *)
Definition jquery_is_hidden (id : jsstring) : M bool :=
  gets (fun w => match byId (page w) !! id with
                 | Some _ => takes_no_space w id
                 | None => false
                 end).

(** jQuery's [$('#id').addClass(name)] for a single class name. *)
Definition jquery_addClass (id name : jsstring) : M unit :=
  modify (with_page (with_byId (alter (with_classList (token_add name)) id))).

(** Adds the slide animation between different sections (lines
    326-379). The value is the list of the functions handed to
    setTimeout, in the order of the calls. *)
Definition applyAnimationToSection (section : jsstring) : M (list Timeout) :=
  if bool_decide (section = js "home") then
    hidden <- jquery_is_hidden (js "configuration") ;;
    t1 <- (if negb hidden then
             jquery_addClass (js "configuration") (js "slideOut_R") ;;
             ret [HideSection (js "configuration")]
           else ret []) ;;
    hidden <- jquery_is_hidden (js "about") ;;
    t2 <- (if negb hidden then
             jquery_addClass (js "about") (js "slideOut_R") ;;
             ret [HideSection (js "about")]
           else ret []) ;;
    jquery_addClass (js "articleContent") (js "slideIn_R") ;;
    ret (t1 ++ t2 ++ [ShowSection (js "articleContent")])
  else if bool_decide (section = js "config") then
    hidden <- jquery_is_hidden (js "about") ;;
    t1 <- (if negb hidden then
             jquery_addClass (js "about") (js "slideOut_R") ;;
             jquery_addClass (js "configuration") (js "slideIn_R") ;;
             ret [HideSection (js "about")]
           else
             hidden <- jquery_is_hidden (js "articleContent") ;;
             if negb hidden then
               jquery_addClass (js "articleContent") (js "slideOut_L") ;;
               jquery_addClass (js "configuration") (js "slideIn_L") ;;
               ret [HideSection (js "articleContent")]
             else ret []) ;;
    ret (t1 ++ [ShowSection (js "configuration")])
  else if bool_decide (section = js "about") then
    hidden <- jquery_is_hidden (js "configuration") ;;
    t1 <- (if negb hidden then
             jquery_addClass (js "configuration") (js "slideOut_L") ;;
             ret [HideSection (js "configuration")]
           else ret []) ;;
    hidden <- jquery_is_hidden (js "articleContent") ;;
    t2 <- (if negb hidden then
             jquery_addClass (js "articleContent") (js "slideOut_L") ;;
             ret [HideSection (js "articleContent")]
           else ret []) ;;
    jquery_addClass (js "about") (js "slideIn_L") ;;
    ret (t1 ++ t2 ++ [ShowSection (js "about")])
  else ret [].

(** Lines 458-472: what a click on the return link does; [viewArticle]
    is the element that showReturnLink found, and [showUIAnimations] is
    params.showUIAnimations. e.preventDefault() acts on the event alone.
    The value is the list of the functions handed to setTimeout. *)
Definition returnToArticle (showUIAnimations : bool) : M (list Timeout) :=
  liConfigureNav <- getElementById (js "liConfigureNav") ;;
  classList_remove liConfigureNav (js "active") ;;
  liHomeNav <- getElementById (js "liHomeNav") ;;
  classList_add liHomeNav (js "active") ;;
  removeAnimationClasses ;;
  timeouts <- (if showUIAnimations then applyAnimationToSection (js "home")
               else
                 configuration <- getElementById (js "configuration") ;;
                 style_display_set configuration (js "none") ;;
                 articleContent <- getElementById (js "articleContent") ;;
                 style_display_set articleContent (js "block") ;;
                 ret []) ;;
  navigationButtons <- getElementById (js "navigationButtons") ;;
  style_display_set navigationButtons (js "inline-flex") ;;
  formArticleSearch <- getElementById (js "formArticleSearch") ;;
  style_display_set formArticleSearch (js "block") ;;
  style_display_set (Some (js "viewArticle")) (js "none") ;;
  ret timeouts.

End Animation.

(** The classes that removeAnimationClasses takes off an element. *)
Definition animation_classes (id : jsstring) : list jsstring :=
  if bool_decide (id = js "about") then [js "slideIn_L"; js "slideOut_R"]
  else if bool_decide (id = js "configuration")
       then [js "slideIn_L"; js "slideIn_R"; js "slideOut_L"; js "slideOut_R"]
  else if bool_decide (id = js "articleContent") then [js "slideIn_R"; js "slideOut_L"]
  else [].

(** The classes of an element of the page. *)
Definition element_classes (w : World) (id : jsstring) : list jsstring :=
  default [] (classList <$> byId (page w) !! id).

Definition is_ShowSection (t : Timeout) : bool :=
  match t with ShowSection _ => true | HideSection _ => false end.

(** The element that shows a section. *)
Definition section_element (section : jsstring) : option jsstring :=
  if bool_decide (section = js "home") then Some (js "articleContent")
  else if bool_decide (section = js "config") then Some (js "configuration")
  else if bool_decide (section = js "about") then Some (js "about")
  else None.

(** The page after a click on the return link, without animations:
    what the click makes of the element with the id. *)
Definition returned (id : jsstring) (e : Element) : Element :=
  let classes l :=
    filter (fun x => x ∉ animation_classes id)
      (if bool_decide (id = js "liHomeNav") then token_add (js "active") l
       else if bool_decide (id = js "liConfigureNav") then token_remove (js "active") l
       else l) in
  let shown :=
    if bool_decide (id = js "configuration") then Some (js "none")
    else if bool_decide (id = js "articleContent") then Some (js "block")
    else if bool_decide (id = js "navigationButtons") then Some (js "inline-flex")
    else if bool_decide (id = js "formArticleSearch") then Some (js "block")
    else if bool_decide (id = js "viewArticle") then Some (js "none")
    else None in
  with_classList classes (match shown with Some v => with_display v e | None => e end).

(** ** More concrete pages *)

Module Sample.

(** A page without any of the elements. *)
Definition bare : World :=
  mkWorld (mkPage [] None None ∅ None) (mkSession false None false None) [] 0 ∅ [] [].

(** The loaded page of [Example] without its footer. *)
Definition footerless : World :=
  with_page (fun p => mkPage (html_classList p) (html_dataset_theme p) None (byId p)
                        (contentDocument p))
    Example.loaded.

(** The sections and the navigation of index.html, in Config. *)
Definition shell_markup : gmap (list N) Element :=
  list_to_map
    [ (js "searchingArticles", Example.element "none" [] false);
      (js "cachingAssets", Example.element "none" [] false);
      (js "liHomeNav", Example.element "" [] false);
      (js "liConfigureNav", Example.element "" [js "active"] false);
      (js "about", Example.element "none" [] false);
      (js "configuration", Example.element "block" [] false);
      (js "articleContent", Example.element "none" [] false);
      (js "navigationButtons", Example.element "none" [] false);
      (js "formArticleSearch", Example.element "none" [] false);
      (js "viewArticle", Example.element "block" [] false) ].

Definition shell : World :=
  mkWorld (mkPage [] None (Some []) shell_markup (Some Example.article))
    (mkSession false None false None) [] 0 ∅ [] [].

(** A layout in which an element takes no space when its own display
    is none. *)
Definition by_display : Layout := {|
  takes_no_space := fun w id => bool_decide (element_display w id = Some (js "none"))
|}.

(** An element in the middle of a window of 800 by 600. *)
Definition inside : DOMRect := mkDOMRect 100 200 50 300.

End Sample.

(** ** The active content warning *)

(** The elements that displayActiveContentWarning and its listeners
    reach: by their id, or as the parent node of the element with an id
    (an element that getElementById finds is in the document and has a
    parent node). The parent of an option is taken to be none of the
    elements that are reached by their id. *)
Inductive Ref : Type :=
| ById (id : jsstring)
| ParentOf (id : jsstring).

#[global] Instance Ref_eq_dec : EqDecision Ref.
Proof. solve_decision. Defined.

#[global] Instance Ref_countable : Countable Ref :=
  inj_countable'
    (fun r => match r with ById i => inl i | ParentOf i => inr i end)
    (fun s => match s with inl i => ById i | inr i => ParentOf i end)
    (fun r => match r with ById _ => eq_refl | ParentOf _ => eq_refl end).

(** The listeners of lines 146-176, one constructor for each function
    expression, with the variables it closes over. *)
Inductive WarningHandler : Type :=
| HideWarning                        (* lines 153-155 *)
| ShowOption (id : jsstring)         (* lines 159-173 *)
| ClearHighlight (thisLabel : Ref).  (* lines 167-170 *)

Record Control : Type := mkControl {
  c_display : jsstring;                              (* style.display *)
  c_borderColor : jsstring;                          (* style.borderColor *)
  c_borderStyle : jsstring;                          (* style.borderStyle *)
  c_listeners : list (jsstring * WarningHandler);
  (* the click listeners of querySelector('button[data-hide]'), when
     the element has such a descendant *)
  c_data_hide : option (list WarningHandler)
}.

(** An element nothing is known of: no style of its own, no listener. *)
Definition blank : Control := mkControl [] [] [] [] None.

(** The Config tab and the warning, as far as lines 146-176 reach. *)
Record Config : Type := mkConfig {
  controls : gmap Ref Control;               (* the elements; those [ById] are what getElementById finds *)
  activeContentWarningSetup : bool;          (* line 146 *)
  clicked : list jsstring                    (* the ids of the elements on which click() was called *)
}.

Definition control (c : Config) (r : Ref) : Control := default blank (controls c !! r).

Definition with_controls (f : gmap Ref Control -> gmap Ref Control) (c : Config) : Config :=
  mkConfig (f (controls c)) (activeContentWarningSetup c) (clicked c).
Definition with_activeContentWarningSetup (b : bool) (c : Config) : Config :=
  mkConfig (controls c) b (clicked c).
Definition with_clicked (f : list jsstring -> list jsstring) (c : Config) : Config :=
  mkConfig (controls c) (activeContentWarningSetup c) (f (clicked c)).

Definition with_c_display (v : jsstring) (e : Control) : Control :=
  mkControl v (c_borderColor e) (c_borderStyle e) (c_listeners e) (c_data_hide e).
Definition with_c_borderColor (v : jsstring) (e : Control) : Control :=
  mkControl (c_display e) v (c_borderStyle e) (c_listeners e) (c_data_hide e).
Definition with_c_borderStyle (v : jsstring) (e : Control) : Control :=
  mkControl (c_display e) (c_borderColor e) v (c_listeners e) (c_data_hide e).
Definition with_c_listeners (f : list (jsstring * WarningHandler) -> list (jsstring * WarningHandler))
    (e : Control) : Control :=
  mkControl (c_display e) (c_borderColor e) (c_borderStyle e) (f (c_listeners e)) (c_data_hide e).
Definition with_c_data_hide (f : list WarningHandler -> list WarningHandler) (e : Control) : Control :=
  mkControl (c_display e) (c_borderColor e) (c_borderStyle e) (c_listeners e) (f <$> c_data_hide e).

(** Computations on the Config tab: the monad of the module, on this
    state. *)
Definition C (A : Type) : Type := Config -> res A * Config.

Definition c_ret {A} (a : A) : C A := fun c => (Ok a, c).
Definition c_throw {A} (e : exn) : C A := fun c => (Throw e, c).
Definition c_bind {A B} (m : C A) (k : A -> C B) : C B :=
  fun c => match m c with
           | (Ok a, c') => k a c'
           | (Throw e, c') => (Throw e, c')
           end.
Definition c_gets {A} (f : Config -> A) : C A := fun c => (Ok (f c), c).
Definition c_modify (f : Config -> Config) : C unit := fun c => (Ok tt, f c).
Definition c_try {A} (m : C A) (h : exn -> C A) : C A :=
  fun c => match m c with
           | (Ok a, c') => (Ok a, c')
           | (Throw e, c') => h e c'
           end.
Definition c_state {A} (m : C A) (c : Config) : Config := snd (m c).

Declare Scope config_scope.
Delimit Scope config_scope with config.
Notation "x <- m ;; k" := (c_bind m (fun x => k))
  (at level 100, m at next level, right associativity) : config_scope.
Notation "m ;; k" := (c_bind m (fun _ => k))
  (at level 100, right associativity) : config_scope.
Local Open Scope config_scope.

Definition c_when (b : bool) (m : C unit) : C unit := if b then m else c_ret tt.

Fixpoint c_forEach {A} (l : list A) (f : A -> C unit) : C unit :=
  match l with
  | [] => c_ret tt
  | x :: l' => f x ;; c_forEach l' f
  end.

(** document.getElementById on the Config tab. *)
Definition c_getElementById (id : jsstring) : C (option Ref) :=
  c_gets (fun c => match controls c !! ById id with Some _ => Some (ById id) | None => None end).

Definition c_deref {A} (r : option A) : C A :=
  match r with Some x => c_ret x | None => c_throw TypeError end.

(** A write to an element. *)
Definition c_write (r : Ref) (f : Control -> Control) : C unit :=
  c_modify (fun c => with_controls (insert r (f (control c r))) c).

Definition c_style_display_set (r : option Ref) (v : jsstring) : C unit :=
  x <- c_deref r ;; c_write x (with_c_display v).
Definition c_style_borderColor_set (r : option Ref) (v : jsstring) : C unit :=
  x <- c_deref r ;; c_write x (with_c_borderColor v).
Definition c_style_borderStyle_set (r : option Ref) (v : jsstring) : C unit :=
  x <- c_deref r ;; c_write x (with_c_borderStyle v).
Definition c_addEventListener (r : option Ref) (type : jsstring) (h : WarningHandler) : C unit :=
  x <- c_deref r ;; c_write x (with_c_listeners (fun l => l ++ [(type, h)])).

(** [r.querySelector('button[data-hide]').addEventListener('click', h)] *)
Definition c_data_hide_addClickListener (r : option Ref) (h : WarningHandler) : C unit :=
  x <- c_deref r ;;
  e <- c_gets (fun c => control c x) ;;
  match c_data_hide e with
  | Some _ => c_write x (with_c_data_hide (fun l => l ++ [h]))
  | None => c_throw TypeError
  end.

(** [r.click()] runs listeners the module does not own: it is recorded. *)
Definition c_click (r : option Ref) (id : jsstring) : C unit :=
  c_deref r ;; c_modify (with_clicked (fun l => l ++ [id])).

(** Displays the warning about content with an unsupported active UI
    (lines 146-176). *)
Definition displayActiveContentWarning : C unit :=
  alertActiveContent <- c_getElementById (js "activeContent") ;;
  c_style_display_set alertActiveContent (js "block") ;;
  setup <- c_gets activeContentWarningSetup ;;
  c_when (negb setup)
    (c_modify (with_activeContentWarningSetup true) ;;
     c_data_hide_addClickListener alertActiveContent HideWarning ;;
     c_forEach [js "swModeLink"; js "stop"]
       (fun id =>
          link <- c_getElementById id ;;
          c_addEventListener link (js "click") (ShowOption id))).

(** Line 160: the option that a link of the warning points to. *)
Definition option_of_link (id : jsstring) : jsstring :=
  if bool_decide (id = js "stop") then js "hideActiveContentWarningCheck"
  else js "serviceworkerModeRadio".

(** The bodies of the listeners. The warning that [HideWarning] closes
    over was found when the listener was registered. *)
Definition warning_listener (h : WarningHandler) : C unit :=
  match h with
  | HideWarning => c_style_display_set (Some (ById (js "activeContent"))) (js "none")
  | ShowOption id =>
      let elementID := option_of_link id in
      option <- c_getElementById elementID ;;
      c_deref option ;;                                   (* .parentNode of null *)
      let thisLabel := Some (ParentOf elementID) in
      c_style_borderColor_set thisLabel (js "red") ;;
      c_style_borderStyle_set thisLabel (js "solid") ;;
      btnHome <- c_getElementById (js "btnHome") ;;
      c_forEach [thisLabel; btnHome]
        (fun ele => c_addEventListener ele (js "mousedown") (ClearHighlight (ParentOf elementID))) ;;
      btnConfigure <- c_getElementById (js "btnConfigure") ;;
      c_click btnConfigure (js "btnConfigure")
  | ClearHighlight thisLabel =>
      c_style_borderColor_set (Some thisLabel) [] ;;
      c_style_borderStyle_set (Some thisLabel) []
  end.

(** An event of a type on an element: its listeners of that type run in
    the order of their registration, and an exception in one does not
    stop the next. *)
Definition c_dispatch (r : Ref) (type : jsstring) : C unit :=
  e <- c_gets (fun c => control c r) ;;
  c_forEach (snd <$> filter (fun p => p.1 = type) (c_listeners e))
    (fun h => c_try (warning_listener h) (fun _ => c_ret tt)).

(** The warning is shown and its set-up is marked as done. *)
Definition warned (c : Config) : Prop :=
  activeContentWarningSetup c = true /\
  exists a, controls c !! ById (js "activeContent") = Some a /\ c_display a = js "block".

(** A property that a computation keeps, whether it returns or throws. *)
Definition c_keeps (P : Config -> Prop) {A} (m : C A) : Prop :=
  forall c, P c -> P (c_state m c).

Local Close Scope config_scope.

Module ConfigSample.

(** A Config tab with a warning that has lost its dismiss button. *)
Definition tab : Config :=
  mkConfig
    (list_to_map
       [(ById (js "activeContent"), blank);
        (ById (js "swModeLink"), blank);
        (ById (js "stop"), blank);
        (ById (js "serviceworkerModeRadio"), blank);
        (ById (js "hideActiveContentWarningCheck"), blank);
        (ById (js "btnHome"), blank);
        (ById (js "btnConfigure"), blank)])
    false [].

End ConfigSample.


(** * Properties *)

(** ** The matcher *)

Section Matcher.

Lemma exec_star (p : N -> bool) (r : regex) (i : nat) (s : jsstring) (g : nat) (cap : capture) :
  exec (Star p :: r) i s g cap =
  match s with
  | c :: s' =>
      if p c then
        match exec (Star p :: r) (S i) s' g cap with
        | Some m => Some m
        | None => exec r i s g cap
        end
      else exec r i s g cap
  | [] => exec r i [] g cap
  end.
Proof. destruct s; reflexivity. Qed.

Lemma exec_one (p : N -> bool) (r : regex) (i : nat) (s : jsstring) (g : nat) (cap : capture) :
  exec (One p :: r) i s g cap =
  match s with
  | c :: s' => if p c then exec r (S i) s' g cap else None
  | [] => None
  end.
Proof. reflexivity. Qed.

(** A pattern that ends in [$] matches up to the end of the input. *)
Lemma exec_eol_end (r : regex) :
  forall i s g cap e c,
    exec (r ++ [Eol]) i s g cap = Some (e, c) -> e = i + length s.
Proof.
  induction r as [|it r IH]; intros i s g cap e c.
  - simpl. destruct s; [|discriminate]. intros [= <- _]. simpl. lia.
  - destruct it; simpl app.
    + simpl. destruct (Nat.eqb i 0); [apply IH|discriminate].
    + simpl. destruct s; [|discriminate]. apply IH.
    + simpl. destruct s as [|x s]; [discriminate|].
      destruct (p x); [|discriminate].
      intros Hx. apply IH in Hx. simpl. lia.
    + revert i. induction s as [|x s IHs]; intros i; rewrite exec_star.
      * apply IH.
      * destruct (p x); [|apply IH].
        destruct (exec (Star p :: r ++ [Eol]) (S i) s g cap) as [[e' c']|] eqn:E.
        -- intros [= <- <-]. apply IHs in E. simpl. lia.
        -- apply IH.
    + simpl. apply IH.
    + simpl. apply IH.
Qed.

(** Where the leftmost match starts, the pattern matches, and the start
    lies within the input. *)
Lemma scan_spec (r : regex) :
  forall i s b e c,
    scan r i s = Some (b, e, c) ->
    exists k, b = i + k /\ k <= length s /\ exec r b (drop k s) b None = Some (e, c).
Proof.
  intros i s. revert i. induction s as [|x s IH]; intros i b e c; simpl.
  - destruct (exec r i [] i None) as [[e' c']|] eqn:E; [|discriminate].
    intros [= <- <- <-]. exists 0. rewrite Nat.add_0_r. auto.
  - destruct (exec r i (x :: s) i None) as [[e' c']|] eqn:E.
    + intros [= <- <- <-]. exists 0. rewrite Nat.add_0_r. split; [done|]. split; [lia|done].
    + intros Hs. apply IH in Hs as (k & -> & Hk & Hx).
      exists (S k). split; [lia|]. split; [lia|]. exact Hx.
Qed.

(** Replacing the match of a pattern that ends in [$] by nothing cuts a
    suffix off. *)
Lemma replace_eol_cut (r : regex) (s : jsstring) :
  replace (r ++ [Eol]) [] s = s \/
  exists k e c, k <= length s /\ exec (r ++ [Eol]) k (drop k s) k None = Some (e, c)
                /\ replace (r ++ [Eol]) [] s = take k s.
Proof.
  unfold replace, regexp_exec.
  destruct (scan (r ++ [Eol]) 0 s) as [[[b e] c]|] eqn:E; [|by left].
  right. apply scan_spec in E as (k & -> & Hk & Hx). simpl in *.
  exists k, e, c. split; [done|]. split; [done|].
  apply exec_eol_end in Hx. rewrite length_drop in Hx.
  assert (e = length s) as -> by lia.
  rewrite drop_all. by rewrite app_nil_r.
Qed.

(** A unit of a class, then a greedy run of another class up to the end. *)
Lemma exec_one_star_eol (p q : N -> bool) (i : nat) (s : jsstring) (g : nat) (cap e' : capture) (e : nat) :
  exec [One p; Star q; Eol] i s g cap = Some (e, e') ->
  exists x s', s = x :: s' /\ p x = true /\ forallb q s' = true.
Proof.
  rewrite exec_one. destruct s as [|x s]; [discriminate|].
  destruct (p x) eqn:Px; [|discriminate].
  intros Hs. exists x, s. split; [done|]. split; [done|].
  revert Hs. generalize (S i). clear Px.
  induction s as [|y s IH]; intros j; [done|].
  rewrite exec_star. destruct (q y) eqn:Qy; [|discriminate].
  destruct (exec (Star q :: [Eol]) (S j) s g cap) as [m|] eqn:E; [|discriminate].
  intros [= ->]. simpl. rewrite Qy. simpl. eapply IH. exact E.
Qed.

Lemma starts_with_prefix (p s : jsstring) : starts_with p s = true <-> p `prefix_of` s.
Proof.
  revert s. induction p as [|a p IH]; intros s; simpl.
  - split; [intros _; apply prefix_nil|done].
  - destruct s as [|b s].
    + split; [done|]. intros [k Hk]. discriminate.
    + rewrite andb_true_iff, N.eqb_eq, IH. split.
      * intros [-> Hp]. by apply prefix_cons.
      * intros [k Hk]. injection Hk as -> ->. split; [done|]. by exists k.
Qed.

Lemma indexOf_from_range (p : jsstring) (i : nat) (s : jsstring) :
  (indexOf_from p i s = -1 \/ Z.of_nat i <= indexOf_from p i s)%Z.
Proof.
  revert i. induction s as [|c s IH]; intros i; simpl.
  - destruct (starts_with p []); lia.
  - destruct (starts_with p (c :: s)); [lia|]. specialize (IH (S i)). lia.
Qed.

(** [key.indexOf(prefix)] is falsy exactly when [key] starts with [prefix]. *)
Lemma indexOf_falsy (s p : jsstring) :
  truthyZ (indexOf s p) = false <-> p `prefix_of` s.
Proof.
  rewrite <- starts_with_prefix. unfold truthyZ, indexOf.
  rewrite negb_false_iff, Z.eqb_eq.
  destruct s as [|c s]; simpl.
  - destruct (starts_with p []); [done|]. split; [lia|done].
  - destruct (starts_with p (c :: s)); [done|].
    pose proof (indexOf_from_range p 1 s). split; [lia|done].
Qed.

(** Cutting the first occurrence of a prefix out leaves the rest. *)
Lemma remove_first_prefix (s p : jsstring) :
  p `prefix_of` s -> remove_first s p = drop (length p) s.
Proof.
  intros Hp. unfold remove_first.
  assert (indexOf s p = 0%Z) as ->.
  { apply indexOf_falsy in Hp. unfold truthyZ in Hp.
    by apply negb_false_iff, Z.eqb_eq in Hp. }
  reflexivity.
Qed.

(** The greedy star takes a whole run when the rest matches behind it. *)
Lemma exec_star_greedy (q : N -> bool) (r : regex) (p s : jsstring) (g : nat) (cap : capture)
    (m : nat * capture) :
  forallb q p = true ->
  (match s with c :: _ => q c = false | [] => True end) ->
  forall i, exec r (i + length p) s g cap = Some m ->
            exec (Star q :: r) i (p ++ s) g cap = Some m.
Proof.
  intros Hp Hs. induction p as [|c p IH]; intros i Hr.
  - simpl in Hr. rewrite Nat.add_0_r in Hr. rewrite app_nil_l, exec_star.
    destruct s as [|c s]; [done|]. by rewrite Hs.
  - simpl in Hp. apply andb_true_iff in Hp as [Hc Hp].
    rewrite <- app_comm_cons, exec_star, Hc.
    rewrite (IH Hp (S i)); [done|].
    simpl in Hr. by replace (S i + length p) with (i + S (length p)) by lia.
Qed.

Lemma exec_bol (r : regex) (i : nat) (s : jsstring) (g : nat) (cap : capture) :
  exec (Bol :: r) i s g cap = if Nat.eqb i 0 then exec r i s g cap else None.
Proof. reflexivity. Qed.
Lemma exec_open (r : regex) (i : nat) (s : jsstring) (g : nat) (cap : capture) :
  exec (Open :: r) i s g cap = exec r i s i cap.
Proof. reflexivity. Qed.
Lemma exec_close (r : regex) (i : nat) (s : jsstring) (g : nat) (cap : capture) :
  exec (Close :: r) i s g cap = exec r i s g (Some (g, i)).
Proof. reflexivity. Qed.

Lemma exec_star_all (q : N -> bool) (s : jsstring) (i g : nat) (cap : capture) :
  forallb q s = true -> exec [Star q] i s g cap = Some (i + length s, cap).
Proof.
  intros Hs. rewrite <- (app_nil_r s) at 1. by apply exec_star_greedy.
Qed.

Lemma scan_hit (r : regex) (i e : nat) (s : jsstring) (cap : capture) :
  exec r i s i None = Some (e, cap) -> scan r i s = Some (i, e, cap).
Proof. intros Hx. destruct s; simpl; by rewrite Hx. Qed.

Lemma digit_dot (c : N) : is_digit c = true -> dot c = true.
Proof.
  unfold is_digit, dot, line_terminator. intros [H1 H2]%andb_true_iff.
  apply N.leb_le in H1, H2.
  apply negb_true_iff. repeat (apply orb_false_iff; split); apply N.eqb_neq; lia.
Qed.

(** On an identifier made of a non-empty run without digits and a
    version that starts with a digit and holds no line end, the prefix
    pattern captures the run. *)
Lemma cache_prefix_version_stamped (p v : jsstring) (d : N) :
  p <> [] ->
  forallb (fun c => negb (is_digit c)) p = true ->
  is_digit d = true ->
  forallb dot v = true ->
  replace re_cache_prefix [TGroup1] (p ++ d :: v) = p.
Proof.
  intros Hp Hnd Hd Hv. destruct p as [|c p]; [done|]. clear Hp.
  simpl in Hnd. apply andb_true_iff in Hnd as [Hc Hnd].
  assert (exec re_cache_prefix 0 ((c :: p) ++ d :: v) 0 None
          = Some (length ((c :: p) ++ d :: v), Some (0, S (length p)))) as Hx.
  { unfold re_cache_prefix, plus. simpl app.
    rewrite exec_bol, exec_open, exec_one, Hc. simpl Nat.eqb. cbv iota.
    apply (exec_star_greedy _ _ p (d :: v)); [done|by rewrite Hd|].
    rewrite exec_close, exec_one, (digit_dot d Hd).
    rewrite exec_star_all by done.
    f_equal. f_equal. simpl. rewrite !length_app. simpl. lia. }
  unfold replace, regexp_exec. rewrite (scan_hit _ _ _ _ _ Hx).
  rewrite drop_all, app_nil_r. unfold expand, substring. simpl.
  by rewrite app_nil_r, take_app_length.
Qed.


End Matcher.

(** ** removeUrlParameters *)

Lemma Forall_of_forallb_negb_chr (a : ascii) (l : jsstring) :
  forallb (not_chr a) l = true -> Forall (fun c => c <> N_of_ascii a) l.
Proof.
  intros Hl. apply Forall_forall. intros c Hc%list_elem_of_In.
  rewrite forallb_forall in Hl. apply Hl in Hc.
  unfold not_chr, chr in Hc. apply negb_true_iff, N.eqb_neq in Hc. exact Hc.
Qed.

(** The first rewriting cuts off a suffix that starts at the last [?]. *)
Lemma querystring_cut (url : jsstring) :
  exists query,
    url = replace re_querystring [] url ++ query /\
    (query = [] \/
     exists q, query = N_of_ascii "?" :: q /\ Forall (fun c => c <> N_of_ascii "?") q).
Proof.
  destruct (replace_eol_cut [One (chr "?"); Star (not_chr "?")] url)
    as [E|(k & e & c & Hk & Hx & E)]; change (_ ++ [Eol]) with re_querystring in *.
  - exists []. rewrite E, app_nil_r. auto.
  - exists (drop k url). rewrite E, take_drop. split; [done|]. right.
    apply exec_one_star_eol in Hx as (x & s' & -> & Hq & Hs').
    exists s'. unfold chr in Hq. apply N.eqb_eq in Hq as ->.
    split; [done|]. by apply Forall_of_forallb_negb_chr.
Qed.

(** The second cuts off a suffix that starts at a [#] and holds neither
    another [#] nor a [;]. *)
Lemma anchor_cut (url : jsstring) :
  exists anchor,
    url = replace re_anchor [] url ++ anchor /\
    (anchor = [] \/
     exists a, anchor = N_of_ascii "#" :: a /\
               Forall (fun c => c <> N_of_ascii "#" /\ c <> N_of_ascii ";") a).
Proof.
  destruct (replace_eol_cut
              [One (chr "#"); Star (fun c => negb (chr "#" c || chr ";" c))] url)
    as [E|(k & e & c & Hk & Hx & E)]; change (_ ++ [Eol]) with re_anchor in *.
  - exists []. rewrite E, app_nil_r. auto.
  - exists (drop k url). rewrite E, take_drop. split; [done|]. right.
    apply exec_one_star_eol in Hx as (x & s' & -> & Hq & Hs').
    exists s'. unfold chr in Hq. apply N.eqb_eq in Hq as ->.
    split; [done|]. apply Forall_forall. intros y Hy%list_elem_of_In.
    rewrite forallb_forall in Hs'. apply Hs' in Hy.
    apply negb_true_iff, orb_false_iff in Hy as [H1 H2].
    unfold chr in *. by apply N.eqb_neq in H1, H2.
Qed.

(** C10. The output of removeUrlParameters is a prefix of its input:
    the input is the output, then an anchor that is empty or starts at a
    [#] and holds no further [#] and no [;], then a querystring that is
    empty or starts at the last [?] of the input. Nothing is inserted or
    reordered. *)
Theorem removeUrlParameters_prefix (url : jsstring) :
  removeUrlParameters url `prefix_of` url /\
  exists anchor query,
    url = removeUrlParameters url ++ anchor ++ query /\
    (query = [] \/
     exists q, query = N_of_ascii "?" :: q /\ Forall (fun c => c <> N_of_ascii "?") q) /\
    (anchor = [] \/
     exists a, anchor = N_of_ascii "#" :: a /\
               Forall (fun c => c <> N_of_ascii "#" /\ c <> N_of_ascii ";") a).
Proof.
  destruct (querystring_cut url) as (query & Hq & Hquery).
  destruct (anchor_cut (replace re_querystring [] url)) as (anchor & Ha & Hanchor).
  assert (url = removeUrlParameters url ++ anchor ++ query) as Hurl.
  { unfold removeUrlParameters. rewrite app_assoc, <- Ha. exact Hq. }
  split.
  - exists (anchor ++ query). exact Hurl.
  - exists anchor, query. auto.
Qed.

(** ** Running the model *)

Ltac munfold :=
  unfold exec_state, returns, style_display_set, innerHTML_set, appendChild, addEventListener,
    data_hide_button_addClickListener, alter_element, jquery_hide, createObjectURL,
    emit, call, console_error, getElementById, when, deref, try_catch, bind, ret,
    gets, modify, throw, lift in *.

Section Stable.
Context (R : relation World) `{!PreOrder R}.

Lemma stable_ret {A} (a : A) : stable R (ret a).
Proof. intros w. reflexivity. Qed.
Lemma stable_throw {A} (e : exn) : stable R (throw (A:=A) e).
Proof. intros w. reflexivity. Qed.
Lemma stable_gets {A} (f : World -> A) : stable R (gets f).
Proof. intros w. reflexivity. Qed.
Lemma stable_lift {A} (r : res A) : stable R (lift r).
Proof. intros w. reflexivity. Qed.
Lemma stable_modify (f : World -> World) : (forall w, R w (f w)) -> stable R (modify f).
Proof. intros Hf w. apply Hf. Qed.
Lemma stable_bind {A B} (m : M A) (k : A -> M B) :
  stable R m -> (forall a, stable R (k a)) -> stable R (bind m k).
Proof.
  intros Hm Hk w. unfold exec_state, bind.
  specialize (Hm w). unfold exec_state in Hm.
  destruct (m w) as [[a|e] w']; simpl in *; [|done].
  etrans; [exact Hm|]. apply Hk.
Qed.
Lemma stable_try_catch {A} (m : M A) (h : exn -> M A) :
  stable R m -> (forall e, stable R (h e)) -> stable R (try_catch m h).
Proof.
  intros Hm Hh w. unfold exec_state, try_catch.
  specialize (Hm w). unfold exec_state in Hm.
  destruct (m w) as [[a|e] w']; simpl in *; [done|].
  etrans; [exact Hm|]. apply Hh.
Qed.
Lemma stable_forEach {A} (l : list A) (f : A -> M unit) :
  (forall a, stable R (f a)) -> stable R (forEach l f).
Proof.
  intros Hf. induction l as [|x l IH]; simpl.
  - apply stable_ret.
  - apply stable_bind; [apply Hf|]. intros _. exact IH.
Qed.

(** A run of computations that all keep [R] keeps [R]. *)
Lemma stable_fold {E} (f : E -> M unit) (es : list E) (w : World) :
  (forall e, stable R (f e)) ->
  R w (fold_left (fun w e => exec_state (f e) w) es w).
Proof.
  intros Hf. revert w. induction es as [|e es IH]; intros w; simpl; [reflexivity|].
  etrans; [apply (Hf e)|]. apply IH.
Qed.

End Stable.

Ltac head_of t := match t with ?f _ => head_of f | _ => t end.

(** Walks through a computation; [leaf] closes the goals [R w (f w)] of
    its writes. *)
Ltac stable_walk leaf :=
  repeat
    lazymatch goal with
    | |- stable _ (ret _) => apply stable_ret; apply _
    | |- stable _ (throw _) => apply stable_throw; apply _
    | |- stable _ (gets _) => apply stable_gets; apply _
    | |- stable _ (lift _) => apply stable_lift; apply _
    | |- stable _ (bind _ _) => apply stable_bind; [apply _| |intros ?]
    | |- stable _ (try_catch _ _) => apply stable_try_catch; [apply _| |intros ?]
    | |- stable _ (forEach _ _) => apply stable_forEach; [apply _|intros ?]
    | |- stable _ (modify _) => apply stable_modify; intros ?; leaf
    | |- stable _ (match react ?r ?s with _ => _ end) => destruct r, s; simpl
    | |- stable _ (match listener_body ?h with _ => _ end) => destruct h; simpl
    | |- stable _ (match ?x with _ => _ end) => destruct x
    | |- stable _ (let _ := _ in _) => cbv zeta
    | |- stable _ ?m => let h := head_of m in progress unfold h
    end.

#[export] Instance flag_kept_preorder : PreOrder flag_kept.
Proof. split; unfold flag_kept; [intros w; auto|intros a b c; auto]. Qed.

#[export] Instance buttons_kept_preorder : PreOrder buttons_kept.
Proof.
  split; unfold buttons_kept.
  - intros w; auto.
  - intros a b c (H1 & H2 & H3) (H4 & H5 & H6).
    split; [intros id; by rewrite H4, H1|]. split; congruence.
Qed.

#[export] Instance shell_kept_preorder : PreOrder shell_kept.
Proof.
  split; unfold shell_kept.
  - intros w; auto.
  - intros a b c (H1 & H2 & H3) (H4 & H5 & H6). repeat split; congruence.
Qed.

Lemma exec_bind_ok {A B} (m : M A) (k : A -> M B) (w w1 : World) (a : A) :
  m w = (Ok a, w1) -> exec_state (bind m k) w = exec_state (k a) w1.
Proof. unfold exec_state, bind. by intros ->. Qed.

Lemma exec_bind_throw {A B} (m : M A) (k : A -> M B) (w w1 : World) (e : exn) :
  m w = (Throw e, w1) -> exec_state (bind m k) w = w1.
Proof. unfold exec_state, bind. by intros ->. Qed.

Lemma bind_ok_eq {A B} (m : M A) (k : A -> M B) (w w1 : World) (a : A) (r : res B * World) :
  m w = (Ok a, w1) -> k a w1 = r -> bind m k w = r.
Proof. unfold bind. by intros -> <-. Qed.

Lemma validate_token_ok (t : jsstring) (w : World) :
  truthy t = true -> existsb ascii_whitespace t = false -> validate_token t w = (Ok tt, w).
Proof. intros Ht Hw. unfold validate_token. by rewrite Ht, Hw. Qed.

(** Runs a computation whose branches are decided. *)
Ltac run_m :=
  cbv beta iota zeta;
  lazymatch goal with
  | |- bind _ _ _ = _ => eapply bind_ok_eq; [run_m|run_m]
  | |- ret _ _ = _ => reflexivity
  | |- gets _ _ = _ => reflexivity
  | |- modify _ _ = _ => reflexivity
  | |- lift _ _ = _ => reflexivity
  | |- validate_token _ _ = _ => apply validate_token_ok; done
  | |- (if ?b then _ else _) _ = _ =>
      let b' := eval cbv in b in
      lazymatch b' with
      | true => change b with true; run_m
      | false => change b with false; run_m
      | _ => match goal with H : b = _ |- _ => rewrite H; run_m end
      end
  | |- ?m _ = _ => let h := head_of m in progress unfold h; run_m
  end.


Lemma alter_button_kept (f : Element -> Element) (id id' : jsstring)
    (m : gmap (list N) Element) :
  (forall e, data_hide_button (f e) = data_hide_button e) ->
  alter f id m !! id' ≫= data_hide_button = m !! id' ≫= data_hide_button.
Proof.
  intros Hf. destruct (decide (id = id')) as [->|Hne].
  - rewrite lookup_alter_eq. destruct (m !! id'); simpl; [apply Hf|done].
  - by rewrite lookup_alter_ne.
Qed.

#[export] Instance markup_kept_preorder : PreOrder markup_kept.
Proof.
  split; unfold markup_kept.
  - intros w id. done.
  - intros a b c H1 H2 id. by rewrite H2, H1.
Qed.

#[export] Instance frame_kept_preorder : PreOrder frame_kept.
Proof.
  split; unfold frame_kept.
  - intros w. split; [reflexivity|]. done.
  - intros a b c (H1 & H2 & H3) (H4 & H5 & H6).
    split; [by etrans|]. split; [intros id; by rewrite H5, H2|congruence].
Qed.

Lemma alter_classList_kept (f : Element -> Element) (id id' : jsstring)
    (m : gmap (list N) Element) :
  (forall e, classList (f e) = classList e) ->
  classList <$> alter f id m !! id' = classList <$> m !! id'.
Proof.
  intros Hf. destruct (decide (id = id')) as [->|Hne].
  - rewrite lookup_alter_eq. destruct (m !! id'); simpl; [by rewrite Hf|done].
  - by rewrite lookup_alter_ne.
Qed.

Ltac markup_leaf :=
  unfold markup_kept; simpl; try done; intros ?; by rewrite lookup_alter_is_Some.
Ltac frame_leaf :=
  unfold frame_kept, shell_kept; simpl;
  repeat split; try done; intros ?; apply alter_classList_kept; done.

Ltac flag_leaf := unfold flag_kept; simpl; auto.
Ltac buttons_leaf :=
  unfold buttons_kept; simpl;
  (split; [intros ?; try (apply alter_button_kept; done)|]); auto.
Ltac shell_leaf := unfold shell_kept; simpl; auto.

(** ** displayFileDownloadAlert *)

Section Download.
Context `{pf : Platform}.

Example trailing_segment_My_File :
  replace re_trailing_segment [TGroup1] (js "/docs/My File.txt") = js "My File.txt".
Proof. reflexivity. Qed.

Example sanitised_My_File :
  replace_g re_unsafe [TLit (js "_")] (js "My File.txt") = js "My File.txt".
Proof. reflexivity. Qed.

Example sanitised_unsafe :
  replace_g re_unsafe [TLit (js "_")] (js "a/b\c:d*e?f<g>h|i") = js "a_b_c_d_e_f_g_h_i".
Proof. reflexivity. Qed.

(** C1, as amended. On a page that holds the download alert with its
    dismiss button and the message area, displayFileDownloadAlert with
    title [/docs/My File.txt], download directive [true], content type
    [text/plain] and any content returns, offers the link under the file
    name [My File.txt] (the trailing path segment; the space is not one
    of the replaced characters) and sets the display style of the
    download alert to [block]. *)
Theorem displayFileDownloadAlert_My_File (w : World) (content : list Byte.byte) :
  has_data_hide_button w (js "downloadAlert") ->
  has_element w (js "alertMessage") ->
  let m := displayFileDownloadAlert (js "/docs/My File.txt") (DBoolean true)
             (Some (js "text/plain")) content in
  returns m w /\
  offered_download (exec_state m w) = Some (js "My File.txt") /\
  element_display (exec_state m w) (js "downloadAlert") = Some (js "block").
Proof.
  unfold has_data_hide_button, has_element, offered_download, element_display.
  intros Hb [am Ham].
  destruct (byId (page w) !! js "downloadAlert") as [e|] eqn:He; [|by destruct Hb].
  simpl in Hb. destruct Hb as [hs Hhs].
  assert (js "downloadAlert" <> js "alertMessage") as Hne by done.
  assert (js "alertMessage" <> js "searchingArticles") as Hne2 by done.
  assert (js "downloadAlert" <> js "searchingArticles") as Hne3 by done.
  cbv zeta. unfold displayFileDownloadAlert. munfold. simpl.
  rewrite He. simpl.
  rewrite trailing_segment_My_File, sanitised_My_File.
  destruct (downloadAlertSetup (session w)); simpl;
    rewrite ?lookup_alter_eq, ?He; simpl; rewrite ?Hhs; simpl;
    rewrite ?lookup_alter_ne by done; rewrite ?Ham; simpl;
    destruct click_throws, msSaveBlob; simpl;
    rewrite ?lookup_alter_ne by done; rewrite ?lookup_alter_eq;
    rewrite ?lookup_alter_ne by done; rewrite ?lookup_alter_eq;
    rewrite ?lookup_alter_ne by done; rewrite ?Ham, ?He; simpl; eauto.
Qed.

End Download.

Lemma displayFileDownloadAlert_My_File_witness :
  has_data_hide_button Example.loaded (js "downloadAlert") /\
  has_element Example.loaded (js "alertMessage") /\
  let m := displayFileDownloadAlert (pf:=Example.browser) (js "/docs/My File.txt")
             (DBoolean true) (Some (js "text/plain")) [] in
  returns m Example.loaded /\
  offered_download (exec_state m Example.loaded) = Some (js "My File.txt") /\
  element_display (exec_state m Example.loaded) (js "downloadAlert") = Some (js "block").
Proof.
  assert (has_data_hide_button Example.loaded (js "downloadAlert")) as H1
    by (vm_compute; eauto).
  assert (has_element Example.loaded (js "alertMessage")) as H2
    by (vm_compute; eauto).
  split; [exact H1|]. split; [exact H2|].
  exact (displayFileDownloadAlert_My_File (pf:=Example.browser) Example.loaded [] H1 H2).
Defined.

(** C1, as stated, fails: the file name offered for [/docs/My File.txt]
    is not [My_File.txt]. *)
Lemma displayFileDownloadAlert_My_File_not_underscored :
  offered_download
    (exec_state (displayFileDownloadAlert (pf:=Example.browser) (js "/docs/My File.txt")
                   (DBoolean true) (Some (js "text/plain")) []) Example.loaded)
  <> Some (js "My_File.txt").
Proof. vm_compute. discriminate. Qed.

(** ** The session *)

Section SessionFacts.
Context `{pf : Platform}.

Lemma step_flag_kept (e : Event) : stable flag_kept (step e).
Proof. destruct e; simpl; stable_walk flag_leaf. Qed.

Lemma step_buttons_kept (e : Event) :
  is_DisplayFileDownloadAlert e = false -> stable buttons_kept (step e).
Proof. destruct e; simpl; try discriminate; intros _; stable_walk buttons_leaf. Qed.

Lemma run_app (es es' : list Event) (w : World) :
  run (es ++ es') w = run es' (run es w).
Proof. unfold run. apply fold_left_app. Qed.

Lemma run_flag_kept (es : list Event) (w : World) : flag_kept w (run es w).
Proof. apply (stable_fold flag_kept step). apply step_flag_kept. Qed.

Lemma rises_bound (es : list Event) (w : World) :
  rises (pwaUpdateNeeded (session w)) (flag_history es w)
  <= if pwaUpdateNeeded (session w) then 0 else 1.
Proof.
  revert w. induction es as [|e es IH]; intros w; simpl.
  - destruct (pwaUpdateNeeded (session w)); lia.
  - specialize (IH (exec_state (step e) w)).
    pose proof (step_flag_kept e w) as Hk. unfold flag_kept in Hk.
    destruct (pwaUpdateNeeded (session w)).
    + rewrite Hk in * by done. simpl. lia.
    + destruct (pwaUpdateNeeded (session (exec_state (step e) w))); simpl in *; lia.
Qed.

Lemma display_listeners (t : jsstring) (d : Directive) (ct : option jsstring) (c : list Byte.byte) (w : World) :
  has_data_hide_button w (js "downloadAlert") ->
  let w' := exec_state (displayFileDownloadAlert t d ct c) w in
  downloadAlertSetup (session w') = true /\
  updateAlert (session w') = updateAlert (session w) /\
  byId (page w') !! js "downloadAlert" ≫= data_hide_button =
    Some (data_hide_listeners w (js "downloadAlert") ++
          if downloadAlertSetup (session w) then [] else [HideDownloadAlert]) /\
  (forall id, id <> js "downloadAlert" ->
     byId (page w') !! id ≫= data_hide_button = byId (page w) !! id ≫= data_hide_button).
Proof.
  unfold has_data_hide_button, data_hide_listeners. intros Hb.
  destruct (byId (page w) !! js "downloadAlert") as [e|] eqn:He; [|by destruct Hb].
  simpl in Hb. destruct Hb as [hs Hhs]. simpl. rewrite Hhs. simpl.
  unfold displayFileDownloadAlert.
  erewrite exec_bind_ok; [|unfold getElementById, gets; rewrite He; reflexivity].
  erewrite exec_bind_ok; [|reflexivity].
  erewrite exec_bind_ok; [|reflexivity]. simpl.
  set (w1 := with_page _ w).
  match goal with |- context [exec_state (bind ?m ?k) w1] =>
    assert (exists w2, m w1 = (Ok tt, w2) /\
       byId (page w2) !! js "downloadAlert" ≫= data_hide_button =
          Some (hs ++ if downloadAlertSetup (session w) then [] else [HideDownloadAlert]) /\
       (forall id, id <> js "downloadAlert" ->
          byId (page w2) !! id ≫= data_hide_button = byId (page w) !! id ≫= data_hide_button) /\
       updateAlert (session w2) = updateAlert (session w)) as (w2 & Hm & H2 & H3 & H4)
  end.
  { subst w1. destruct (downloadAlertSetup (session w)); simpl.
    - eexists. split; [reflexivity|]. simpl. rewrite lookup_alter_eq, He. simpl.
      rewrite Hhs, app_nil_r. split; [done|]. split; [|done].
      intros id Hid. by rewrite lookup_alter_ne.
    - munfold. simpl. rewrite lookup_alter_eq, He. simpl. rewrite Hhs.
      eexists. split; [reflexivity|]. simpl. rewrite !lookup_alter_eq, He. simpl.
      rewrite Hhs. simpl. split; [done|]. split; [|done].
      intros id Hid. by rewrite !lookup_alter_ne. }
  erewrite exec_bind_ok; [|exact Hm].
  erewrite exec_bind_ok; [|reflexivity].
  match goal with |- context [exec_state ?m ?w3] =>
    assert (buttons_kept w3 (exec_state m w3)) as (K1 & K2 & K3)
  end.
  { match goal with |- buttons_kept ?w3 (exec_state ?m ?w3) =>
      generalize w3; change (stable buttons_kept m) end.
    stable_walk buttons_leaf. }
  rewrite K2, K3, !K1. simpl. split; [done|]. split; [done|]. split; [done|].
  intros id Hid. rewrite K1. simpl. by apply H3.
Qed.

Lemma module_load_listeners (w : World) :
  has_data_hide_button w (js "updateAlert") ->
  let w' := exec_state module_load w in
  downloadAlertSetup (session w') = downloadAlertSetup (session w) /\
  updateAlert (session w') = Some (js "updateAlert") /\
  data_hide_listeners w' (js "updateAlert")
    = data_hide_listeners w (js "updateAlert") ++ [HideUpdateAlert] /\
  (forall id, id <> js "updateAlert" ->
     byId (page w') !! id ≫= data_hide_button = byId (page w) !! id ≫= data_hide_button).
Proof.
  unfold has_data_hide_button, data_hide_listeners. intros Hb.
  destruct (byId (page w) !! js "updateAlert") as [e|] eqn:He; [|by destruct Hb].
  simpl in Hb. destruct Hb as [hs Hhs]. simpl. rewrite Hhs. simpl.
  unfold module_load. munfold. simpl. rewrite He. simpl. rewrite He. simpl.
  rewrite Hhs. simpl. rewrite lookup_alter_eq, He. simpl. rewrite Hhs. simpl.
  repeat split; try done. intros id Hid. by rewrite lookup_alter_ne.
Qed.

Lemma attached_app (kind : Handler -> bool) (l l' : list Handler) :
  attached kind (l ++ l') = attached kind l + attached kind l'.
Proof. unfold attached. by rewrite List.filter_app, length_app. Qed.

Lemma step_listeners_once (e : Event) (b : bool) (w : World) :
  listeners_once b w ->
  listeners_once (b || is_DisplayFileDownloadAlert e) (exec_state (step e) w).
Proof.
  intros (Hb & Hs & Hd & Hu).
  destruct (is_DisplayFileDownloadAlert e) eqn:Ee.
  - destruct e; try discriminate. simpl step. rewrite orb_true_r.
    destruct (display_listeners title download contentType content w Hb)
      as (K1 & K2 & K3 & K4).
    unfold listeners_once, has_data_hide_button, data_hide_listeners in *.
    rewrite K3, K4 by done. simpl. split; [eauto|]. split; [done|].
    split; [|done]. rewrite attached_app, Hd, Hs.
    destruct b; simpl; [reflexivity|]. reflexivity.
  - rewrite orb_false_r.
    destruct (step_buttons_kept e Ee w) as (K1 & K2 & K3).
    unfold listeners_once, has_data_hide_button, data_hide_listeners in *.
    rewrite !K1, K2. auto.
Qed.

Lemma run_listeners_once (es : list Event) (b : bool) (w : World) :
  listeners_once b w ->
  listeners_once (b || existsb is_DisplayFileDownloadAlert es) (run es w).
Proof.
  revert b w. induction es as [|e es IH]; intros b w Hw; simpl.
  - by rewrite orb_false_r.
  - rewrite orb_assoc. apply IH. by apply step_listeners_once.
Qed.

(** C2. Once the pending-update flag is true it stays true whatever the
    session does next, and from then on every call of checkUpdateStatus
    returns without changing the state or starting any operation; along
    a whole session the flag goes from false to true at most once. *)
Theorem checkUpdateStatus_flag_set_once (w : World) (es es' : list Event) :
  pwaUpdateNeeded (session (run es w)) = true ->
  let w' := run (es ++ es') w in
  pwaUpdateNeeded (session w') = true /\
  checkUpdateStatus w' = (Ok tt, w') /\
  rises (pwaUpdateNeeded (session w)) (flag_history (es ++ es') w) <= 1.
Proof.
  intros Hset. cbv zeta. rewrite run_app.
  assert (pwaUpdateNeeded (session (run es' (run es w))) = true) as Hlater
    by (by apply run_flag_kept).
  split; [exact Hlater|]. split.
  - unfold checkUpdateStatus, bind, gets. rewrite Hlater.
    by rewrite andb_false_r.
  - pose proof (rises_bound (es ++ es') w) as Hr.
    destruct (pwaUpdateNeeded (session w)); lia.
Qed.

(** C8. On a page that holds both alerts with their dismiss buttons, let
    the module be loaded and the session then run through any calls and
    events. The dismiss button of the download alert carries the
    listener of displayFileDownloadAlert exactly once as soon as that
    function has been called at least once, and not before; the dismiss
    button of the update alert carries its listener exactly once,
    however often checkUpdateStatus is called. *)
Theorem dismiss_listeners_attached_once (w0 : World) (es : list Event) :
  has_data_hide_button w0 (js "downloadAlert") ->
  has_data_hide_button w0 (js "updateAlert") ->
  attached is_HideDownloadAlert (data_hide_listeners w0 (js "downloadAlert")) = 0 ->
  attached is_HideUpdateAlert (data_hide_listeners w0 (js "updateAlert")) = 0 ->
  downloadAlertSetup (session w0) = false ->
  let w := run es (exec_state module_load w0) in
  attached is_HideDownloadAlert (data_hide_listeners w (js "downloadAlert"))
    = (if existsb is_DisplayFileDownloadAlert es then 1 else 0) /\
  attached is_HideUpdateAlert (data_hide_listeners w (js "updateAlert")) = 1.
Proof.
  intros Hd Hu Ad Au Hs. cbv zeta.
  destruct (module_load_listeners w0 Hu) as (K1 & K2 & K3 & K4).
  assert (listeners_once false (exec_state module_load w0)) as Hinv.
  { unfold listeners_once, has_data_hide_button, data_hide_listeners in *.
    rewrite K4 by done. rewrite K1, K3, attached_app, Au. auto. }
  apply (run_listeners_once es) in Hinv as (_ & _ & H1 & H2). auto.
Qed.

End SessionFacts.

(** ** checkUpdateStatus *)

Section Update.
Context `{pf : Platform}.

Lemma check_key_skip (cacheNames : CacheNames) (cachePrefix : jsstring)
    (r : option jsstring) (key : jsstring) (w : World) :
  key = cn_app cacheNames \/ key = cn_assets cacheNames \/ ~ cachePrefix `prefix_of` key ->
  check_key cacheNames cachePrefix r key w = (Ok tt, w).
Proof.
  intros Hk. unfold check_key.
  destruct (bool_decide (key = cn_app cacheNames)) eqn:E1; [done|].
  destruct (bool_decide (key = cn_assets cacheNames)) eqn:E2; [done|].
  apply bool_decide_eq_false in E1, E2. simpl.
  destruct Hk as [?|[?|Hk]]; [done..|].
  destruct (truthyZ (indexOf key cachePrefix)) eqn:E3; [done|].
  by apply indexOf_falsy in E3.
Qed.

Lemma check_key_hit (cacheNames : CacheNames) (cachePrefix key : jsstring) (w : World) :
  key <> cn_app cacheNames -> key <> cn_assets cacheNames ->
  cachePrefix `prefix_of` key ->
  has_element w (js "updateAlert") ->
  has_element w (js "persistentMessage") ->
  exists w',
    check_key cacheNames cachePrefix (Some (js "updateAlert")) key w = (Ok tt, w') /\
    pwaUpdateNeeded (session w') = true /\
    element_display w' (js "updateAlert") = Some (js "block") /\
    element_innerHTML w' (js "persistentMessage")
      = Some (version_message (drop (length cachePrefix) key)).
Proof.
  intros H1 H2 Hp [u Hu] [m Hm]. unfold check_key.
  rewrite (bool_decide_eq_false_2 _ H1), (bool_decide_eq_false_2 _ H2). simpl.
  apply indexOf_falsy in Hp as Hi. rewrite Hi.
  rewrite (remove_first_prefix _ _ Hp).
  munfold. simpl.
  rewrite lookup_alter_ne by done. rewrite Hm. simpl.
  eexists. split; [reflexivity|].
  unfold element_display, element_innerHTML. simpl.
  rewrite lookup_alter_ne by done. rewrite !lookup_alter_eq.
  rewrite lookup_alter_ne by done. rewrite Hu, Hm. done.
Qed.

Lemma caches_keys_then_scan (cacheNames : CacheNames) (keyList : list jsstring) (w : World) :
  updateAlert (session w) = Some (js "updateAlert") ->
  caches_keys_then cacheNames keyList w
  = forEach keyList
      (check_key cacheNames (replace re_cache_prefix [TGroup1] (cn_app cacheNames))
         (Some (js "updateAlert")))
      (banner_hidden w).
Proof. intros Hu. unfold caches_keys_then. munfold. simpl. by rewrite Hu. Qed.

Lemma forEach_skip (cacheNames : CacheNames) (cachePrefix : jsstring)
    (r : option jsstring) (keyList : list jsstring) (w : World) :
  Forall (fun key => key = cn_app cacheNames \/ key = cn_assets cacheNames \/
                     ~ cachePrefix `prefix_of` key) keyList ->
  forEach keyList (check_key cacheNames cachePrefix r) w = (Ok tt, w).
Proof.
  induction 1 as [|key l Hk Hl IH]; simpl; [done|].
  unfold bind. by rewrite (check_key_skip _ _ _ _ _ Hk).
Qed.

(** C3. The continuation of the key enumeration hides the update alert
    and then hands every live key to the same function. That function
    leaves the state alone for a key equal to the app or the assets
    cache identifier and for a key that does not start with the prefix
    derived from the app cache identifier; for any other key it sets the
    pending-update flag, shows the update alert and writes the key
    without the prefix, as the version, into the persistent message.
    On a version-stamped identifier the prefix is what precedes the
    first digit. *)
Theorem checkUpdateStatus_key_scan (cacheNames : CacheNames) (keyList : list jsstring)
    (key : jsstring) (w : World) :
  updateAlert (session w) = Some (js "updateAlert") ->
  has_element w (js "updateAlert") ->
  has_element w (js "persistentMessage") ->
  let cachePrefix := replace re_cache_prefix [TGroup1] (cn_app cacheNames) in
  let each := check_key cacheNames cachePrefix (Some (js "updateAlert")) in
  caches_keys_then cacheNames keyList w = forEach keyList each (banner_hidden w) /\
  (key = cn_app cacheNames \/ key = cn_assets cacheNames \/ ~ cachePrefix `prefix_of` key ->
   each key w = (Ok tt, w)) /\
  (key <> cn_app cacheNames -> key <> cn_assets cacheNames -> cachePrefix `prefix_of` key ->
   exists w',
     each key w = (Ok tt, w') /\
     pwaUpdateNeeded (session w') = true /\
     element_display w' (js "updateAlert") = Some (js "block") /\
     element_innerHTML w' (js "persistentMessage")
       = Some (version_message (drop (length cachePrefix) key))) /\
  (forall p d v,
     cn_app cacheNames = p ++ d :: v -> p <> [] ->
     forallb (fun c => negb (is_digit c)) p = true -> is_digit d = true ->
     forallb dot v = true ->
     cachePrefix = p).
Proof.
  intros Hu He Hm. cbv zeta. split; [by apply caches_keys_then_scan|].
  split; [apply check_key_skip|]. split.
  - intros H1 H2 Hp. by apply check_key_hit.
  - intros p d v -> Hp Hnd Hd Hv. by apply cache_prefix_version_stamped.
Qed.

(** C9. When the settings come back without an error marker, the
    callback starts the enumeration of the live keys; the continuation
    of that enumeration hides the update alert before it looks at any
    key; and when no key qualifies the whole check leaves the alert
    hidden, whatever its display was before. *)
Theorem checkUpdateStatus_hides_banner (cacheNames : CacheNames) (keyList : list jsstring)
    (w : World) :
  updateAlert (session w) = Some (js "updateAlert") ->
  has_element w (js "updateAlert") ->
  cn_error cacheNames = false ->
  let cachePrefix := replace re_cache_prefix [TGroup1] (cn_app cacheNames) in
  getCacheNames_callback (Some cacheNames) w
    = (Ok tt, with_pending (fun l => l ++ [CachesKeysThen cacheNames])
                (with_session (with_params_cacheNames (Some cacheNames)) w)) /\
  caches_keys_then cacheNames keyList w
    = forEach keyList (check_key cacheNames cachePrefix (Some (js "updateAlert")))
        (banner_hidden w) /\
  (Forall (fun key => key = cn_app cacheNames \/ key = cn_assets cacheNames \/
                      ~ cachePrefix `prefix_of` key) keyList ->
   caches_keys_then cacheNames keyList w = (Ok tt, banner_hidden w)) /\
  element_display (banner_hidden w) (js "updateAlert") = Some (js "none").
Proof.
  intros Hu [u Hb] He. cbv zeta. split.
  - unfold getCacheNames_callback. rewrite He. reflexivity.
  - split; [by apply caches_keys_then_scan|]. split.
    + intros Hk. rewrite caches_keys_then_scan by done. by apply forEach_skip.
    + unfold element_display, banner_hidden. simpl. by rewrite lookup_alter_eq, Hb.
Qed.

End Update.

(** ** feedNodeWithBlob *)

Section Feed.
Context `{pf : Platform}.

#[export] Instance not_live_kept_preorder url : PreOrder (not_live_kept url).
Proof. split; unfold not_live_kept; [intros w; auto|intros a b c; auto]. Qed.

Lemma not_live_filter (url u : jsstring) (l : list (jsstring * Blob)) :
  url ∈ (fst <$> filter (fun p : jsstring * Blob => p.1 <> u) l) -> url ∈ (fst <$> l).
Proof.
  rewrite !list_elem_of_fmap. intros (p & -> & Hp%list_elem_of_filter). exists p. tauto.
Qed.

Lemma dispatch_not_live_kept (url : jsstring) (hs : list Handler) :
  stable (not_live_kept url) (dispatch hs).
Proof.
  unfold dispatch.
  stable_walk ltac:(unfold not_live_kept, live; simpl; auto).
  intros Hn Hl. apply Hn. by eapply not_live_filter.
Qed.

Lemma run_listener_ok (h : Handler) (w : World) :
  run_listener h w = (Ok tt, exec_state (run_listener h) w).
Proof.
  unfold exec_state, run_listener.
  destruct h; simpl; munfold; simpl; try done.
  by destruct (updateAlert (session w)).
Qed.

Lemma dispatch_revokes (url : jsstring) (hs : list Handler) (w : World) :
  RevokeObjectURL url ∈ hs -> ~ live (exec_state (dispatch hs) w) url.
Proof.
  revert w. induction hs as [|h hs IH]; intros w Hin; [by apply elem_of_nil in Hin|].
  unfold dispatch. simpl. erewrite exec_bind_ok; [|apply run_listener_ok].
  apply elem_of_cons in Hin as [<-|Hin].
  - apply (dispatch_not_live_kept url hs). unfold live. simpl.
    rewrite list_elem_of_fmap. intros (p & -> & Hp%list_elem_of_filter). tauto.
  - by apply IH.
Qed.

(** C4, amended. When the MIME type is not a WebP type or no decode
    engine is loaded, and the attribute name is one setAttribute
    accepts, feedNodeWithBlob returns with everything done: the
    callback, if there is one, has been invoked exactly once, with the
    object URL, a non-empty string, and before the attribute was
    written; the attribute of the node has been set exactly once, to
    that URL; nothing asynchronous is left in flight; and one listener
    has been added to the load event of the node, which releases the
    URL when the node loads. A callback is a function that returns. *)
Theorem feedNodeWithBlob_synchronous (node : nat) (nodeAttribute : jsstring)
    (content : list Byte.byte) (mimeType : jsstring) (callback : option nat) (w : World) :
  webpMachine && test re_webp mimeType = false ->
  valid_attribute_name nodeAttribute = true ->
  let url := object_url (issued w) in
  let w' := exec_state (feedNodeWithBlob node nodeAttribute content mimeType callback) w in
  feedNodeWithBlob node nodeAttribute content mimeType callback w = (Ok tt, w') /\
  url <> [] /\
  log w' = log w ++ match callback with Some cb => [Call cb (Some url)] | None => [] end
                 ++ [SetAttribute node nodeAttribute url] /\
  attributes (node_at w' node) !! nodeAttribute = Some url /\
  node_listeners (node_at w' node)
    = node_listeners (node_at w node) ++ [(js "load", RevokeObjectURL url)] /\
  pending w' = pending w /\
  live w' url /\
  ~ live (exec_state (fire_load node) w') url.
Proof.
  intros Hm Hv. cbv zeta. unfold feedNodeWithBlob. rewrite Hm.
  unfold node_setAttribute. rewrite Hv.
  split.
  { destruct callback; reflexivity. }
  split; [done|].
  assert (forall w0 : World, node_at (with_nodes (insert node (node_at w0 node)) w0) node = node_at w0 node) as Hsame.
  { intros w0. unfold node_at. simpl. by rewrite lookup_insert_eq. }
  destruct callback as [cb|]; munfold; unfold update_node, node_addEventListener, update_node, node_at; munfold; simpl;
    rewrite !lookup_insert_eq; simpl; rewrite <- ?app_assoc; simpl.
  all: repeat split; try done.
  all: try (by rewrite lookup_insert_eq).
  all: try (unfold live; simpl; rewrite fmap_app; apply elem_of_app; right; simpl;
            apply list_elem_of_singleton; reflexivity).
  all: match goal with |- ~ live (fire_load ?n ?w1).2 ?u =>
         change (~ live (exec_state (fire_load n) w1) u);
         unfold fire_load; erewrite exec_bind_ok; [|reflexivity];
         apply dispatch_revokes; unfold node_at; simpl; rewrite lookup_insert_eq; simpl;
         rewrite filter_app, fmap_app; apply elem_of_app; right;
         rewrite filter_cons_True by done; simpl; apply list_elem_of_here
       end.
Qed.

(** C5, amended. With a WebP MIME type and the decode engine loaded,
    feedNodeWithBlob only starts the decoding and returns. When the
    decoding fails, nothing is thrown, the failure is logged, the
    callback, if there is one, is invoked exactly once and without
    argument, and no attribute is set. When it succeeds and the
    attribute name is one setAttribute accepts, the callback is invoked
    exactly once with the decoded URI and the attribute is set to it
    afterwards. A callback is a function that returns. *)
Theorem feedNodeWithBlob_webp (node : nat) (nodeAttribute : jsstring)
    (content : list Byte.byte) (mimeType : jsstring) (callback : option nat) (w : World) :
  webpMachine = true ->
  test re_webp mimeType = true ->
  let feed := feedNodeWithBlob node nodeAttribute content mimeType callback in
  let call_with arg := match callback with Some cb => [Call cb arg] | None => [] end in
  feed w = (Ok tt, with_pending (fun l => l ++ [DecodeThenCatch node nodeAttribute callback]) w) /\
  forall (w1 : World) (i : nat),
    pending w1 !! i = Some (DecodeThenCatch node nodeAttribute callback) ->
    (let w2 := exec_state (settle i DecodeRejected) w1 in
     settle i DecodeRejected w1 = (Ok tt, w2) /\
     log w2 = log w1
              ++ [ConsoleError (js "There was an error decoding image in WebpMachine")]
              ++ call_with None /\
     nodes w2 = nodes w1) /\
    (forall uri, valid_attribute_name nodeAttribute = true ->
       let w2 := exec_state (settle i (Decoded uri)) w1 in
       settle i (Decoded uri) w1 = (Ok tt, w2) /\
       log w2 = log w1 ++ call_with (Some uri) ++ [SetAttribute node nodeAttribute uri] /\
       attributes (node_at w2 node) !! nodeAttribute = Some uri).
Proof.
  intros Hw Hm. cbv zeta. split.
  { unfold feedNodeWithBlob. rewrite Hw, Hm. reflexivity. }
  intros w1 i Hi. split.
  - unfold settle. munfold. rewrite Hi. simpl.
    unfold decode_catch. munfold. destruct callback; simpl; rewrite <- ?app_assoc; done.
  - intros uri Hv. unfold settle. munfold. rewrite Hi. simpl.
    unfold decode_then, node_setAttribute. rewrite Hv.
    unfold update_node, node_at. munfold.
    destruct callback; simpl; rewrite <- ?app_assoc, ?lookup_insert_eq; simpl;
      rewrite ?lookup_insert_eq; done.
Qed.

End Feed.

(** ** applyAppTheme *)

Section ThemeFacts.
Context `{pf : Platform}.

Lemma applyAppTheme_markup_kept (theme : jsstring) : stable markup_kept (applyAppTheme theme).
Proof. unfold applyAppTheme. stable_walk markup_leaf. Qed.

Lemma replace_nil_sub (r : regex) (s : jsstring) (c : N) :
  c ∈ replace r [] s -> c ∈ s.
Proof.
  unfold replace. destruct (regexp_exec r s) as [[[b e] cap]|]; [|done].
  unfold expand. simpl. rewrite elem_of_app.
  intros [H|H]; [by eapply subseteq_take|by eapply subseteq_drop].
Qed.

Lemma replace_nil_no_whitespace (r : regex) (s : jsstring) :
  existsb ascii_whitespace s = false -> existsb ascii_whitespace (replace r [] s) = false.
Proof.
  intros Hs. apply not_true_is_false. intros (c & Hc & Hw)%existsb_exists.
  apply list_elem_of_In, replace_nil_sub, list_elem_of_In in Hc.
  assert (existsb ascii_whitespace s = true) by (apply existsb_exists; eauto).
  congruence.
Qed.

Lemma or_else_light_valid (t : jsstring) :
  existsb ascii_whitespace t = false ->
  truthy (or_else t (js "_light")) = true /\
  existsb ascii_whitespace (or_else t (js "_light")) = false.
Proof. intros Ht. unfold or_else. destruct t; simpl in *; auto. Qed.

(** Lines 405-414 on a page with a footer, for tokens without whitespace. *)
Lemma theme_shell_spec (oldAppTheme oldContentTheme appTheme contentTheme theme : jsstring)
    (w : World) (f : list jsstring) :
  footer_classList (page w) = Some f ->
  existsb ascii_whitespace oldAppTheme = false ->
  existsb ascii_whitespace oldContentTheme = false ->
  existsb ascii_whitespace appTheme = false ->
  existsb ascii_whitespace contentTheme = false ->
  exists w',
    theme_shell (Some tt) oldAppTheme oldContentTheme appTheme contentTheme theme w = (Ok tt, w') /\
    html_classList (page w')
      = (if truthy appTheme then token_add appTheme else id)
          ((if truthy oldAppTheme then token_remove oldAppTheme else id)
             (html_classList (page w))) /\
    footer_classList (page w')
      = Some (token_add (or_else contentTheme (js "_light"))
                (token_remove (or_else oldContentTheme (js "_light")) f)) /\
    html_dataset_theme (page w') = Some theme /\
    byId (page w') = byId (page w) /\
    contentDocument (page w') = contentDocument (page w).
Proof.
  intros Hf Hoa Hoc Hna Hnc.
  destruct (or_else_light_valid _ Hoc) as [Ho1 Ho2].
  destruct (or_else_light_valid _ Hnc) as [Hn1 Hn2].
  unfold theme_shell, html_classList_remove, html_classList_add, footer_classList_remove,
    footer_classList_add, when, bind, deref, ret.
  destruct (truthy oldAppTheme) eqn:E1; destruct (truthy appTheme) eqn:E2;
    rewrite ?validate_token_ok by done; unfold modify;
    rewrite ?validate_token_ok by done;
    eexists; (split; [reflexivity|]); simpl; rewrite Hf; done.
Qed.


(** What the shell root and the footer become, whatever happens to the
    rest of the call. *)
Lemma applyAppTheme_shell (theme : jsstring) (w : World) (f : list jsstring) :
  footer_classList (page w) = Some f ->
  has_element w (js "articleContent") ->
  existsb ascii_whitespace (default [] (html_dataset_theme (page w))) = false ->
  existsb ascii_whitespace theme = false ->
  let oldTheme := default [] (html_dataset_theme (page w)) in
  let appTheme := replace re_from_underscore [] theme in
  let contentTheme := replace re_to_underscore [] theme in
  let oldAppTheme := replace re_from_underscore [] oldTheme in
  let oldContentTheme := replace re_to_underscore [] oldTheme in
  let w' := exec_state (applyAppTheme theme) w in
  html_classList (page w')
    = (if truthy appTheme then token_add appTheme else id)
        ((if truthy oldAppTheme then token_remove oldAppTheme else id)
           (html_classList (page w))) /\
  footer_classList (page w')
    = Some (token_add (or_else contentTheme (js "_light"))
              (token_remove (or_else oldContentTheme (js "_light")) f)) /\
  html_dataset_theme (page w') = Some theme.
Proof.
  intros Hf [ifr Hifr] Hold Hnew. cbv zeta.
  set (oldTheme := default [] (html_dataset_theme (page w))) in *.
  pose proof (replace_nil_no_whitespace re_from_underscore _ Hold) as Hoa.
  pose proof (replace_nil_no_whitespace re_to_underscore _ Hold) as Hoc.
  pose proof (replace_nil_no_whitespace re_from_underscore _ Hnew) as Hna.
  pose proof (replace_nil_no_whitespace re_to_underscore _ Hnew) as Hnc.
  unfold applyAppTheme.
  erewrite exec_bind_ok; [|unfold footer, gets; rewrite Hf; reflexivity].
  erewrite exec_bind_ok; [|reflexivity].
  erewrite exec_bind_ok; [|unfold getElementById, gets; rewrite Hifr; reflexivity].
  erewrite exec_bind_ok; [|reflexivity].
  erewrite exec_bind_ok; [|reflexivity].
  cbv zeta. fold oldTheme.
  destruct (theme_shell_spec _ _ _ _ theme w f Hf Hoa Hoc Hna Hnc)
    as (w2 & E2 & Hh2 & Hf2 & Hm2 & _).
  erewrite exec_bind_ok; [|exact E2].
  match goal with |- context [exec_state ?m w2] =>
    assert (stable shell_kept m) as Hst
      by (unfold theme_help, theme_content, theme_return_link; stable_walk shell_leaf);
    destruct (Hst w2) as (K1 & K2 & K3)
  end.
  rewrite K1, K2, K3. auto.
Qed.

Lemma elem_of_token_add (x t : jsstring) (l : list jsstring) :
  x ∈ token_add t l <-> x = t \/ x ∈ l.
Proof.
  unfold token_add. case_bool_decide as Ht.
  - split; [auto|]. by intros [->|?].
  - rewrite elem_of_app, list_elem_of_singleton. tauto.
Qed.

Lemma elem_of_token_remove (x t : jsstring) (l : list jsstring) :
  x ∈ token_remove t l <-> x <> t /\ x ∈ l.
Proof. unfold token_remove. by rewrite list_elem_of_filter. Qed.

Example app_dark_invert : replace re_from_underscore [] (js "dark_invert") = js "dark".
Proof. reflexivity. Qed.
Example content_dark_invert : replace re_to_underscore [] (js "dark_invert") = js "_invert".
Proof. reflexivity. Qed.
Example app_light : replace re_from_underscore [] (js "light") = js "light".
Proof. reflexivity. Qed.
Example content_light : replace re_to_underscore [] (js "light") = [].
Proof. reflexivity. Qed.

(** C6. On a page with a footer and the content frame, whatever
    classes the shell root and the footer carry and whatever theme was
    applied before, applyAppTheme('dark_invert') followed by
    applyAppTheme('light') leaves the shell root with the class [light]
    and without [dark], the footer with [_light] and without [_invert],
    and the theme marker equal to [light]. *)
Theorem applyAppTheme_dark_invert_then_light (w : World) :
  is_Some (footer_classList (page w)) ->
  has_element w (js "articleContent") ->
  existsb ascii_whitespace (default [] (html_dataset_theme (page w))) = false ->
  let w' := run [ApplyAppTheme (js "dark_invert"); ApplyAppTheme (js "light")] w in
  js "light" ∈ html_classList (page w') /\
  (js "dark" ∉ html_classList (page w')) /\
  (exists f, footer_classList (page w') = Some f /\ js "_light" ∈ f /\ (js "_invert" ∉ f)) /\
  html_dataset_theme (page w') = Some (js "light").
Proof.
  intros [f Hf] Hframe Hmarker. cbv zeta. unfold run. simpl.
  set (w1 := exec_state (applyAppTheme (js "dark_invert")) w).
  destruct (applyAppTheme_shell (js "dark_invert") w f Hf Hframe Hmarker eq_refl)
    as (_ & Hf1 & Hm1). fold w1 in Hf1, Hm1.
  assert (has_element w1 (js "articleContent")) as Hframe1
    by (by apply (applyAppTheme_markup_kept (js "dark_invert") w)).
  assert (existsb ascii_whitespace (default [] (html_dataset_theme (page w1))) = false)
    as Hmarker1 by (by rewrite Hm1).
  destruct (applyAppTheme_shell (js "light") w1 _ Hf1 Hframe1 Hmarker1 eq_refl)
    as (Hh2 & Hf2 & Hm2).
  rewrite Hm1 in Hh2, Hf2. cbn [default from_option id] in Hh2, Hf2.
  rewrite app_dark_invert, app_light in Hh2.
  rewrite content_dark_invert, content_light in Hf2.
  change (truthy (js "light")) with true in Hh2.
  change (truthy (js "dark")) with true in Hh2.
  change (or_else [] (js "_light")) with (js "_light") in Hf2.
  change (or_else (js "_invert") (js "_light")) with (js "_invert") in Hf2.
  rewrite Hh2, Hf2, Hm2. split; [|split; [|split; [|done]]].
  - apply elem_of_token_add. by left.
  - rewrite elem_of_token_add, elem_of_token_remove. intros [?|[? _]]; done.
  - eexists. split; [done|]. split.
    + apply elem_of_token_add. by left.
    + rewrite elem_of_token_add, elem_of_token_remove. intros [?|[? _]]; done.
Qed.


(** Lines 416-420 return and touch no class. *)
Lemma theme_help_spec (oldTheme theme : jsstring) (w : World) :
  exists w', theme_help oldTheme theme w = (Ok tt, w') /\ frame_kept w w'.
Proof.
  exists (exec_state (theme_help oldTheme theme) w). split.
  - unfold exec_state, theme_help. munfold. simpl.
    destruct (byId (page w) !! (oldTheme ++ js "-help")); simpl;
      match goal with |- context [?m !! (theme ++ js "-help")] =>
        destruct (m !! (theme ++ js "-help")) end; reflexivity.
  - revert w. change (stable frame_kept (theme_help oldTheme theme)).
    unfold theme_help. stable_walk frame_leaf.
Qed.

Lemma theme_return_link_frame_kept (doc : option Doc) :
  stable frame_kept (theme_return_link doc).
Proof. unfold theme_return_link. stable_walk frame_leaf. Qed.


Lemma theme_content_spec (doc : option Doc) (sheet : option HeadChild)
    (oldContentTheme contentTheme : jsstring) (attach : bool) (w : World) (ifr : Element) :
  byId (page w) !! js "articleContent" = Some ifr ->
  existsb ascii_whitespace oldContentTheme = false ->
  existsb ascii_whitespace contentTheme = false ->
  attach_decided sheet contentTheme attach ->
  let remove := truthy oldContentTheme && negb (bool_decide (oldContentTheme = contentTheme)) in
  exists w',
    theme_content (Some (js "articleContent")) doc sheet oldContentTheme contentTheme w
      = (Ok tt, w') /\
    classList <$> byId (page w') !! js "articleContent"
      = Some ((if attach then token_add contentTheme else id)
                ((if remove then token_remove oldContentTheme else id) (classList ifr))) /\
    contentDocument (page w')
      = (fun d => mkDoc (doc_title d)
                    (head_after (remove && bool_decide (is_Some sheet))
                                (attach && bool_decide (is_Some doc)) contentTheme (doc_head d)))
        <$> contentDocument (page w) /\
    shell_kept w w'.
Proof.
  intros Hifr Hoc Hnc Hatt. cbv zeta.
  unfold theme_content, attach_decided, head_after in *.
  destruct (truthy oldContentTheme && negb (bool_decide (oldContentTheme = contentTheme))) eqn:Er;
    [apply andb_true_iff in Er as [Et _]|];
    (destruct (truthy contentTheme) eqn:Ec;
     [destruct sheet as [s|];
      [destruct Hatt as (i & Hi & ->); rewrite Hi; destruct (i =? -1)%Z eqn:Ei|subst attach]
     |subst attach; destruct sheet]);
    destruct doc;
    (eexists; split; [run_m|]); simpl;
    rewrite ?lookup_alter_eq, ?Hifr; simpl;
    rewrite ?lookup_alter_eq, ?Hifr; simpl;
    (split; [done|]); (split; [|done]);
    destruct (contentDocument (page w)) as [[]|]; done.
Qed.


(** What a call of applyAppTheme makes of the shell, of the content
    frame and of the embedded document, when it gets through. *)
Lemma applyAppTheme_effect (theme : jsstring) (w : World) (f : list jsstring)
    (ifr : Element) (attach : bool) :
  footer_classList (page w) = Some f ->
  byId (page w) !! js "articleContent" = Some ifr ->
  let oldTheme := default [] (html_dataset_theme (page w)) in
  let appTheme := replace re_from_underscore [] theme in
  let contentTheme := replace re_to_underscore [] theme in
  let oldAppTheme := replace re_from_underscore [] oldTheme in
  let oldContentTheme := replace re_to_underscore [] oldTheme in
  existsb ascii_whitespace oldAppTheme = false ->
  existsb ascii_whitespace oldContentTheme = false ->
  existsb ascii_whitespace appTheme = false ->
  existsb ascii_whitespace contentTheme = false ->
  let sheet := contentDocument (page w) ≫= find_sheet in
  let remove := truthy oldContentTheme && negb (bool_decide (oldContentTheme = contentTheme)) in
  attach_decided sheet contentTheme attach ->
  let w' := exec_state (applyAppTheme theme) w in
  html_classList (page w')
    = (if truthy appTheme then token_add appTheme else id)
        ((if truthy oldAppTheme then token_remove oldAppTheme else id)
           (html_classList (page w))) /\
  footer_classList (page w')
    = Some (token_add (or_else contentTheme (js "_light"))
              (token_remove (or_else oldContentTheme (js "_light")) f)) /\
  html_dataset_theme (page w') = Some theme /\
  frame_classes w'
    = Some ((if attach then token_add contentTheme else id)
              ((if remove then token_remove oldContentTheme else id) (classList ifr))) /\
  contentDocument (page w')
    = (fun d => mkDoc (doc_title d)
                  (head_after (remove && bool_decide (is_Some sheet))
                              (attach && bool_decide (is_Some (contentDocument (page w))))
                              contentTheme (doc_head d)))
      <$> contentDocument (page w).
Proof.
  intros Hf Hifr. cbv zeta. intros Hoa Hoc Hna Hnc Hatt.
  set (oldTheme := default [] (html_dataset_theme (page w))) in *.
  unfold applyAppTheme.
  erewrite exec_bind_ok; [|unfold footer, gets; rewrite Hf; reflexivity].
  erewrite exec_bind_ok; [|reflexivity].
  erewrite exec_bind_ok; [|unfold getElementById, gets; rewrite Hifr; reflexivity].
  erewrite exec_bind_ok; [|reflexivity].
  erewrite exec_bind_ok; [|reflexivity].
  cbv zeta. fold oldTheme.
  destruct (theme_shell_spec _ _ _ _ theme w f Hf Hoa Hoc Hna Hnc)
    as (w2 & E2 & Hh2 & Hf2 & Hm2 & Hb2 & Hd2).
  erewrite exec_bind_ok; [|exact E2].
  destruct (theme_help_spec oldTheme theme w2) as (w3 & E3 & (Hs3 & Hc3 & Hd3)).
  erewrite exec_bind_ok; [|exact E3].
  assert (exists ifr3, byId (page w3) !! js "articleContent" = Some ifr3 /\
                       classList ifr3 = classList ifr) as (ifr3 & Hifr3 & Hcl3).
  { specialize (Hc3 (js "articleContent")). rewrite Hb2, Hifr in Hc3.
    destruct (byId (page w3) !! js "articleContent") as [e|]; [|done].
    exists e. split; [done|]. by injection Hc3. }
  destruct (theme_content_spec (contentDocument (page w))
              (contentDocument (page w) ≫= find_sheet) _ _ attach w3 ifr3 Hifr3 Hoc Hnc Hatt)
    as (w4 & E4 & Hc4 & Hd4 & Hs4).
  erewrite exec_bind_ok; [|exact E4].
  destruct (theme_return_link_frame_kept (contentDocument (page w)) w4) as (Hs5 & Hc5 & Hd5).
  destruct Hs3 as (A1 & A2 & A3). destruct Hs4 as (B1 & B2 & B3).
  destruct Hs5 as (C1 & C2 & C3).
  unfold frame_classes.
  rewrite C1, C2, C3, Hc5, Hd5, B1, B2, B3, Hc4, Hd4, A1, A2, A3, Hd3, Hd2, Hcl3. done.
Qed.


Lemma find_none_filter (l : list HeadChild) :
  List.find is_sheet l = None -> List.filter is_sheet l = [].
Proof.
  induction l as [|c l IH]; simpl; [done|]. destruct (is_sheet c); [done|]. exact IH.
Qed.

Lemma find_snoc_fresh (l : list HeadChild) (c : HeadChild) :
  List.find is_sheet l = None -> is_sheet c = true -> List.find is_sheet (l ++ [c]) = Some c.
Proof.
  intros Hl Hc. induction l as [|x l IH]; simpl in *; [by rewrite Hc|].
  destruct (is_sheet x); [done|]. by apply IH.
Qed.

Lemma remove_sheet_single (l : list HeadChild) :
  length (List.filter is_sheet l) <= 1 -> List.find is_sheet (remove_sheet l) = None.
Proof.
  induction l as [|c l IH]; simpl; [done|]. destruct (is_sheet c) eqn:E; simpl.
  - intros Hl. destruct (List.filter is_sheet l) as [|y k] eqn:F; [|simpl in Hl; lia].
    clear -F. induction l as [|x l IH]; simpl in *; [done|].
    destruct (is_sheet x); [done|]. by apply IH.
  - rewrite E. exact IH.
Qed.

Lemma remove_sheet_filter (l : list HeadChild) :
  length (List.filter is_sheet (remove_sheet l)) <= length (List.filter is_sheet l).
Proof.
  induction l as [|c l IH]; simpl; [done|]. destruct (is_sheet c) eqn:E; simpl.
  - lia.
  - rewrite E. exact IH.
Qed.

Lemma NoDup_token_add (t : jsstring) (l : list jsstring) : NoDup l -> NoDup (token_add t l).
Proof.
  intros Hl. unfold token_add. case_bool_decide as Ht; [done|].
  apply NoDup_app. split; [done|]. split; [|apply NoDup_singleton].
  intros x Hx ->%list_elem_of_singleton. done.
Qed.

Lemma NoDup_token_remove (t : jsstring) (l : list jsstring) : NoDup l -> NoDup (token_remove t l).
Proof. intros Hl. unfold token_remove. by apply NoDup_filter. Qed.

(** Taking a token out and putting it back keeps the token set. *)
Lemma token_add_remove (t : jsstring) (l : list jsstring) :
  NoDup l -> t ∈ l -> token_add t (token_remove t l) ≡ₚ l.
Proof.
  intros Hl Ht. apply NoDup_Permutation; [|done|].
  - by apply NoDup_token_add, NoDup_token_remove.
  - intros x. rewrite elem_of_token_add, elem_of_token_remove.
    destruct (decide (x = t)) as [->|]; tauto.
Qed.

Lemma token_add_present (t : jsstring) (l : list jsstring) : t ∈ l -> token_add t l = l.
Proof. intros Ht. unfold token_add. by rewrite bool_decide_eq_true_2. Qed.

Lemma token_add_elem (t : jsstring) (l : list jsstring) : t ∈ token_add t l.
Proof. apply elem_of_token_add. by left. Qed.

(** The document a first call leaves holds a sheet that the search of
    the second call finds, and no second sheet. *)
Lemma head_after_settled (theme : jsstring) (w : World) (d : Doc) :
  contentDocument (page w) = Some d ->
  sheet_agrees theme w ->
  let oldContentTheme := replace re_to_underscore [] (default [] (html_dataset_theme (page w))) in
  let contentTheme := replace re_to_underscore [] theme in
  let remove := truthy oldContentTheme && negb (bool_decide (oldContentTheme = contentTheme)) in
  let attach := if truthy contentTheme
                then match find_sheet d with None => true | Some _ => remove end
                else false in
  let l' := head_after (remove && bool_decide (is_Some (find_sheet d)))
              (attach && true) contentTheme (doc_head d) in
  length (List.filter is_sheet l') <= 1 /\
  (truthy contentTheme = true ->
   exists s i, List.find is_sheet l' = Some s /\
               String_search (href_property (hc_href s)) (sheet_pattern contentTheme) = Ok i /\
               (i =? -1)%Z = false).
Proof.
  intros Hd Hag. cbv zeta. unfold sheet_agrees in Hag. rewrite Hd in Hag.
  destruct Hag as (Hone & Hag). unfold head_after, find_sheet in *.
  set (link := mkHeadChild _ _ _ _).
  destruct (truthy (replace re_to_underscore [] theme)) eqn:Ec.
  - destruct (Hag eq_refl) as ((j & Hj & Hj') & Hs). clear Hag.
    destruct (List.find is_sheet (doc_head d)) as [s|] eqn:Es.
    + destruct (Hs s eq_refl) as (i & Hi & Hi').
      destruct (truthy _ && negb _) eqn:Er; simpl.
      * pose proof (remove_sheet_single _ Hone) as Hnone. split.
        -- rewrite List.filter_app, length_app, (find_none_filter _ Hnone). simpl. done.
        -- intros _. exists link, j. split; [by apply find_snoc_fresh|done].
      * split; [done|]. intros _. exists s, i. rewrite Es. done.
    + rewrite andb_false_r. simpl. split.
      * rewrite List.filter_app, length_app, (find_none_filter _ Es). simpl. done.
      * intros _. exists link, j. split; [by apply find_snoc_fresh|done].
  - split; [|done]. simpl.
    destruct (_ && bool_decide _); simpl; [|done].
    etrans; [apply remove_sheet_filter|done].
Qed.


(** Two token lists with the same tokens, none twice. *)
Ltac same_tokens :=
  apply NoDup_Permutation;
  [ auto 10 using NoDup_token_add, NoDup_token_remove
  | auto 10 using NoDup_token_add, NoDup_token_remove
  | let x := fresh "x" in
    intros x; repeat first [rewrite elem_of_token_add | rewrite elem_of_token_remove];
    repeat match goal with
           | |- context [x = ?t] => lazymatch goal with
                                    | _ : x = t |- _ => fail
                                    | _ : x <> t |- _ => fail
                                    | _ => destruct (decide (x = t))
                                    end
           end; tauto ].

(** Lines 405-414 when they throw: a second run from the state they
    left throws at the same place and leaves the same classes. *)
Lemma theme_shell_throws (r : option unit)
    (oldAppTheme oldContentTheme appTheme contentTheme theme : jsstring) (w : World) :
  (r = None <-> footer_classList (page w) = None) ->
  NoDup (html_classList (page w)) ->
  (forall f, footer_classList (page w) = Some f -> NoDup f) ->
  match r with Some _ => true | None => false end
    && tokens_valid oldAppTheme && tokens_valid oldContentTheme
    && tokens_valid appTheme && tokens_valid contentTheme = false ->
  let shell := theme_shell r oldAppTheme oldContentTheme appTheme contentTheme theme in
  exists e w1 w2,
    shell w = (Throw e, w1) /\ shell w1 = (Throw e, w2) /\
    html_dataset_theme (page w1) = html_dataset_theme (page w) /\
    byId (page w1) = byId (page w) /\
    contentDocument (page w1) = contentDocument (page w) /\
    (footer_classList (page w1) = None <-> footer_classList (page w) = None) /\
    html_dataset_theme (page w2) = html_dataset_theme (page w1) /\
    byId (page w2) = byId (page w1) /\
    contentDocument (page w2) = contentDocument (page w1) /\
    html_classList (page w2) ≡ₚ html_classList (page w1) /\
    NoDup (html_classList (page w2)) /\
    match footer_classList (page w1), footer_classList (page w2) with
    | Some f1, Some f2 => f2 ≡ₚ f1 /\ NoDup f2
    | None, None => True
    | _, _ => False
    end.
Proof.
  intros Hr Nh Nf Hbad. cbv zeta.
  assert (truthy (js "_light") = true) as L1 by reflexivity.
  assert (existsb ascii_whitespace (js "_light") = false) as L2 by reflexivity.
  destruct (theme_shell r oldAppTheme oldContentTheme appTheme contentTheme theme w)
    as [res1 w1] eqn:E1.
  destruct (theme_shell r oldAppTheme oldContentTheme appTheme contentTheme theme w1)
    as [res2 w2] eqn:E2.
  pose proof E2 as E2'.
  unfold tokens_valid in Hbad.
  unfold theme_shell, html_classList_remove, html_classList_add, footer_classList_remove,
    footer_classList_add, validate_token, when, bind, deref, ret, throw, modify,
    or_else in E1, E2.
  destruct (footer_classList (page w)) as [f|] eqn:Ef;
    (destruct r as [[]|];
     [|try (destruct Hr as [Hr _]; discriminate (Hr eq_refl))];
     try (destruct Hr as [_ Hr]; discriminate (Hr eq_refl)));
    try specialize (Nf _ eq_refl);
    destruct (truthy oldAppTheme) eqn:T1; destruct (existsb ascii_whitespace oldAppTheme) eqn:W1;
    try (destruct oldAppTheme; discriminate);
    destruct (truthy oldContentTheme) eqn:T2;
    destruct (existsb ascii_whitespace oldContentTheme) eqn:W2;
    try (destruct oldContentTheme; discriminate);
    destruct (truthy appTheme) eqn:T3; destruct (existsb ascii_whitespace appTheme) eqn:W3;
    try (destruct appTheme; discriminate);
    destruct (truthy contentTheme) eqn:T4;
    destruct (existsb ascii_whitespace contentTheme) eqn:W4;
    try (destruct contentTheme; discriminate);
    try discriminate Hbad;
    repeat (simpl in E1; rewrite ?T1, ?T2, ?T3, ?T4, ?W1, ?W2, ?W3, ?W4, ?L1, ?L2 in E1);
    simpl in E1; injection E1 as <- <-;
    repeat (simpl in E2; rewrite ?Ef, ?T1, ?T2, ?T3, ?T4, ?W1, ?W2, ?W3, ?W4, ?L1, ?L2 in E2);
    simpl in E2; injection E2 as <- <-;
    eexists _, _, _; (split; [reflexivity|]); (split; [exact E2'|]);
    simpl; rewrite ?Ef; simpl;
    repeat (split; [done|]);
    repeat split; try done; try same_tokens;
    auto 10 using NoDup_token_add, NoDup_token_remove.
Qed.

(** An agreeing embedded document holds at most one theme link. *)
Lemma sheet_agrees_one (theme : jsstring) (w : World) (d : Doc) :
  sheet_agrees theme w -> contentDocument (page w) = Some d ->
  length (List.filter is_sheet (doc_head d)) <= 1.
Proof. unfold sheet_agrees. intros Hag Hd. rewrite Hd in Hag. tauto. Qed.

(** The two calls when neither throws in lines 405-414. *)
Lemma applyAppTheme_twice_through (theme : jsstring) (w : World) :
  is_Some (footer_classList (page w)) ->
  has_element w (js "articleContent") ->
  existsb ascii_whitespace
    (replace re_from_underscore [] (default [] (html_dataset_theme (page w)))) = false ->
  existsb ascii_whitespace
    (replace re_to_underscore [] (default [] (html_dataset_theme (page w)))) = false ->
  existsb ascii_whitespace (replace re_from_underscore [] theme) = false ->
  existsb ascii_whitespace (replace re_to_underscore [] theme) = false ->
  NoDup (html_classList (page w)) ->
  (forall f, footer_classList (page w) = Some f -> NoDup f) ->
  (forall c, frame_classes w = Some c -> NoDup c) ->
  sheet_agrees theme w ->
  let w1 := exec_state (applyAppTheme theme) w in
  let w2 := exec_state (applyAppTheme theme) w1 in
  (html_classList (page w2) ≡ₚ html_classList (page w1) /\ NoDup (html_classList (page w2))) /\
  (exists f1 f2, footer_classList (page w1) = Some f1 /\ footer_classList (page w2) = Some f2 /\
                 f2 ≡ₚ f1 /\ NoDup f2) /\
  (exists c, frame_classes w1 = Some c /\ frame_classes w2 = Some c /\ NoDup c) /\
  html_dataset_theme (page w2) = html_dataset_theme (page w1) /\
  contentDocument (page w2) = contentDocument (page w1) /\
  (forall d, contentDocument (page w2) = Some d ->
             length (List.filter is_sheet (doc_head d)) <= 1).
Proof.
  intros [f Hf] [ifr Hifr] Hoa Hoc Hna Hnc Nh Nf Nc Hag. cbv zeta.
  specialize (Nf f Hf). specialize (Nc (classList ifr)).
  unfold frame_classes in Nc at 1. rewrite Hifr in Nc. specialize (Nc eq_refl).
  set (oc := replace re_to_underscore [] (default [] (html_dataset_theme (page w)))).
  set (oa := replace re_from_underscore [] (default [] (html_dataset_theme (page w)))).
  set (c := replace re_to_underscore [] theme).
  set (a := replace re_from_underscore [] theme).
  set (remove := truthy oc && negb (bool_decide (oc = c))).
  set (attach1 := if truthy c
                  then match contentDocument (page w) ≫= find_sheet with
                       | None => true | Some _ => remove end
                  else false).
  (* the first call *)
  assert (attach_decided (contentDocument (page w) ≫= find_sheet) c attach1) as Hatt1.
  { unfold attach_decided, attach1. destruct (truthy c) eqn:Ec; [|done].
    destruct (contentDocument (page w)) as [d|] eqn:Ed; [|done]. simpl.
    destruct (find_sheet d) as [s|] eqn:Es; [|done].
    unfold sheet_agrees in Hag. rewrite Ed in Hag. destruct Hag as (_ & Hag).
    destruct (Hag Ec) as (_ & Hs). destruct (Hs s Es) as (i & Hi & Hi'). eauto. }
  destruct (applyAppTheme_effect theme w f ifr attach1 Hf Hifr Hoa Hoc Hna Hnc Hatt1)
    as (Hh1 & Hf1 & Hm1 & Hc1 & Hd1).
  fold oc oa c a remove in Hh1, Hf1, Hc1, Hd1.
  set (w1 := exec_state (applyAppTheme theme) w) in *.
  (* the second call *)
  assert (exists ifr1, byId (page w1) !! js "articleContent" = Some ifr1 /\
                       frame_classes w1 = Some (classList ifr1)) as (ifr1 & Hifr1 & Hcl1).
  { unfold frame_classes in *. destruct (byId (page w1) !! js "articleContent") as [e|]; [|done].
    eauto. }
  assert (default [] (html_dataset_theme (page w1)) = theme) as Hold1 by (by rewrite Hm1).
  set (attach2 := if truthy c
                  then match contentDocument (page w) with Some _ => false | None => true end
                  else false).
  assert (attach_decided (contentDocument (page w1) ≫= find_sheet) c attach2 /\
          forall d, contentDocument (page w1) = Some d ->
                    length (List.filter is_sheet (doc_head d)) <= 1) as (Hatt2 & Hone1).
  { unfold attach_decided, attach2. rewrite Hd1.
    destruct (contentDocument (page w)) as [d|] eqn:Ed; simpl.
    - destruct (head_after_settled theme w d Ed Hag) as (Hone & Hfound).
      fold oc c remove in Hone, Hfound.
      assert (attach1 = if truthy c then match find_sheet d with
                                         | None => true | Some _ => remove end else false)
        as Ha1 by done.
      rewrite <- Ha1 in Hone, Hfound. split.
      + destruct (truthy c) eqn:Ec; [|done].
        destruct (Hfound eq_refl) as (s & i & Hs & Hi & Hi').
        unfold find_sheet in *. simpl. rewrite Hs. exists i. done.
      + intros d1 [= <-]. exact Hone.
    - split; [|done]. by destruct (truthy c). }
  rewrite <- Hold1 in Hna, Hnc.
  destruct (applyAppTheme_effect theme w1 _ ifr1 attach2 Hf1 Hifr1 Hna Hnc
              ltac:(by rewrite <- Hold1) ltac:(by rewrite <- Hold1) Hatt2)
    as (Hh2 & Hf2 & Hm2 & Hc2 & Hd2).
  rewrite Hold1 in Hh2, Hf2, Hc2, Hd2.
  fold c a in Hh2, Hf2, Hc2, Hd2.
  set (w2 := exec_state (applyAppTheme theme) w1) in *.
  rewrite (bool_decide_eq_true_2 (c = c) eq_refl), andb_false_r in Hc2, Hd2.
  simpl in Hd2.
  assert (NoDup (html_classList (page w1))) as Nh1.
  { rewrite Hh1. destruct (truthy a), (truthy oa); simpl;
      auto using NoDup_token_add, NoDup_token_remove. }
  assert (NoDup (classList ifr1)) as Nc1.
  { rewrite Hc1 in Hcl1. injection Hcl1 as <-.
    destruct attach1, remove; simpl; auto using NoDup_token_add, NoDup_token_remove. }
  assert (contentDocument (page w2) = contentDocument (page w1)) as Hsame.
  { assert (attach2 && bool_decide (is_Some (contentDocument (page w1))) = false) as Hno.
    { unfold attach2. rewrite Hd1.
      destruct (contentDocument (page w)); simpl; destruct (truthy c); done. }
    rewrite Hno in Hd2. rewrite Hd2.
    destruct (contentDocument (page w1)) as [[t l]|]; done. }
  split; [|split; [|split; [|split; [|split]]]].
  - rewrite Hh2. destruct (truthy a) eqn:Ea; simpl; [|done].
    assert (a ∈ html_classList (page w1)) as Hin by (rewrite Hh1; apply token_add_elem).
    split; [by apply token_add_remove|by apply NoDup_token_add, NoDup_token_remove].
  - eexists _, _. split; [exact Hf1|]. split; [exact Hf2|].
    assert (NoDup (token_add (or_else c (js "_light")) (token_remove (or_else oc (js "_light")) f)))
      as Nf1 by auto using NoDup_token_add, NoDup_token_remove.
    split; [apply token_add_remove; [done|apply token_add_elem]|].
    by apply NoDup_token_add, NoDup_token_remove.
  - exists (classList ifr1). split; [done|]. split; [|done].
    rewrite Hc2. f_equal. unfold attach2.
    destruct (truthy c) eqn:Ec; [|done].
    destruct (contentDocument (page w)) as [d|] eqn:Ed; [done|]. simpl.
    apply token_add_present.
    rewrite Hc1 in Hcl1. injection Hcl1 as <-.
    apply token_add_elem.
  - by rewrite Hm1, Hm2.
  - exact Hsame.
  - intros d Hd. apply Hone1. by rewrite <- Hsame.
Qed.


(** C7, as amended. Take any selector and any page whose class lists
    (shell root, footer, content frame) hold no token twice and whose
    embedded document, if there is one, agrees with the theme marker
    ([sheet_agrees]). After two calls of applyAppTheme with the selector
    in a row, whether they return or throw, the shell root and the
    footer carry the classes they carried after the first call, none of
    them twice; the content frame has the class list of the first call,
    no token twice; the theme marker and the embedded document are those
    of the first call; and the head of the embedded document holds at
    most one theme stylesheet link. *)
Theorem applyAppTheme_twice (theme : jsstring) (w : World) :
  NoDup (html_classList (page w)) ->
  (forall f, footer_classList (page w) = Some f -> NoDup f) ->
  (forall c, frame_classes w = Some c -> NoDup c) ->
  sheet_agrees theme w ->
  let w1 := exec_state (applyAppTheme theme) w in
  let w2 := exec_state (applyAppTheme theme) w1 in
  html_classList (page w2) ≡ₚ html_classList (page w1) /\
  NoDup (html_classList (page w2)) /\
  match footer_classList (page w1), footer_classList (page w2) with
  | Some f1, Some f2 => f2 ≡ₚ f1 /\ NoDup f2
  | None, None => True
  | _, _ => False
  end /\
  frame_classes w2 = frame_classes w1 /\
  (forall c, frame_classes w2 = Some c -> NoDup c) /\
  html_dataset_theme (page w2) = html_dataset_theme (page w1) /\
  contentDocument (page w2) = contentDocument (page w1) /\
  (forall d, contentDocument (page w2) = Some d ->
             length (List.filter is_sheet (doc_head d)) <= 1).
Proof.
  intros Nh Nf Nc Hag. cbv zeta.
  destruct (byId (page w) !! js "articleContent") as [ifr|] eqn:Hifr.
  2: { (* no content frame: line 398 throws before anything is written *)
    assert (exec_state (applyAppTheme theme) w = w) as ->.
    { unfold applyAppTheme. munfold. simpl. by rewrite Hifr. }
    assert (exec_state (applyAppTheme theme) w = w) as ->.
    { unfold applyAppTheme. munfold. simpl. by rewrite Hifr. }
    split; [done|]. split; [done|]. split.
    { destruct (footer_classList (page w)) as [f|] eqn:Ef; [|done]. split; [done|]. by apply Nf. }
    split; [done|]. split; [done|]. split; [done|]. split; [done|].
    intros d Hd. by eapply sheet_agrees_one. }
  set (oldTheme := default [] (html_dataset_theme (page w))).
  set (oa := replace re_from_underscore [] oldTheme).
  set (oc := replace re_to_underscore [] oldTheme).
  set (a := replace re_from_underscore [] theme).
  set (c := replace re_to_underscore [] theme).
  set (r := match footer_classList (page w) with Some _ => Some tt | None => None end).
  destruct (match r with Some _ => true | None => false end
            && tokens_valid oa && tokens_valid oc && tokens_valid a && tokens_valid c) eqn:Hv.
  - (* lines 405-414 get through *)
    apply andb_true_iff in Hv as [Hv V4]. apply andb_true_iff in Hv as [Hv V3].
    apply andb_true_iff in Hv as [Hv V2]. apply andb_true_iff in Hv as [Hv V1].
    unfold tokens_valid in *. apply negb_true_iff in V1, V2, V3, V4. subst r.
    assert (is_Some (footer_classList (page w))) as Hsome.
    { destruct (footer_classList (page w)); [by eexists|done]. }
    assert (has_element w (js "articleContent")) as Hel by (by exists ifr).
    destruct (applyAppTheme_twice_through theme w Hsome Hel V1 V2 V3 V4 Nh Nf Nc Hag)
      as (H1 & H2 & H3 & H4 & H5 & H6).
    destruct H1 as [H1 H1']. destruct H2 as (f1 & f2 & F1 & F2 & H2 & H2').
    destruct H3 as (cs & H3 & H3' & H3'').
    rewrite F1, F2, H3, H3'. repeat split; try done.
    intros ? [= <-]. done.
  - (* they throw, twice at the same place *)
    assert (r = None <-> footer_classList (page w) = None) as Hr.
    { subst r. destruct (footer_classList (page w)); split; done. }
    destruct (theme_shell_throws r oa oc a c theme w Hr Nh Nf Hv)
      as (e & w1 & w2 & E1 & E2 & M1 & B1 & D1 & F1 & M2 & B2 & D2 & Hh & Hn & Hf).
    assert (exec_state (applyAppTheme theme) w = w1) as ->.
    { unfold applyAppTheme.
      erewrite exec_bind_ok; [|reflexivity].
      erewrite exec_bind_ok; [|reflexivity].
      erewrite exec_bind_ok; [|unfold getElementById, gets; rewrite Hifr; reflexivity].
      erewrite exec_bind_ok; [|reflexivity].
      erewrite exec_bind_ok; [|reflexivity].
      cbv zeta. erewrite exec_bind_throw; [reflexivity|exact E1]. }
    assert (exec_state (applyAppTheme theme) w1 = w2) as ->.
    { unfold applyAppTheme.
      erewrite exec_bind_ok; [|reflexivity].
      erewrite exec_bind_ok; [|reflexivity].
      erewrite exec_bind_ok; [|unfold getElementById, gets; rewrite B1, Hifr; reflexivity].
      erewrite exec_bind_ok; [|reflexivity].
      erewrite exec_bind_ok; [|reflexivity].
      cbv zeta. rewrite M1. fold oldTheme oa oc a c.
      assert (match footer_classList (page w1) with Some _ => Some tt | None => None end = r)
        as ->.
      { subst r. destruct (footer_classList (page w1)), (footer_classList (page w));
          try done; [by destruct F1 as [_ F1]; discriminate (F1 eq_refl)
                    |by destruct F1 as [F1 _]; discriminate (F1 eq_refl)]. }
      erewrite exec_bind_throw; [reflexivity|exact E2]. }
    unfold frame_classes. rewrite B2, M2, D2, D1. repeat split; try done.
    + rewrite B1. exact Nc.
    + intros d Hd. by eapply sheet_agrees_one.
Qed.

End ThemeFacts.

(** * The theorems at concrete inputs *)

Lemma checkUpdateStatus_flag_set_once_witness :
  let later := [CheckUpdateStatus; ClickDataHide (js "updateAlert"); CheckUpdateStatus] in
  let w' := run (pf:=Example.browser) (Example.check_sees_update ++ later) Example.loaded in
  pwaUpdateNeeded (session w') = true /\
  checkUpdateStatus (pf:=Example.browser) w' = (Ok tt, w') /\
  rises (pwaUpdateNeeded (session Example.loaded))
    (flag_history (pf:=Example.browser) (Example.check_sees_update ++ later) Example.loaded)
  <= 1.
Proof.
  apply (checkUpdateStatus_flag_set_once (pf:=Example.browser)).
  vm_compute. reflexivity.
Defined.

Lemma checkUpdateStatus_key_scan_witness :
  let w := Example.loaded in
  let key := js "kiwix-appCache-3.2.0" in
  let cachePrefix := replace re_cache_prefix [TGroup1] (cn_app Example.cacheNames) in
  cachePrefix = js "kiwix-appCache-" /\
  exists w',
    check_key Example.cacheNames cachePrefix (Some (js "updateAlert")) key w = (Ok tt, w') /\
    pwaUpdateNeeded (session w') = true /\
    element_display w' (js "updateAlert") = Some (js "block") /\
    element_innerHTML w' (js "persistentMessage") = Some (version_message (js "3.2.0")).
Proof.
  assert (updateAlert (session Example.loaded) = Some (js "updateAlert")) as H1 by reflexivity.
  assert (has_element Example.loaded (js "updateAlert")) as H2 by (vm_compute; eauto).
  assert (has_element Example.loaded (js "persistentMessage")) as H3 by (vm_compute; eauto).
  destruct (checkUpdateStatus_key_scan Example.cacheNames Example.keyList
              (js "kiwix-appCache-3.2.0") Example.loaded H1 H2 H3) as (_ & _ & Hhit & Hprefix).
  cbv zeta. split.
  - apply (Hprefix (js "kiwix-appCache-") 51%N (js ".1.9")); [reflexivity|done|reflexivity..].
  - apply Hhit; [done|done|]. exists (js "3.2.0"). reflexivity.
Defined.

Lemma checkUpdateStatus_hides_banner_witness :
  let shown := exec_state (style_display_set (Some (js "updateAlert")) (js "block"))
                 Example.loaded in
  element_display shown (js "updateAlert") = Some (js "block") /\
  caches_keys_then Example.cacheNames Example.stale_keyList shown = (Ok tt, banner_hidden shown) /\
  element_display (banner_hidden shown) (js "updateAlert") = Some (js "none").
Proof.
  cbv zeta.
  set (shown := exec_state (style_display_set (Some (js "updateAlert")) (js "block"))
                  Example.loaded).
  assert (updateAlert (session shown) = Some (js "updateAlert")) as H1 by reflexivity.
  assert (has_element shown (js "updateAlert")) as H2 by (vm_compute; eauto).
  destruct (checkUpdateStatus_hides_banner Example.cacheNames Example.stale_keyList shown
              H1 H2 eq_refl) as (_ & _ & Hnone & Hhidden).
  split; [reflexivity|]. split; [|exact Hhidden].
  apply Hnone. unfold Example.stale_keyList.
  apply Forall_cons_2; [left; reflexivity|].
  apply Forall_cons_2; [right; left; reflexivity|].
  apply Forall_cons_2; [|apply Forall_nil_2].
  right. right. intros Hp%starts_with_prefix. vm_compute in Hp. discriminate.
Defined.

Lemma dismiss_listeners_attached_once_witness :
  let es := [DisplayFileDownloadAlert (js "/docs/a.txt") (DBoolean true) None [];
             CheckUpdateStatus;
             DisplayFileDownloadAlert (js "/docs/b.txt") (DString (js "b.txt")) None [];
             ClickDataHide (js "downloadAlert");
             DisplayFileDownloadAlert (js "c") (DBoolean false) None [];
             CheckUpdateStatus] in
  let w := run (pf:=Example.browser) es (exec_state module_load Example.fresh) in
  attached is_HideDownloadAlert (data_hide_listeners w (js "downloadAlert")) = 1 /\
  attached is_HideUpdateAlert (data_hide_listeners w (js "updateAlert")) = 1.
Proof.
  apply (dismiss_listeners_attached_once (pf:=Example.browser) Example.fresh);
    vm_compute; eauto.
Defined.

Lemma feedNodeWithBlob_synchronous_witness :
  let feed := feedNodeWithBlob (pf:=Example.browser) 7 (js "src") [] (js "image/png") (Some 1) in
  let url := object_url (pf:=Example.browser) 0 in
  let w' := exec_state feed Example.loaded in
  feed Example.loaded = (Ok tt, w') /\
  url <> [] /\
  log w' = [Call 1 (Some url); SetAttribute 7 (js "src") url] /\
  attributes (node_at w' 7) !! js "src" = Some url /\
  node_listeners (node_at w' 7) = [(js "load", RevokeObjectURL url)] /\
  pending w' = [] /\
  live w' url /\
  ~ live (exec_state (fire_load 7) w') url.
Proof.
  exact (feedNodeWithBlob_synchronous (pf:=Example.browser) 7 (js "src") [] (js "image/png")
           (Some 1) Example.loaded eq_refl eq_refl).
Defined.

Lemma feedNodeWithBlob_webp_witness :
  let feed := feedNodeWithBlob (pf:=Example.legacy_browser) 7 (js "src") []
                (js "image/WebP") (Some 1) in
  let w1 := exec_state feed Example.loaded in
  feed Example.loaded = (Ok tt, w1) /\
  pending w1 = [DecodeThenCatch 7 (js "src") (Some 1)] /\
  log (exec_state (settle (pf:=Example.legacy_browser) 0 DecodeRejected) w1)
    = [ConsoleError (js "There was an error decoding image in WebpMachine"); Call 1 None] /\
  nodes (exec_state (settle (pf:=Example.legacy_browser) 0 DecodeRejected) w1) = nodes w1 /\
  log (exec_state (settle (pf:=Example.legacy_browser) 0 (Decoded (js "data:image/png;base64,AA"))) w1)
    = [Call 1 (Some (js "data:image/png;base64,AA"));
       SetAttribute 7 (js "src") (js "data:image/png;base64,AA")].
Proof.
  cbv zeta.
  destruct (feedNodeWithBlob_webp (pf:=Example.legacy_browser) 7 (js "src") []
              (js "image/WebP") (Some 1) Example.loaded eq_refl eq_refl) as (Hfeed & Hsettle).
  assert (exec_state (feedNodeWithBlob (pf:=Example.legacy_browser) 7 (js "src") []
                        (js "image/WebP") (Some 1)) Example.loaded
          = with_pending (fun l => l ++ [DecodeThenCatch 7 (js "src") (Some 1)]) Example.loaded)
    as Hw1 by (unfold exec_state; by rewrite Hfeed).
  rewrite Hw1.
  destruct (Hsettle (with_pending (fun l => l ++ [DecodeThenCatch 7 (js "src") (Some 1)])
                       Example.loaded) 0 eq_refl) as ((_ & Hlog & Hnodes) & Hok).
  destruct (Hok (js "data:image/png;base64,AA") eq_refl) as (_ & Hlog' & _).
  repeat split; try done.
Defined.

Lemma applyAppTheme_dark_invert_then_light_witness :
  let w' := run (pf:=Example.browser)
              [ApplyAppTheme (js "dark_invert"); ApplyAppTheme (js "light")] Example.loaded in
  js "light" ∈ html_classList (page w') /\
  (js "dark" ∉ html_classList (page w')) /\
  (exists f, footer_classList (page w') = Some f /\ js "_light" ∈ f /\ (js "_invert" ∉ f)) /\
  html_dataset_theme (page w') = Some (js "light").
Proof.
  apply (applyAppTheme_dark_invert_then_light (pf:=Example.browser) Example.loaded);
    vm_compute; eauto.
Defined.

Lemma applyAppTheme_twice_witness :
  let w1 := exec_state (applyAppTheme (pf:=Example.browser) (js "dark_invert")) Example.themed in
  let w2 := exec_state (applyAppTheme (pf:=Example.browser) (js "dark_invert")) w1 in
  html_classList (page w2) ≡ₚ html_classList (page w1) /\
  NoDup (html_classList (page w2)) /\
  match footer_classList (page w1), footer_classList (page w2) with
  | Some f1, Some f2 => f2 ≡ₚ f1 /\ NoDup f2
  | None, None => True
  | _, _ => False
  end /\
  frame_classes w2 = frame_classes w1 /\
  (forall c, frame_classes w2 = Some c -> NoDup c) /\
  html_dataset_theme (page w2) = html_dataset_theme (page w1) /\
  contentDocument (page w2) = contentDocument (page w1) /\
  (forall d, contentDocument (page w2) = Some d ->
             length (List.filter is_sheet (doc_head d)) <= 1).
Proof.
  apply (applyAppTheme_twice (pf:=Example.browser) (js "dark_invert") Example.themed).
  - vm_compute. apply NoDup_singleton.
  - assert (footer_classList (page Example.themed) = Some [js "_mwInvert"]) as E
      by (vm_compute; reflexivity).
    intros f Hf. rewrite E in Hf. injection Hf as <-. apply NoDup_singleton.
  - assert (frame_classes Example.themed = Some [js "_mwInvert"]) as E
      by (vm_compute; reflexivity).
    intros c Hc. rewrite E in Hc. injection Hc as <-. apply NoDup_singleton.
  - unfold sheet_agrees.
    change (contentDocument (page Example.themed)) with
      (Some (mkDoc (js "Ray Charles")
               [mkHeadChild kiwixJSTheme (js "stylesheet") (js "text/css")
                  (js "https://kiwix.example/www/css/kiwixJS_mwInvert.css")])).
    cbv zeta. split; [vm_compute; lia|]. intros _. split.
    + exists 30%Z. split; reflexivity.
    + intros s [= <-]. exists (-1)%Z. split; reflexivity.
Defined.

(** Why the embedded document has to agree with the theme marker: over
    an article that carries the stylesheet of another theme than the
    marker tells, every call attaches one more link. *)
Remark applyAppTheme_mismatched_sheet :
  let sheets w := (fun d => length (List.filter is_sheet (doc_head d))) <$> contentDocument (page w) in
  let once := exec_state (applyAppTheme (pf:=Example.browser) (js "dark_mwInvert")) Example.mismatched in
  let twice := exec_state (applyAppTheme (pf:=Example.browser) (js "dark_mwInvert")) once in
  sheets Example.mismatched = Some 1 /\ sheets once = Some 2 /\ sheets twice = Some 3.
Proof. vm_compute. auto. Qed.

(** C7, as stated, fails: in Config, over a real article, the second
    call registers a second click listener on the return link, so the
    page is not in the state the first call left. *)
Lemma applyAppTheme_twice_not_same_state :
  let once := exec_state (applyAppTheme (pf:=Example.browser) (js "dark_invert")) Example.loaded in
  let twice := exec_state (applyAppTheme (pf:=Example.browser) (js "dark_invert")) once in
  twice <> once /\
  return_link_listeners once = [(js "click", ReturnToArticle)] /\
  return_link_listeners twice = [(js "click", ReturnToArticle); (js "click", ReturnToArticle)].
Proof.
  cbv zeta. split; [|split; reflexivity].
  intros Heq. apply (f_equal (fun w => length (return_link_listeners w))) in Heq.
  vm_compute in Heq. discriminate.
Qed.

(** C4, as stated, fails: for the empty attribute name, which
    setAttribute rejects, a synchronous feed throws once the callback
    has been invoked with the URL, and the node gets no attribute. *)
Lemma feedNodeWithBlob_synchronous_rejected_name :
  let feed := feedNodeWithBlob (pf:=Example.browser) 7 [] [] (js "image/png") (Some 1) in
  let url := object_url (pf:=Example.browser) 0 in
  let w' := exec_state feed Example.loaded in
  feed Example.loaded = (Throw InvalidCharacterError, w') /\
  log w' = [Call 1 (Some url)] /\
  attributes (node_at w' 7) !! [] = None.
Proof. vm_compute. auto. Qed.

(** C5, as stated, fails: for the empty attribute name, a decoding that
    succeeds ends with the callback invoked twice, with the decoded URI
    and then without argument, and with no attribute on the node. *)
Lemma feedNodeWithBlob_webp_callback_twice :
  let feed := feedNodeWithBlob (pf:=Example.legacy_browser) 7 [] [] (js "image/webp") (Some 1) in
  let uri := js "data:image/png;base64,AA" in
  let w1 := exec_state feed Example.loaded in
  let w2 := exec_state (settle (pf:=Example.legacy_browser) 0 (Decoded uri)) w1 in
  pending w1 = [DecodeThenCatch 7 [] (Some 1)] /\
  settle (pf:=Example.legacy_browser) 0 (Decoded uri) w1 = (Ok tt, w2) /\
  log w2 = [Call 1 (Some uri);
            ConsoleError (js "There was an error decoding image in WebpMachine");
            Call 1 None] /\
  attributes (node_at w2 7) !! [] = None.
Proof. vm_compute. auto. Qed.


(** * Further properties *)

(** ** Patterns that (suffix_cut a q) a suffix off *)

Lemma scan_cons (r : regex) (i : nat) (x : N) (s : jsstring) :
  scan r i (x :: s) = match exec r i (x :: s) i None with
                      | Some (e, cap) => Some (i, e, cap)
                      | None => scan r (S i) s
                      end.
Proof. reflexivity. Qed.

Lemma scan_nil (r : regex) (i : nat) :
  scan r i [] = match exec r i [] i None with
                | Some (e, cap) => Some (i, e, cap)
                | None => None
                end.
Proof. reflexivity. Qed.

Section Suffix.
Variables (a : ascii) (q : N -> bool).
Hypothesis q_stops : forall c, q c = true -> c <> N_of_ascii a.


Lemma exec_cut_hit (i : nat) (t : jsstring) (g : nat) (cap : capture) :
  forallb q t = true ->
  exec (suffix_cut a q) i (N_of_ascii a :: t) g cap = Some (S i + length t, cap).
Proof.
  intros Ht. unfold suffix_cut. rewrite exec_one. unfold chr at 1. rewrite N.eqb_refl.
  rewrite <- (app_nil_r t) at 1.
  rewrite (exec_star_greedy q [Eol] t [] g cap (S i + length t, cap)); done.
Qed.

Lemma exec_cut_miss (i : nat) (s : jsstring) (g : nat) (cap : capture) :
  Exists (fun c => q c = false) (tail s) \/ head s <> Some (N_of_ascii a) ->
  exec (suffix_cut a q) i s g cap = None.
Proof.
  intros Hs. destruct (exec (suffix_cut a q) i s g cap) as [[e cp]|] eqn:E; [|done].
  apply exec_one_star_eol in E as (x & s' & -> & Hx & Hq).
  unfold chr in Hx. apply N.eqb_eq in Hx as ->. simpl in Hs.
  destruct Hs as [Hs|Hs]; [|done].
  apply Exists_exists in Hs as (c & Hc & Hqc).
  rewrite forallb_forall in Hq. apply list_elem_of_In, Hq in Hc. congruence.
Qed.

(** The match starts at the last unit [a] when the stretch behind it is
    in the class. *)
Lemma scan_cut_last (u t : jsstring) (i : nat) :
  forallb q t = true ->
  scan (suffix_cut a q) i (u ++ N_of_ascii a :: t) = Some (i + length u, i + length u + S (length t), None).
Proof.
  intros Ht. revert i. induction u as [|x u IH]; intros i.
  - simpl app. rewrite (scan_hit _ _ _ _ _ (exec_cut_hit i t i None Ht)).
    simpl. repeat (f_equal; try lia).
  - simpl app. rewrite scan_cons, exec_cut_miss.
    + rewrite IH. simpl. repeat (f_equal; try lia).
    + left. simpl. apply Exists_app. right. apply Exists_cons_hd.
      destruct (q (N_of_ascii a)) eqn:E; [|done]. by apply q_stops in E.
Qed.

Lemma replace_cut_last (u t : jsstring) :
  forallb q t = true -> replace (suffix_cut a q) [] (u ++ N_of_ascii a :: t) = u.
Proof.
  intros Ht. unfold replace, regexp_exec. rewrite scan_cut_last by done. simpl.
  rewrite take_app_length. unfold expand. simpl.
  rewrite drop_ge; [by rewrite app_nil_r|]. rewrite length_app. simpl. lia.
Qed.


Lemma scan_cut_none (s : jsstring) (i : nat) : guarded a q s -> scan (suffix_cut a q) i s = None.
Proof.
  revert i. induction s as [|x s IH]; intros i Hs.
  - rewrite scan_nil, exec_cut_miss; [done|]. by right.
  - rewrite scan_cons, exec_cut_miss.
    + apply IH. intros u t ->. apply (Hs (x :: u) t). reflexivity.
    + destruct (decide (x = N_of_ascii a)) as [->|Hx].
      * left. apply (Hs [] s). reflexivity.
      * right. simpl. congruence.
Qed.

Lemma replace_cut_guarded (s : jsstring) : guarded a q s -> replace (suffix_cut a q) [] s = s.
Proof. intros Hs. unfold replace, regexp_exec. by rewrite scan_cut_none. Qed.

(** Otherwise the input gets shorter. *)
Lemma replace_cut_shorter (s : jsstring) :
  ~ guarded a q s -> length (replace (suffix_cut a q) [] s) < length s.
Proof.
  intros Hs.
  destruct (replace_eol_cut [One (chr a); Star q] s) as [E|(k & e & c & Hk & Hx & E)];
    change (_ ++ [Eol]) with (suffix_cut a q) in *.
  - exfalso. apply Hs. intros u t ->.
    destruct (forallb q t) eqn:Ht.
    + rewrite replace_cut_last in E by done.
      apply (f_equal length) in E. rewrite length_app in E. simpl in E. lia.
    + apply Exists_exists. 
      assert (existsb (fun c => negb (q c)) t = true) as Hex.
      { clear -Ht. induction t as [|y t IH]; [done|]. simpl in *.
        destruct (q y); simpl in *; auto. }
      apply existsb_exists in Hex as (c & Hc & Hqc). exists c.
      split; [by apply list_elem_of_In|]. by apply negb_true_iff.
  - rewrite E. apply exec_one_star_eol in Hx as (x & s' & Hd & _).
    rewrite length_take. assert (k < length s); [|lia].
    apply (f_equal length) in Hd. rewrite length_drop in Hd. simpl in Hd. lia.
Qed.

End Suffix.

(** ** removeUrlParameters, beyond the prefix *)

Lemma querystring_shape : re_querystring = suffix_cut "?" (not_chr "?").
Proof. reflexivity. Qed.
Lemma anchor_shape :
  re_anchor = suffix_cut "#" (fun c => negb (chr "#" c || chr ";" c)).
Proof. reflexivity. Qed.

Lemma not_chr_stops (a : ascii) (c : N) : not_chr a c = true -> c <> N_of_ascii a.
Proof. unfold not_chr, chr. intros H%negb_true_iff. by apply N.eqb_neq. Qed.

Lemma anchor_class_stops (c : N) :
  negb (chr "#" c || chr ";" c) = true -> c <> N_of_ascii "#".
Proof.
  unfold chr. intros H%negb_true_iff. apply orb_false_iff in H as [H _].
  by apply N.eqb_neq.
Qed.

Lemma anchor_class_false (c : N) :
  negb (chr "#" c || chr ";" c) = false <-> c = N_of_ascii "#" \/ c = N_of_ascii ";".
Proof.
  unfold chr. rewrite negb_false_iff, orb_true_iff, !N.eqb_eq. tauto.
Qed.

Lemma forallb_not_chr (a : ascii) (l : jsstring) :
  Forall (fun c => c <> N_of_ascii a) l -> forallb (not_chr a) l = true.
Proof.
  intros Hl. apply forallb_forall. intros c Hc%list_elem_of_In.
  rewrite Forall_forall in Hl. apply Hl in Hc.
  unfold not_chr, chr. by apply negb_true_iff, N.eqb_neq.
Qed.

(** An input without the unit is guarded, whatever the class. *)
Lemma guarded_absent (a : ascii) (q : N -> bool) (s : jsstring) :
  Forall (fun c => c <> N_of_ascii a) s -> guarded a q s.
Proof.
  intros Hs u t ->. apply Forall_app in Hs as [_ Hs]. by inversion Hs.
Qed.

(** Guarded by its own complement, an input does not hold the unit. *)
Lemma guarded_not_chr (a : ascii) (s : jsstring) :
  guarded a (not_chr a) s -> Forall (fun c => c <> N_of_ascii a) s.
Proof.
  induction s as [|x s IH] using rev_ind; [done|]. intros Hg.
  assert (x <> N_of_ascii a) as Hx.
  { intros ->. specialize (Hg s [] eq_refl). inversion Hg. }
  apply Forall_app. split; [|by constructor].
  apply IH. intros u t ->.
  specialize (Hg u (t ++ [x])). rewrite <- app_assoc in Hg. specialize (Hg eq_refl).
  apply Exists_app in Hg as [Hg|Hg]; [done|].
  apply Exists_cons in Hg as [Hg|Hg]; [|inversion Hg].
  unfold not_chr, chr in Hg. by apply negb_false_iff, N.eqb_eq in Hg.
Qed.

(** Whatever follows the last question mark is removed with it, also
    when an anchor follows the query string; question marks before the
    last one stay. *)
Theorem removeUrlParameters_query (u q : jsstring) :
  Forall (fun c => c <> N_of_ascii "#") u ->
  Forall (fun c => c <> N_of_ascii "?") q ->
  removeUrlParameters (u ++ N_of_ascii "?" :: q) = u.
Proof.
  intros Hu Hq. unfold removeUrlParameters. cbv zeta.
  rewrite querystring_shape, replace_cut_last;
    [|apply not_chr_stops|by apply forallb_not_chr].
  rewrite anchor_shape. apply replace_cut_guarded. by apply guarded_absent.
Qed.

(** In a URL without a question mark, an anchor that holds no semicolon
    is removed from its number sign on; number signs before it stay. *)
Theorem removeUrlParameters_anchor (u a : jsstring) :
  Forall (fun c => c <> N_of_ascii "?") (u ++ N_of_ascii "#" :: a) ->
  Forall (fun c => c <> N_of_ascii "#" /\ c <> N_of_ascii ";") a ->
  removeUrlParameters (u ++ N_of_ascii "#" :: a) = u.
Proof.
  intros Hu Ha. unfold removeUrlParameters. cbv zeta.
  rewrite querystring_shape, replace_cut_guarded by (by apply guarded_absent).
  rewrite anchor_shape. apply replace_cut_last; [apply anchor_class_stops|].
  apply forallb_forall. intros c Hc%list_elem_of_In.
  rewrite Forall_forall in Ha. apply Ha in Hc as [H1 H2].
  unfold chr. apply negb_true_iff, orb_false_iff. split; by apply N.eqb_neq.
Qed.

(** removeUrlParameters returns its input unchanged exactly when the
    input holds no question mark and every number sign in it is followed,
    somewhere, by a semicolon or another number sign (as in the entity
    reference of an apostrophe). *)
Theorem removeUrlParameters_unchanged_iff (url : jsstring) :
  removeUrlParameters url = url <->
  Forall (fun c => c <> N_of_ascii "?") url /\
  forall u t, url = u ++ N_of_ascii "#" :: t ->
              Exists (fun c => c = N_of_ascii "#" \/ c = N_of_ascii ";") t.
Proof.
  assert (forall s, length (replace re_anchor [] s) <= length s) as Hle.
  { intros s. destruct (anchor_cut s) as (an & E & _).
    rewrite E at 2. rewrite length_app. lia. }
  assert (forall s, length (replace re_querystring [] s) <= length s) as Hle'.
  { intros s. destruct (querystring_cut s) as (an & E & _).
    rewrite E at 2. rewrite length_app. lia. }
  unfold removeUrlParameters. cbv zeta. split.
  - intros E.
    assert (guarded "?" (not_chr "?") url) as Hq.
    { intros u t ->. destruct (forallb (not_chr "?") t) eqn:Ht.
      - rewrite querystring_shape, replace_cut_last in E by (done || apply not_chr_stops).
        specialize (Hle u). rewrite E, length_app in Hle. simpl in Hle. lia.
      - apply Exists_exists.
        assert (existsb (fun c => negb (not_chr "?" c)) t = true) as Hex.
        { clear -Ht. induction t as [|y t IH]; [done|]. simpl in *.
          destruct (not_chr "?" y); simpl in *; auto. }
        apply existsb_exists in Hex as (c & Hc & Hqc). exists c.
        split; [by apply list_elem_of_In|]. by apply negb_true_iff. }
    rewrite querystring_shape, replace_cut_guarded in E by done.
    split; [by apply guarded_not_chr|].
    intros u t ->. destruct (forallb (fun c => negb (chr "#" c || chr ";" c)) t) eqn:Ht.
    + rewrite anchor_shape, replace_cut_last in E by (done || apply anchor_class_stops).
      apply (f_equal length) in E. rewrite length_app in E. simpl in E. lia.
    + apply Exists_exists.
      assert (existsb (fun c => chr "#" c || chr ";" c) t = true) as Hex.
      { clear -Ht. induction t as [|y t IH]; [done|]. simpl in *.
        destruct (chr "#" y || chr ";" y); simpl in *; auto. }
      apply existsb_exists in Hex as (c & Hc & Hqc). exists c.
      split; [by apply list_elem_of_In|].
      apply anchor_class_false. by rewrite Hqc.
  - intros [Hq Ha].
    rewrite querystring_shape, replace_cut_guarded by (by apply guarded_absent).
    rewrite anchor_shape. apply replace_cut_guarded.
    intros u t E. apply Ha in E. eapply Exists_impl; [exact E|].
    intros c Hc. by apply anchor_class_false.
Qed.

(** ** The file name of the download alert *)

(** With the g flag, a pattern of one class rewrites unit by unit. *)
Lemma replace_g_class (p : N -> bool) (t : jsstring) (whole : jsstring) (i : nat) (s : jsstring) :
  replace_g_from [One p] [TLit t] whole 0 i s
  = concat (map (fun c => if p c then t else [c]) s).
Proof.
  revert i. induction s as [|c s IH]; intros i; [reflexivity|].
  cbn [replace_g_from]. rewrite exec_one.
  destruct (p c) eqn:Pc; cbn [concat map]; rewrite Pc.
  - cbn [exec]. replace (Nat.eqb (S i) i) with false
      by (symmetry; apply Nat.eqb_neq; lia).
    replace (S i - i - 1) with 0 by lia. rewrite IH.
    unfold expand. simpl. by rewrite app_nil_r.
  - by rewrite IH.
Qed.

Lemma sanitiser_underscored (s : jsstring) :
  replace_g re_unsafe [TLit (js "_")] s = underscored s.
Proof.
  unfold replace_g, re_unsafe. rewrite replace_g_class. unfold underscored.
  induction s as [|c s IH]; [reflexivity|]. cbn [map concat]. rewrite IH.
  by destruct (unsafe_char c).
Qed.

Lemma underscored_safe (s : jsstring) : Forall (fun c => unsafe_char c = false) (underscored s).
Proof.
  unfold underscored. apply Forall_forall. intros c Hc.
  apply list_elem_of_fmap in Hc as (x & -> & _).
  destruct (unsafe_char x) eqn:E; [reflexivity|exact E].
Qed.

Lemma underscored_id (s : jsstring) :
  Forall (fun c => unsafe_char c = false) s -> underscored s = s.
Proof.
  intros Hs. induction Hs as [|c l Hc _ IH]; [done|].
  unfold underscored in *. cbn [map]. by rewrite Hc, IH.
Qed.

(** The greedy star gives back down to the last place where the rest
    matches. *)
Lemma exec_star_none (q : N -> bool) (r : regex) (s : jsstring) (g : nat) (cap : capture) :
  forall i,
    (forall s1 s2, s = s1 ++ s2 -> forallb q s1 = true ->
                   exec r (i + length s1) s2 g cap = None) ->
    exec (Star q :: r) i s g cap = None.
Proof.
  induction s as [|c s IH]; intros i Hn; rewrite exec_star.
  - specialize (Hn [] [] eq_refl eq_refl). simpl in Hn. by rewrite Nat.add_0_r in Hn.
  - assert (exec r i (c :: s) g cap = None) as H0.
    { specialize (Hn [] (c :: s) eq_refl eq_refl). simpl in Hn. by rewrite Nat.add_0_r in Hn. }
    destruct (q c) eqn:Qc; [|done].
    rewrite IH; [done|]. intros s1 s2 -> H1.
    specialize (Hn (c :: s1) s2 eq_refl). simpl in Hn. rewrite Qc in Hn.
    specialize (Hn H1). by replace (S i + length s1) with (i + S (length s1)) by lia.
Qed.

Lemma exec_star_last (q : N -> bool) (r : regex) (p s : jsstring) (g : nat) (cap : capture)
    (m : nat * capture) :
  forallb q p = true ->
  (forall s1 s2, s = s1 ++ s2 -> s1 <> [] -> forallb q s1 = true ->
                 forall j, exec r j s2 g cap = None) ->
  forall i, exec r (i + length p) s g cap = Some m ->
            exec (Star q :: r) i (p ++ s) g cap = Some m.
Proof.
  intros Hp Hn. induction p as [|c p IH]; intros i Hr.
  - simpl in Hr. rewrite Nat.add_0_r in Hr. rewrite app_nil_l, exec_star.
    destruct s as [|c s]; [done|]. destruct (q c) eqn:Qc; [|done].
    rewrite exec_star_none; [done|]. intros s1 s2 -> H1.
    apply (Hn (c :: s1) s2); [done|done|]. simpl. by rewrite Qc.
  - simpl in Hp. apply andb_true_iff in Hp as [Hc Hp].
    rewrite <- app_comm_cons, exec_star, Hc.
    rewrite (IH Hp (S i)); [done|].
    simpl in Hr. by replace (S i + length p) with (i + S (length p)) by lia.
Qed.

(** A pattern anchored at the start matches at index 0 or nowhere. *)
Lemma scan_bol (r : regex) (s : jsstring) (i : nat) : scan (Bol :: r) (S i) s = None.
Proof. revert i. induction s as [|c s IH]; intros i; [reflexivity|]. simpl. apply IH. Qed.

Lemma regexp_exec_bol (r : regex) (s : jsstring) :
  regexp_exec (Bol :: r) s = match exec r 0 s 0 None with
                             | Some (e, cap) => Some (0, e, cap)
                             | None => None
                             end.
Proof.
  unfold regexp_exec. destruct s as [|c s].
  - rewrite scan_nil, exec_bol. reflexivity.
  - rewrite scan_cons, exec_bol. simpl Nat.eqb. cbv iota.
    destruct (exec r 0 (c :: s) 0 None) as [[e cap]|]; [done|]. apply scan_bol.
Qed.

(** The name behind the last slash of the title, when the directories
    before it hold no line end. *)
Lemma trailing_segment_name (dir name : jsstring) :
  forallb dot dir = true ->
  name <> [] ->
  Forall (fun c => c <> N_of_ascii "/") name ->
  replace re_trailing_segment [TGroup1] (dir ++ N_of_ascii "/" :: name) = name.
Proof.
  intros Hd Hne Hn. destruct name as [|c name]; [done|]. clear Hne.
  assert (forallb (not_chr "/") (c :: name) = true) as Hq by (by apply forallb_not_chr).
  pose proof Hq as Hq'. simpl in Hq'. apply andb_true_iff in Hq' as [Hc Hq'].
  set (s := N_of_ascii "/" :: c :: name).
  set (e := length dir + length s).
  assert (exec ([One (chr "/"); Open] ++ plus (not_chr "/") ++ [Close; Eol])
            (0 + length dir) s 0 None = Some (e, Some (S (length dir), e))) as Hx.
  { unfold plus, s. simpl app. rewrite exec_one. unfold chr at 1. rewrite N.eqb_refl.
    rewrite exec_open, exec_one, Hc.
    rewrite <- (app_nil_r name).
    erewrite (exec_star_greedy (not_chr "/") [Close; Eol] name []); [reflexivity|done|done|].
    rewrite exec_close. simpl. unfold e. simpl. repeat (f_equal; try lia). }
  assert (exec (Star dot :: ([One (chr "/"); Open] ++ plus (not_chr "/") ++ [Close; Eol]))
            0 (dir ++ s) 0 None = Some (e, Some (S (length dir), e))) as Hy.
  { apply exec_star_last; [exact Hd| |exact Hx].
    intros s1 s2 E Hs1 _ j. destruct s1 as [|x s1]; [done|].
    unfold s in E. injection E as _ E.
    simpl app. rewrite exec_one. destruct s2 as [|y s2]; [done|].
    assert (y ∈ c :: name) as Hy by (rewrite E; apply elem_of_app; right; left).
    rewrite Forall_forall in Hn. apply Hn in Hy.
    unfold chr. by apply N.eqb_neq in Hy as ->. }
  unfold replace.
  change re_trailing_segment
    with (Bol :: Star dot :: ([One (chr "/"); Open] ++ plus (not_chr "/") ++ [Close; Eol])).
  rewrite regexp_exec_bol, Hy.
  set (d1 := dir ++ [N_of_ascii "/"]).
  assert (dir ++ s = d1 ++ c :: name) as -> by (unfold s, d1; by rewrite <- app_assoc).
  assert (S (length dir) = length d1) as -> by (unfold d1; rewrite length_app; simpl; lia).
  assert (e = length d1 + length (c :: name)) as ->
    by (unfold e, s, d1; rewrite length_app; simpl; lia).
  unfold expand, expand1, substring. cbn [map concat].
  rewrite drop_app_length, app_nil_r.
  rewrite drop_ge by (rewrite length_app; lia).
  rewrite app_nil_r. rewrite take_0. cbn [app].
  apply take_ge. lia.
Qed.

Lemma exec_star_close_eol (q : N -> bool) (s : jsstring) (j g : nat) (cap : capture)
    (m : nat * capture) :
  exec [Star q; Close; Eol] j s g cap = Some m -> forallb q s = true.
Proof.
  revert j m. induction s as [|y s IH]; intros j m; [done|].
  rewrite exec_star. destruct (q y) eqn:Qy; [|by rewrite exec_close].
  destruct (exec [Star q; Close; Eol] (S j) s g cap) as [m'|] eqn:E'.
  - intros _. simpl. rewrite Qy. eapply IH. exact E'.
  - by rewrite exec_close.
Qed.

(** A title without a slash, or one that ends in a slash, is taken whole. *)
Lemma trailing_segment_none (title : jsstring) :
  Forall (fun c => c <> N_of_ascii "/") title \/ last title = Some (N_of_ascii "/") ->
  replace re_trailing_segment [TGroup1] title = title.
Proof.
  intros Ht. unfold replace.
  change re_trailing_segment
    with (Bol :: Star dot :: ([One (chr "/"); Open] ++ plus (not_chr "/") ++ [Close; Eol])).
  rewrite regexp_exec_bol, exec_star_none; [done|].
  intros s1 s2 -> _. simpl app. rewrite exec_one.
  destruct s2 as [|y s2]; [done|]. unfold chr at 1.
  destruct (N.eqb_spec y (N_of_ascii "/")) as [->|]; [|done].
  destruct Ht as [Ht|Ht].
  { apply Forall_app in Ht as [_ Ht]. by inversion Ht. }
  rewrite exec_open. unfold plus. simpl app. rewrite exec_one.
  destruct s2 as [|z s2]; [done|]. destruct (not_chr "/" z) eqn:Hz; [|done].
  destruct (exec (Star (not_chr "/") :: [Close; Eol]) _ s2 _ None) as [[e cap]|] eqn:E; [|done].
  exfalso.
  assert (forallb (not_chr "/") (z :: s2) = true) as Hall.
  { simpl. rewrite Hz. simpl. eapply exec_star_close_eol. exact E. }
  rewrite !last_app in Ht. simpl in Ht.
  assert (last (z :: s2) = Some (N_of_ascii "/")) as Hl.
  { destruct (last (z :: s2)) eqn:El; [done|]. by apply last_None in El. } 
  apply last_Some in Hl as (l' & Hl). rewrite Hl in Hall.
  rewrite forallb_app in Hall. apply andb_true_iff in Hall as [_ Hall].
  vm_compute in Hall. discriminate.
Qed.


(** ** displayFileDownloadAlert, in general *)

Section DownloadRun.
Context `{pf : Platform}.

(** What a call leaves on a page that holds the alert, its dismiss
    button and the message area, for a directive that names a file. *)
Lemma displayFileDownloadAlert_run (title : jsstring) (download : Directive)
    (contentType : option jsstring) (content : list Byte.byte) (raw : jsstring) (w : World) :
  has_data_hide_button w (js "downloadAlert") ->
  has_element w (js "alertMessage") ->
  download_name title download = Some raw ->
  let type := download_type contentType in
  let blob := new_Blob content type in
  let a := download_anchor w type (underscored raw) in
  let w' := exec_state (displayFileDownloadAlert title download contentType content) w in
  displayFileDownloadAlert title download contentType content w = (Ok tt, w') /\
  element_display w' (js "downloadAlert") = Some (js "block") /\
  downloadAlertSetup (session w') = true /\
  objectURLs w' = objectURLs w ++ [(object_url (issued w), blob)] /\
  issued w' = S (issued w) /\
  element_innerHTML w' (js "alertMessage") = Some download_prompt /\
  download_links w'
    = [with_a_listeners
         (fun _ => if click_throws && msSaveBlob
                   then [(js "click", MsSaveBlobAndPrevent blob (underscored raw))] else []) a] /\
  log w' = log w ++ (if click_throws then [] else [Click a]) /\
  element_display w' (js "searchingArticles")
    = (fun _ => js "none") <$> element_display w (js "searchingArticles") /\
  pending w' = pending w /\ nodes w' = nodes w.
Proof.
  unfold has_data_hide_button, has_element, download_links, element_display, element_innerHTML,
    download_anchor.
  intros Hb [am Ham] Hraw.
  destruct (byId (page w) !! js "downloadAlert") as [e|] eqn:He; [|by destruct Hb].
  simpl in Hb. destruct Hb as [hs Hhs].
  assert (js "downloadAlert" <> js "alertMessage") as Hne by done.
  assert (js "alertMessage" <> js "searchingArticles") as Hne2 by done.
  assert (js "downloadAlert" <> js "searchingArticles") as Hne3 by done.
  assert (filename_ok :
    (match download with
     | DBoolean true => ret (replace re_trailing_segment [TGroup1] title)
     | DString s => ret s
     | DBoolean false => throw TypeError
     end) = ret raw).
  { destruct download as [[|]|s]; simpl in Hraw; congruence. }
  cbv zeta. unfold displayFileDownloadAlert. rewrite filename_ok.
  fold (download_type contentType).
  generalize (download_type contentType). intros type.
  munfold. simpl. rewrite !sanitiser_underscored.
  generalize (underscored raw). intros name.
  rewrite He. simpl.
  destruct (byId (page w) !! js "searchingArticles") as [sa|] eqn:Hsa;
  destruct (downloadAlertSetup (session w)); simpl;
    rewrite ?lookup_alter_eq, ?He; simpl; rewrite ?Hhs; simpl;
    rewrite ?lookup_alter_ne by auto; rewrite ?Ham; simpl;
    destruct click_throws, msSaveBlob; simpl;
    rewrite ?lookup_alter_ne by auto; rewrite ?lookup_alter_eq;
    rewrite ?lookup_alter_ne by auto; rewrite ?lookup_alter_eq;
    rewrite ?lookup_alter_ne by auto; rewrite ?lookup_alter_eq;
    rewrite ?lookup_alter_ne by auto; rewrite ?Ham, ?He, ?Hsa; simpl; 
    repeat split; try done; by rewrite app_nil_r.
Qed.

End DownloadRun.

Section DownloadFacts.
Context `{pf : Platform}.

(** A file name given by the caller is offered with every slash,
    backslash, colon, star, question mark, double quote, angle bracket
    and bar replaced by an underscore, unit for unit, whatever the
    title: the name offered holds none of these characters and has the
    length of the one given. *)
Theorem displayFileDownloadAlert_given_name (title name : jsstring)
    (contentType : option jsstring) (content : list Byte.byte) (w : World) :
  has_data_hide_button w (js "downloadAlert") ->
  has_element w (js "alertMessage") ->
  let w' := exec_state (displayFileDownloadAlert title (DString name) contentType content) w in
  offered_download w' = Some (underscored name) /\
  Forall (fun c => unsafe_char c = false) (underscored name) /\
  length (underscored name) = length name /\
  (Forall (fun c => unsafe_char c = false) name -> underscored name = name).
Proof.
  intros Hb Hm. cbv zeta.
  destruct (displayFileDownloadAlert_run title (DString name) contentType content name w Hb Hm
              eq_refl) as (_ & _ & _ & _ & _ & _ & Hl & _).
  unfold offered_download. unfold download_links in Hl.
  destruct (byId (page _) !! js "alertMessage") as [am|]; [|done].
  simpl in Hl. simpl. rewrite Hl. split; [done|].
  split; [apply underscored_safe|]. split; [apply length_map|].
  apply underscored_id.
Qed.

(** With the directive [true] the name is what follows the last slash
    of the title, made safe, when that is not empty and no line end
    precedes the slash. *)
Theorem displayFileDownloadAlert_title_name (dir name : jsstring)
    (contentType : option jsstring) (content : list Byte.byte) (w : World) :
  has_data_hide_button w (js "downloadAlert") ->
  has_element w (js "alertMessage") ->
  forallb dot dir = true ->
  name <> [] ->
  Forall (fun c => c <> N_of_ascii "/") name ->
  let title := dir ++ N_of_ascii "/" :: name in
  let w' := exec_state (displayFileDownloadAlert title (DBoolean true) contentType content) w in
  offered_download w' = Some (underscored name).
Proof.
  intros Hb Hm Hd Hne Hn. cbv zeta.
  destruct (displayFileDownloadAlert_run (dir ++ N_of_ascii "/" :: name) (DBoolean true)
              contentType content name w Hb Hm) as (_ & _ & _ & _ & _ & _ & Hl & _).
  { simpl. by rewrite trailing_segment_name. }
  unfold offered_download. unfold download_links in Hl.
  destruct (byId (page _) !! js "alertMessage") as [am|]; [|done].
  simpl in Hl. simpl. by rewrite Hl.
Qed.

(** With the directive [true] and a title that holds no slash, or that
    ends in one, the whole title is the name: its slashes are offered
    as underscores. *)
Theorem displayFileDownloadAlert_title_whole (title : jsstring)
    (contentType : option jsstring) (content : list Byte.byte) (w : World) :
  has_data_hide_button w (js "downloadAlert") ->
  has_element w (js "alertMessage") ->
  Forall (fun c => c <> N_of_ascii "/") title \/ last title = Some (N_of_ascii "/") ->
  let w' := exec_state (displayFileDownloadAlert title (DBoolean true) contentType content) w in
  offered_download w' = Some (underscored title).
Proof.
  intros Hb Hm Ht. cbv zeta.
  destruct (displayFileDownloadAlert_run title (DBoolean true)
              contentType content title w Hb Hm) as (_ & _ & _ & _ & _ & _ & Hl & _).
  { simpl. by rewrite trailing_segment_none. }
  unfold offered_download. unfold download_links in Hl.
  destruct (byId (page _) !! js "alertMessage") as [am|]; [|done].
  simpl in Hl. simpl. by rewrite Hl.
Qed.


(** When the programmatic click throws, the call still returns and
    nothing is clicked; the link then carries one click listener, which
    saves the blob under the file name, if the platform has msSaveBlob,
    and none otherwise. When the click goes through, it is recorded and
    the link carries no listener. *)
Theorem displayFileDownloadAlert_click (title : jsstring) (download : Directive)
    (contentType : option jsstring) (content : list Byte.byte) (raw : jsstring) (w : World) :
  has_data_hide_button w (js "downloadAlert") ->
  has_element w (js "alertMessage") ->
  download_name title download = Some raw ->
  let m := displayFileDownloadAlert title download contentType content in
  let w' := exec_state m w in
  let blob := new_Blob content (download_type contentType) in
  let a := download_anchor w (download_type contentType) (underscored raw) in
  m w = (Ok tt, w') /\
  log w' = log w ++ (if click_throws then [] else [Click a]) /\
  a_listeners <$> download_links w'
    = [if click_throws && msSaveBlob
       then [(js "click", MsSaveBlobAndPrevent blob (underscored raw))] else []].
Proof.
  intros Hb Hm Hraw. cbv zeta.
  destruct (displayFileDownloadAlert_run title download contentType content raw w Hb Hm Hraw)
    as (Hr & _ & _ & _ & _ & _ & Hl & Hlog & _).
  split; [exact Hr|]. split; [exact Hlog|]. by rewrite Hl.
Qed.

(** On a page without the download alert the call throws a TypeError
    and changes nothing. With the alert but without its dismiss button,
    a first call shows the alert and throws before the one-time flag is
    set, so that the next call tries to set the alert up again. *)
Theorem displayFileDownloadAlert_markup_missing (title : jsstring) (download : Directive)
    (contentType : option jsstring) (content : list Byte.byte) (w : World) :
  ~ has_data_hide_button w (js "downloadAlert") ->
  downloadAlertSetup (session w) = false ->
  let m := displayFileDownloadAlert title download contentType content in
  let w' := exec_state m w in
  m w = (Throw TypeError, w') /\
  w' = (if bool_decide (is_Some (byId (page w) !! js "downloadAlert"))
        then with_page (with_byId (alter (with_display (js "block")) (js "downloadAlert"))) w
        else w) /\
  downloadAlertSetup (session w') = false.
Proof.
  unfold has_data_hide_button. intros Hb Hs. cbv zeta.
  unfold displayFileDownloadAlert. munfold. simpl.
  destruct (byId (page w) !! js "downloadAlert") as [e|] eqn:He; simpl; [|done].
  rewrite Hs. simpl. rewrite lookup_alter_eq, He. simpl.
  destruct (data_hide_button e) as [hs|] eqn:Hhs.
  - exfalso. apply Hb. simpl. by rewrite Hhs.
  - simpl. done.
Qed.

End DownloadFacts.

(** ** feedNodeWithBlob along a session *)

#[export] Instance node_listeners_kept_preorder : PreOrder node_listeners_kept.
Proof.
  split; unfold node_listeners_kept.
  - intros w n. reflexivity.
  - intros a b c H1 H2 n. etrans; [apply H1|apply H2].
Qed.

Ltac node_listeners_leaf :=
  unfold node_listeners_kept, node_at; simpl; intros ?;
  try reflexivity;
  match goal with
  | |- context [<[?n := _]> _ !! ?n'] =>
      destruct (decide (n = n')) as [<-|];
      [rewrite lookup_insert_eq; simpl; try reflexivity; by apply prefix_app_r
      |by rewrite lookup_insert_ne]
  end.

Section FeedFacts.
Context `{pf : Platform}.

Lemma step_node_listeners_kept (e : Event) : stable node_listeners_kept (step e).
Proof. destruct e; simpl; stable_walk node_listeners_leaf. Qed.

Lemma run_node_listeners_kept (es : list Event) (w : World) :
  node_listeners_kept w (run es w).
Proof. apply (stable_fold node_listeners_kept step). apply step_node_listeners_kept. Qed.

(** The object URL that a synchronous feed puts on a node is released
    by the next load event of that node, whatever the session does in
    between, and even when setAttribute refused the attribute name. *)
Theorem feedNodeWithBlob_released_on_load (node : nat) (nodeAttribute : jsstring)
    (content : list Byte.byte) (mimeType : jsstring) (callback : option nat)
    (es : list Event) (w : World) :
  webpMachine && test re_webp mimeType = false ->
  let url := object_url (issued w) in
  let w' := exec_state (feedNodeWithBlob node nodeAttribute content mimeType callback) w in
  live w' url /\
  ~ live (run (es ++ [Load node]) w') url.
Proof.
  intros Hm. cbv zeta.
  assert (live (exec_state (feedNodeWithBlob node nodeAttribute content mimeType callback) w)
               (object_url (issued w)) /\
          (js "load", RevokeObjectURL (object_url (issued w)))
            ∈ node_listeners (node_at
                (exec_state (feedNodeWithBlob node nodeAttribute content mimeType callback) w)
                node)) as [Hlive Hin].
  { unfold feedNodeWithBlob. rewrite Hm. unfold node_setAttribute, live.
    destruct (valid_attribute_name nodeAttribute), callback as [cb|];
      munfold; unfold update_node, node_addEventListener, update_node, node_at; munfold; simpl;
      rewrite ?lookup_insert_eq; simpl; (split;
      [rewrite fmap_app; apply elem_of_app; right; simpl; apply list_elem_of_singleton; reflexivity
      |apply elem_of_app; right; apply list_elem_of_singleton; reflexivity]). }
  split; [exact Hlive|].
  rewrite run_app. simpl. unfold fire_load.
  erewrite exec_bind_ok; [|reflexivity].
  apply dispatch_revokes.
  destruct (run_node_listeners_kept es
              (exec_state (feedNodeWithBlob node nodeAttribute content mimeType callback) w) node)
    as [k Hk].
  rewrite Hk, filter_app, fmap_app. apply elem_of_app. left.
  apply list_elem_of_fmap. exists (js "load", RevokeObjectURL (object_url (issued w))).
  split; [done|]. by apply list_elem_of_filter.
Qed.

(** With the decode engine, when setAttribute refuses the attribute
    name after a successful decoding, the exception reaches the function
    given to [catch]: nothing is thrown, the failure is logged and the
    callback is invoked a second time, now without argument. *)
Theorem feedNodeWithBlob_decoded_invalid_attribute (node : nat) (nodeAttribute : jsstring)
    (content : list Byte.byte) (mimeType : jsstring) (cb : nat) (uri : jsstring) (w : World) :
  webpMachine = true ->
  test re_webp mimeType = true ->
  valid_attribute_name nodeAttribute = false ->
  let w1 := exec_state (feedNodeWithBlob node nodeAttribute content mimeType (Some cb)) w in
  let decoded := settle (length (pending w)) (Decoded uri) in
  let w2 := exec_state decoded w1 in
  decoded w1 = (Ok tt, w2) /\
  log w2 = log w ++ [Call cb (Some uri);
                     ConsoleError (js "There was an error decoding image in WebpMachine");
                     Call cb None] /\
  nodes w2 = nodes w /\
  pending w2 = pending w.
Proof.
  intros Hw Hm Hv. cbv zeta. unfold feedNodeWithBlob. rewrite Hw, Hm. simpl.
  unfold settle, await. munfold. simpl.
  rewrite lookup_app_r by lia. rewrite Nat.sub_diag. simpl.
  unfold decode_then, decode_catch, node_setAttribute. rewrite Hv. munfold. simpl.
  rewrite <- !app_assoc. simpl. repeat split; try done.
  by rewrite delete_middle, app_nil_r.
Qed.

End FeedFacts.

(** ** checkUpdateStatus: which key is announced, and when none can be *)

#[export] Instance unannounced_preorder : PreOrder unannounced.
Proof.
  split; unfold unannounced.
  - intros w. auto.
  - intros a b c H1 H2 Ha. destruct (H1 Ha) as [Hb E1]. destruct (H2 Hb) as [Hc E2].
    split; [done|congruence].
Qed.

Ltac unannounced_leaf := unfold unannounced; simpl; auto.

Section UpdateFacts.
Context `{pf : Platform}.

Lemma announces_spec (cacheNames : CacheNames) (key : jsstring) :
  let cachePrefix := replace re_cache_prefix [TGroup1] (cn_app cacheNames) in
  (announces cacheNames key = true <->
   key <> cn_app cacheNames /\ key <> cn_assets cacheNames /\ cachePrefix `prefix_of` key) /\
  (announces cacheNames key = false <->
   key = cn_app cacheNames \/ key = cn_assets cacheNames \/ ~ cachePrefix `prefix_of` key).
Proof.
  cbv zeta. unfold announces.
  destruct (bool_decide_reflect (key = cn_app cacheNames)) as [E1|E1];
    destruct (bool_decide_reflect (key = cn_assets cacheNames)) as [E2|E2]; simpl;
    try (split; split; [done|tauto|tauto|done]).
  destruct (starts_with _ key) eqn:Es.
  - apply starts_with_prefix in Es. split; split; try done. tauto.
  - assert (~ replace re_cache_prefix [TGroup1] (cn_app cacheNames) `prefix_of` key) as Hn.
    { intros Hp%starts_with_prefix. congruence. }
    split; split; try done; tauto.
Qed.

Lemma forEach_last_key (cacheNames : CacheNames) (keyList : list jsstring) (w : World) :
  has_element w (js "updateAlert") ->
  has_element w (js "persistentMessage") ->
  let cachePrefix := replace re_cache_prefix [TGroup1] (cn_app cacheNames) in
  exists w',
    forEach keyList (check_key cacheNames cachePrefix (Some (js "updateAlert"))) w = (Ok tt, w') /\
    match last (List.filter (announces cacheNames) keyList) with
    | Some key =>
        pwaUpdateNeeded (session w') = true /\
        element_display w' (js "updateAlert") = Some (js "block") /\
        element_innerHTML w' (js "persistentMessage")
          = Some (version_message (drop (length cachePrefix) key))
    | None => w' = w
    end.
Proof.
  cbv zeta. revert w. induction keyList as [|key l IH]; intros w Hu Hm.
  - exists w. done.
  - cbn [forEach List.filter]. unfold bind.
    destruct (announces cacheNames key) eqn:Ea.
    + apply announces_spec in Ea as (H1 & H2 & Hp).
      destruct (check_key_hit cacheNames _ key w H1 H2 Hp Hu Hm) as (w1 & E1 & Hf & Hd & Hi).
      rewrite E1.
      assert (has_element w1 (js "updateAlert")) as Hu1.
      { unfold has_element. unfold element_display in Hd.
        destruct (byId (page w1) !! js "updateAlert"); [by eexists|done]. }
      assert (has_element w1 (js "persistentMessage")) as Hm1.
      { unfold has_element. unfold element_innerHTML in Hi.
        destruct (byId (page w1) !! js "persistentMessage"); [by eexists|done]. }
      destruct (IH w1 Hu1 Hm1) as (w' & E' & Hlast).
      exists w'. split; [exact E'|]. rewrite last_cons.
      destruct (last (List.filter (announces cacheNames) l)) as [k|]; [exact Hlast|].
      by subst w'.
    + apply announces_spec in Ea.
      rewrite (check_key_skip _ _ _ _ _ Ea). by apply IH.
Qed.

(** When several keys announce a version, the scan ends with the update
    flag set, the alert shown and the message naming the version of the
    last such key of the list: every such key overwrites the message of
    the one before. *)
Theorem checkUpdateStatus_last_key (cacheNames : CacheNames) (keyList : list jsstring)
    (key : jsstring) (w : World) :
  updateAlert (session w) = Some (js "updateAlert") ->
  has_element w (js "updateAlert") ->
  has_element w (js "persistentMessage") ->
  last (List.filter (announces cacheNames) keyList) = Some key ->
  let cachePrefix := replace re_cache_prefix [TGroup1] (cn_app cacheNames) in
  let w' := exec_state (caches_keys_then cacheNames keyList) w in
  caches_keys_then cacheNames keyList w = (Ok tt, w') /\
  pwaUpdateNeeded (session w') = true /\
  element_display w' (js "updateAlert") = Some (js "block") /\
  element_innerHTML w' (js "persistentMessage")
    = Some (version_message (drop (length cachePrefix) key)).
Proof.
  intros Hu He Hm Hlast. cbv zeta. unfold exec_state.
  rewrite caches_keys_then_scan by done.
  destruct (forEach_last_key cacheNames keyList (banner_hidden w)) as (w' & E & H).
  - unfold has_element, banner_hidden. simpl. by apply lookup_alter_is_Some.
  - unfold has_element, banner_hidden. simpl. by apply lookup_alter_is_Some.
  - rewrite E. rewrite Hlast in H. simpl. tauto.
Qed.

Lemma caches_keys_then_unannounced (cacheNames : CacheNames) (keyList : list jsstring) :
  stable unannounced (caches_keys_then cacheNames keyList).
Proof.
  intros w Hn. unfold exec_state, caches_keys_then. munfold. simpl. by rewrite Hn.
Qed.

Lemma step_unannounced (e : Event) : stable unannounced (step e).
Proof.
  destruct e; simpl; try (stable_walk unannounced_leaf; fail).
  unfold settle. apply stable_bind; [apply _|apply stable_gets; apply _|]. intros p.
  destruct (p !! i) as [r|]; [|apply stable_ret; apply _].
  destruct r, s; simpl; try (stable_walk unannounced_leaf; fail).
  apply stable_bind; [apply _|stable_walk unannounced_leaf|]. intros _.
  apply caches_keys_then_unannounced.
Qed.

(** On a page that holds no update alert when the module is loaded, no
    session ever sets the pending-update flag, whatever keys the cache
    storage reports: the scan throws at line 241, before it looks at a
    key. *)
Theorem checkUpdateStatus_without_alert (cacheNames : CacheNames) (keyList : list jsstring)
    (es : list Event) (w0 : World) :
  ~ has_element w0 (js "updateAlert") ->
  let w := run es (exec_state module_load w0) in
  pwaUpdateNeeded (session w) = pwaUpdateNeeded (session w0) /\
  caches_keys_then cacheNames keyList w = (Throw TypeError, w).
Proof.
  unfold has_element. intros Hn. cbv zeta.
  assert (byId (page w0) !! js "updateAlert" = None) as Hnone.
  { destruct (byId (page w0) !! js "updateAlert"); [|done]. exfalso. apply Hn. by eexists. }
  assert (updateAlert (session (exec_state module_load w0)) = None /\
          pwaUpdateNeeded (session (exec_state module_load w0)) = pwaUpdateNeeded (session w0))
    as [Hl Hf].
  { unfold module_load. munfold. simpl. by rewrite Hnone. }
  destruct (stable_fold unannounced step es (exec_state module_load w0) step_unannounced Hl)
    as [Hr Hr'].
  fold (run es (exec_state module_load w0)) in Hr, Hr'.
  split; [congruence|].
  unfold caches_keys_then. munfold. simpl. by rewrite Hr.
Qed.

End UpdateFacts.

(** ** The two parts of a theme selector *)

(** A pattern that starts with a unit of a class does not match where
    the input has none. *)
Lemma scan_skip (p : N -> bool) (r : regex) (u s : jsstring) (i : nat) :
  forallb (fun c => negb (p c)) u = true ->
  s <> [] ->
  scan (One p :: r) i (u ++ s) = scan (One p :: r) (i + length u) s.
Proof.
  intros Hu Hs. revert i. induction u as [|x u IH]; intros i.
  - simpl. by rewrite Nat.add_0_r.
  - simpl in Hu. apply andb_true_iff in Hu as [Hx Hu]. apply negb_true_iff in Hx.
    simpl app. rewrite scan_cons, exec_one, Hx, IH by done. f_equal. simpl. lia.
Qed.

Lemma scan_miss (p : N -> bool) (r : regex) (u : jsstring) (i : nat) :
  forallb (fun c => negb (p c)) u = true -> scan (One p :: r) i u = None.
Proof.
  revert i. induction u as [|x u IH]; intros i Hu; [reflexivity|].
  simpl in Hu. apply andb_true_iff in Hu as [Hx Hu]. apply negb_true_iff in Hx.
  by rewrite scan_cons, exec_one, Hx, IH.
Qed.

Lemma forallb_not_underscore (s : jsstring) :
  Forall (fun c => c <> N_of_ascii "_") s -> forallb (fun c => negb (chr "_" c)) s = true.
Proof. apply forallb_not_chr. Qed.

(** The app part is what precedes the first underscore. *)
Lemma app_part (app rest : jsstring) :
  Forall (fun c => c <> N_of_ascii "_") app ->
  forallb dot rest = true ->
  replace re_from_underscore [] (app ++ N_of_ascii "_" :: rest) = app.
Proof.
  intros Ha Hr. unfold replace, regexp_exec, re_from_underscore.
  rewrite scan_skip by (done || by apply forallb_not_underscore).
  assert (exec [One (chr "_"); Star dot; Eol] (0 + length app) (N_of_ascii "_" :: rest)
            (0 + length app) None = Some (S (length app) + length rest, None)) as Hx.
  { rewrite exec_one. unfold chr at 1. rewrite N.eqb_refl.
    rewrite <- (app_nil_r rest) at 1.
    by rewrite (exec_star_greedy dot [Eol] rest [] _ None (S (length app) + length rest, None)). }
  rewrite (scan_hit _ _ _ _ _ Hx). unfold expand. simpl.
  rewrite take_app_length.
  rewrite drop_ge; [by rewrite app_nil_r|]. rewrite length_app. simpl. lia.
Qed.

Lemma app_part_whole (theme : jsstring) :
  Forall (fun c => c <> N_of_ascii "_") theme ->
  replace re_from_underscore [] theme = theme.
Proof.
  intros Ha. unfold replace, regexp_exec, re_from_underscore.
  by rewrite scan_miss by (by apply forallb_not_underscore).
Qed.

(** The content part starts at the first underscore. *)
Lemma content_part (app rest : jsstring) :
  Forall (fun c => c <> N_of_ascii "_") app ->
  (match rest with c :: _ => c = N_of_ascii "_" | [] => True end) ->
  replace re_to_underscore [] (app ++ rest) = rest.
Proof.
  intros Ha Hr. unfold replace.
  change re_to_underscore with (Bol :: [Star (not_chr "_")]). rewrite regexp_exec_bol.
  rewrite (exec_star_greedy (not_chr "_") [] app rest 0 None (length app, None)).
  - unfold expand. simpl. by rewrite drop_app_length.
  - by apply forallb_not_chr.
  - destruct rest as [|c rest]; [done|]. subst c. reflexivity.
  - reflexivity.
Qed.

(** A selector is cut at its first underscore. *)
Lemma selector_cut (theme : jsstring) :
  exists app content,
    theme = app ++ content /\
    Forall (fun c => c <> N_of_ascii "_") app /\
    (match content with c :: _ => c = N_of_ascii "_" | [] => True end).
Proof.
  induction theme as [|x theme (app & content & -> & Ha & Hc)].
  - exists [], []. done.
  - destruct (decide (x = N_of_ascii "_")) as [->|Hx].
    + exists [], (N_of_ascii "_" :: app ++ content).
      split; [reflexivity|]. split; [constructor|reflexivity].
    + exists (x :: app), content. split; [reflexivity|].
      split; [constructor; [exact Hx|exact Ha]|exact Hc].
Qed.

(** Lines 400-403 cut a selector without a line end in two at its first
    underscore: the app part holds no underscore, the content part is
    empty or starts with one, and the two make up the selector. *)
Theorem applyAppTheme_selector_parts (theme : jsstring) :
  forallb dot theme = true ->
  let appTheme := replace re_from_underscore [] theme in
  let contentTheme := replace re_to_underscore [] theme in
  appTheme ++ contentTheme = theme /\
  Forall (fun c => c <> N_of_ascii "_") appTheme /\
  (contentTheme = [] \/ exists rest, contentTheme = N_of_ascii "_" :: rest) /\
  (Forall (fun c => c <> N_of_ascii "_") theme -> appTheme = theme /\ contentTheme = []).
Proof.
  intros Hd. cbv zeta.
  destruct (selector_cut theme) as (app & content & -> & Ha & Hc).
  rewrite content_part by done.
  destruct content as [|c rest].
  - rewrite !app_nil_r. rewrite app_part_whole by done. auto.
  - subst c. rewrite forallb_app in Hd. apply andb_true_iff in Hd as [_ Hd].
    simpl in Hd.
    rewrite app_part by done. split; [done|]. split; [done|]. split; [eauto|].
    intros Hn. apply Forall_app in Hn as [_ Hn]. by inversion Hn.
Qed.

(** ** applyAppTheme, one call *)

Section ThemeCall.
Context `{pf : Platform}.

(** A call on a page with a footer and the content frame, for a
    selector and a theme marker without whitespace, marks the page with
    the selector and exchanges the parts of the marked theme for those
    of the selector: on the shell root the app part, on the footer the
    content part, or [_light] when that part is empty. No other class of
    the shell root or of the footer comes or goes, whatever happens in
    the rest of the call. *)
Theorem applyAppTheme_switches (theme : jsstring) (w : World) (f : list jsstring) :
  footer_classList (page w) = Some f ->
  has_element w (js "articleContent") ->
  existsb ascii_whitespace (marked_theme w) = false ->
  existsb ascii_whitespace theme = false ->
  let appTheme := replace re_from_underscore [] theme in
  let footerTheme := or_else (replace re_to_underscore [] theme) (js "_light") in
  let oldAppTheme := replace re_from_underscore [] (marked_theme w) in
  let oldFooterTheme := or_else (replace re_to_underscore [] (marked_theme w)) (js "_light") in
  let w' := exec_state (applyAppTheme theme) w in
  html_dataset_theme (page w') = Some theme /\
  (forall x, x ∈ html_classList (page w') <->
             (x = appTheme /\ appTheme <> []) \/
             (x ∈ html_classList (page w) /\ (x <> oldAppTheme \/ oldAppTheme = []))) /\
  (exists f', footer_classList (page w') = Some f' /\
              forall x, x ∈ f' <-> x = footerTheme \/ (x ∈ f /\ x <> oldFooterTheme)).
Proof.
  intros Hf Hframe Hold Hnew. cbv zeta.
  destruct (applyAppTheme_shell theme w f Hf Hframe Hold Hnew) as (Hh & Hf' & Hm).
  fold (marked_theme w) in Hh, Hf'.
  split; [exact Hm|]. split.
  - intros x. rewrite Hh.
    destruct (replace re_from_underscore [] theme) as [|c a] eqn:Ea;
      destruct (replace re_from_underscore [] (marked_theme w)) as [|c' oa] eqn:Eo;
      cbn [truthy id]; rewrite ?elem_of_token_add, ?elem_of_token_remove;
      intuition congruence.
  - eexists. split; [exact Hf'|]. intros x.
    rewrite elem_of_token_add, elem_of_token_remove. tauto.
Qed.

(** On a page without a footer the call throws a TypeError at line 407.
    By then it has taken the app part of the marked theme off the shell
    root, and nothing else: the page keeps its marker and gets no class
    of the selector. *)
Theorem applyAppTheme_without_footer (theme : jsstring) (w : World) :
  footer_classList (page w) = None ->
  has_element w (js "articleContent") ->
  existsb ascii_whitespace (marked_theme w) = false ->
  let oldAppTheme := replace re_from_underscore [] (marked_theme w) in
  applyAppTheme theme w
  = (Throw TypeError,
     with_page (with_html_classList
                  (if truthy oldAppTheme then token_remove oldAppTheme else id)) w) /\
  (oldAppTheme <> [] -> oldAppTheme ∉ html_classList (page (exec_state (applyAppTheme theme) w))) /\
  html_dataset_theme (page (exec_state (applyAppTheme theme) w)) = html_dataset_theme (page w).
Proof.
  intros Hf [ifr Hifr] Hold. cbv zeta.
  pose proof (replace_nil_no_whitespace re_from_underscore _ Hold) as Hoa.
  assert (applyAppTheme theme w
          = (Throw TypeError,
             with_page (with_html_classList
               (if truthy (replace re_from_underscore [] (marked_theme w))
                then token_remove (replace re_from_underscore [] (marked_theme w)) else id)) w))
    as E.
  { unfold applyAppTheme, footer, getElementById, theme_shell, html_classList_remove,
      footer_classList_remove, marked_theme in *.
    munfold. simpl. rewrite Hf, Hifr. simpl.
    destruct (truthy (replace re_from_underscore [] _)) eqn:Et; simpl.
    - unfold validate_token. rewrite Et, Hoa. simpl. done.
    - destruct w as [[] ? ? ? ? ? ?]. reflexivity. }
  split; [exact E|]. unfold exec_state. rewrite E. simpl. split; [|done].
  intros Hne. destruct (replace re_from_underscore [] (marked_theme w)); [done|].
  simpl. rewrite elem_of_token_remove. tauto.
Qed.

(** On a page with a footer and the content frame, over an article that
    carries no theme stylesheet, a call whose selector holds no
    whitespace and has a content part (the marked theme holding no
    whitespace either) appends one link to the head of the article and
    puts the content part on the content frame. The link has the id
    kiwixJSTheme and points to the stylesheet of the content part in the
    css directory beside the page of the app, whose path name ends in a
    slash and a file name. *)
Theorem applyAppTheme_attaches_sheet (theme : jsstring) (w : World) (f : list jsstring)
    (d : Doc) (dir file : jsstring) :
  footer_classList (page w) = Some f ->
  has_element w (js "articleContent") ->
  existsb ascii_whitespace (marked_theme w) = false ->
  existsb ascii_whitespace theme = false ->
  contentDocument (page w) = Some d ->
  find_sheet d = None ->
  location_pathname = dir ++ N_of_ascii "/" :: file ->
  Forall (fun c => c <> N_of_ascii "/") file ->
  let contentTheme := replace re_to_underscore [] theme in
  contentTheme <> [] ->
  let w' := exec_state (applyAppTheme theme) w in
  let link := mkHeadChild (js "kiwixJSTheme") (js "stylesheet") (js "text/css")
                (location_protocol ++ js "//" ++ location_host ++ dir
                 ++ js "/css/kiwixJS" ++ contentTheme ++ js ".css") in
  contentDocument (page w') = Some (mkDoc (doc_title d) (doc_head d ++ [link])) /\
  (exists cs, frame_classes w' = Some cs /\ contentTheme ∈ cs).
Proof.
  intros Hf [ifr Hifr] Hold Hnew Hd Hs Hpath Hfile. cbv zeta. intros Hc.
  pose proof (replace_nil_no_whitespace re_from_underscore _ Hold) as Hoa.
  pose proof (replace_nil_no_whitespace re_to_underscore _ Hold) as Hoc.
  pose proof (replace_nil_no_whitespace re_from_underscore _ Hnew) as Hna.
  pose proof (replace_nil_no_whitespace re_to_underscore _ Hnew) as Hnc.
  assert (truthy (replace re_to_underscore [] theme) = true) as Ht
    by (by destruct (replace re_to_underscore [] theme)).
  destruct (applyAppTheme_effect theme w f ifr true Hf Hifr Hoa Hoc Hna Hnc)
    as (_ & _ & _ & Hcl & Hdoc).
  { unfold attach_decided. rewrite Ht, Hd. simpl. by rewrite Hs. }
  split.
  - rewrite Hdoc, Hd. simpl. rewrite Hs. simpl. rewrite andb_false_r. unfold head_after.
    cbn [id]. unfold sheet_href. cbv zeta.
    assert (replace re_last_segment []
              (location_protocol ++ js "//" ++ location_host ++ location_pathname)
            = location_protocol ++ js "//" ++ location_host ++ dir) as ->.
    { rewrite Hpath, !app_assoc.
      change re_last_segment with (suffix_cut "/" (not_chr "/")).
      apply replace_cut_last; [apply not_chr_stops|by apply forallb_not_chr]. }
    by rewrite <- !app_assoc.
  - eexists. split; [exact Hcl|]. apply elem_of_token_add. by left.
Qed.

(** On a page with a footer, the content frame and an article, marked
    with a theme that holds no whitespace and has a content part, a call
    whose selector holds no whitespace and has no content part takes the
    first theme stylesheet out of the head of the article, so that none
    is left when there was at most one, and takes the old content part
    off the content frame. *)
Theorem applyAppTheme_removes_sheet (theme : jsstring) (w : World) (f : list jsstring)
    (d : Doc) :
  footer_classList (page w) = Some f ->
  has_element w (js "articleContent") ->
  existsb ascii_whitespace (marked_theme w) = false ->
  existsb ascii_whitespace theme = false ->
  contentDocument (page w) = Some d ->
  replace re_to_underscore [] theme = [] ->
  let oldContentTheme := replace re_to_underscore [] (marked_theme w) in
  oldContentTheme <> [] ->
  let w' := exec_state (applyAppTheme theme) w in
  contentDocument (page w') = Some (mkDoc (doc_title d) (remove_sheet (doc_head d))) /\
  (length (List.filter is_sheet (doc_head d)) <= 1 ->
   List.filter is_sheet (remove_sheet (doc_head d)) = []) /\
  (exists cs, frame_classes w' = Some cs /\ oldContentTheme ∉ cs).
Proof.
  intros Hf [ifr Hifr] Hold Hnew Hd Hc. cbv zeta. intros Ho. unfold marked_theme in *.
  pose proof (replace_nil_no_whitespace re_from_underscore _ Hold) as Hoa.
  pose proof (replace_nil_no_whitespace re_to_underscore _ Hold) as Hoc.
  pose proof (replace_nil_no_whitespace re_from_underscore _ Hnew) as Hna.
  pose proof (replace_nil_no_whitespace re_to_underscore _ Hnew) as Hnc.
  destruct (applyAppTheme_effect theme w f ifr false Hf Hifr Hoa Hoc Hna Hnc)
    as (_ & _ & _ & Hcl & Hdoc).
  { unfold attach_decided. by rewrite Hc. }
  cbv zeta in Hcl, Hdoc. rewrite Hc in Hcl, Hdoc.
  set (oc := replace re_to_underscore [] (default [] (html_dataset_theme (page w)))) in *.
  assert (truthy oc = true) as Ht by (by destruct oc).
  rewrite Ht in Hcl, Hdoc.
  rewrite bool_decide_eq_false_2 in Hcl by exact Ho.
  rewrite bool_decide_eq_false_2 in Hdoc by exact Ho.
  cbn [andb negb] in Hcl, Hdoc. split; [|split].
  - rewrite Hdoc, Hd. simpl. unfold head_after. cbn [id]. f_equal. f_equal.
    unfold find_sheet. destruct (List.find is_sheet (doc_head d)) eqn:Es; [done|].
    simpl. clear -Es. induction (doc_head d) as [|c l IH]; [done|]. simpl in *.
    destruct (is_sheet c); [done|]. by rewrite <- IH.
  - intros Hl. apply find_none_filter. by apply remove_sheet_single.
  - eexists. split; [exact Hcl|]. cbn [id]. rewrite elem_of_token_remove. tauto.
Qed.


End ThemeCall.

Lemma returns_bind {A B} (m : M A) (k : A -> M B) (w : World) :
  returns (bind m k) w ->
  exists a w1, m w = (Ok a, w1) /\ returns (k a) w1 /\
               exec_state (bind m k) w = exec_state (k a) w1.
Proof.
  unfold returns, exec_state, bind. destruct (m w) as [[a|e] w1]; simpl.
  - intros Hr. exists a, w1. done.
  - intros [b Hb]. discriminate.
Qed.

Lemma stable_ok (R : relation World) {A} (m : M A) (a : A) (w w' : World) :
  stable R m -> m w = (Ok a, w') -> R w w'.
Proof. intros Hs E. specialize (Hs w). unfold exec_state in Hs. by rewrite E in Hs. Qed.

Lemma deref_some_bind {A B} (x : A) (k : A -> M B) : bind (deref (Some x)) k = k x.
Proof. reflexivity. Qed.

Lemma alter_listeners_kept (g : Element -> Element) (id id' : jsstring)
    (m : gmap (list N) Element) :
  (forall e, listeners (g e) = listeners e) ->
  listeners <$> alter g id m !! id' = listeners <$> m !! id'.
Proof.
  intros Hg. destruct (decide (id = id')) as [->|Hne].
  - rewrite lookup_alter_eq. destruct (m !! id'); simpl; [by rewrite Hg|done].
  - by rewrite lookup_alter_ne.
Qed.

Lemma alter_display_kept (g : Element -> Element) (id id' : jsstring)
    (m : gmap (list N) Element) :
  (forall e, display (g e) = display e) ->
  display <$> alter g id m !! id' = display <$> m !! id'.
Proof.
  intros Hg. destruct (decide (id = id')) as [->|Hne].
  - rewrite lookup_alter_eq. destruct (m !! id'); simpl; [by rewrite Hg|done].
  - by rewrite lookup_alter_ne.
Qed.

#[export] Instance nav_kept_preorder : PreOrder nav_kept.
Proof.
  split; unfold nav_kept.
  - intros w. done.
  - intros a b c (H1 & H2) (H4 & H5).
    split; [intros id; by rewrite H4, H1|].
    intros id Hid. by rewrite H5, H2.
Qed.

#[export] Instance displays_kept_preorder : PreOrder displays_kept.
Proof.
  split; unfold displays_kept.
  - intros w. done.
  - intros a b c H1 H2 id Hid. by rewrite H2, H1.
Qed.

Ltac nav_leaf :=
  unfold nav_kept; simpl;
  repeat split; try done;
  try (intros ?; apply alter_listeners_kept; done);
  try (intros ? ?; first [apply alter_classList_kept; done | by rewrite lookup_alter_ne]).

Ltac displays_leaf :=
  unfold displays_kept, element_display; simpl; try done;
  intros ? ?; first [apply alter_display_kept; done | by rewrite lookup_alter_ne].

Section ThemeBlocks.
Context `{pf : Platform}.

Lemma theme_shell_nav_kept (r : option unit) (oa oc a c theme : jsstring) :
  stable nav_kept (theme_shell r oa oc a c theme).
Proof. stable_walk nav_leaf. Qed.

Lemma theme_help_nav_kept (old theme : jsstring) : stable nav_kept (theme_help old theme).
Proof. stable_walk nav_leaf. Qed.

Lemma theme_content_nav_kept (doc : option Doc) (sheet : option HeadChild) (oc c : jsstring) :
  stable nav_kept (theme_content (Some (js "articleContent")) doc sheet oc c).
Proof.
  unfold theme_content, classList_remove, classList_add. rewrite !deref_some_bind.
  stable_walk nav_leaf.
Qed.

Lemma theme_shell_displays_kept (r : option unit) (oa oc a c theme : jsstring) :
  stable displays_kept (theme_shell r oa oc a c theme).
Proof. stable_walk displays_leaf. Qed.

Lemma theme_content_displays_kept (iframe : option jsstring) (doc : option Doc)
    (sheet : option HeadChild) (oc c : jsstring) :
  stable displays_kept (theme_content iframe doc sheet oc c).
Proof. stable_walk displays_leaf. Qed.

Lemma showReturnLink_displays_kept : stable displays_kept showReturnLink.
Proof.
  intros w id Hid. unfold exec_state, showReturnLink, element_display. munfold. simpl.
  destruct (byId (page w) !! js "viewArticle"); simpl; [|done].
  rewrite !lookup_alter_ne; done.
Qed.

Lemma theme_return_link_displays_kept (doc : option Doc) :
  stable displays_kept (theme_return_link doc).
Proof.
  unfold theme_return_link.
  apply stable_bind; [apply _|stable_walk displays_leaf|]. intros li.
  apply stable_bind; [apply _|stable_walk displays_leaf|]. intros active.
  unfold when. destruct (active && _); [apply showReturnLink_displays_kept|].
  apply stable_ret. apply _.
Qed.


Lemma help_is_not_the_return_link (theme : jsstring) : theme ++ js "-help" <> js "viewArticle".
Proof.
  intros E. apply (f_equal last) in E. rewrite last_app in E. vm_compute in E. discriminate.
Qed.

Lemma theme_help_displays (old theme : jsstring) (w : World) :
  let w' := exec_state (theme_help old theme) w in
  element_display w' (theme ++ js "-help")
    = (fun _ => js "block") <$> element_display w (theme ++ js "-help") /\
  (old <> theme ->
   element_display w' (old ++ js "-help")
     = (fun _ => js "none") <$> element_display w (old ++ js "-help")) /\
  (forall id, id <> old ++ js "-help" -> id <> theme ++ js "-help" ->
              element_display w' id = element_display w id).
Proof.
  cbv zeta. unfold theme_help, element_display. munfold. simpl.
  assert (old <> theme -> old ++ js "-help" <> theme ++ js "-help") as Hinj.
  { intros Hne E. by apply app_inv_tail in E. }
  destruct (decide (old = theme)) as [->|Hne].
  - destruct (byId (page w) !! (theme ++ js "-help")) as [e|] eqn:E; simpl;
      rewrite ?lookup_alter_eq, ?E; simpl; rewrite ?lookup_alter_eq, ?E; simpl.
    + split; [done|]. split; [done|]. intros id H1 _. by rewrite !lookup_alter_ne.
    + rewrite ?E. split; [done|]. split; [done|]. done.
  - specialize (Hinj Hne).
    destruct (byId (page w) !! (old ++ js "-help")) as [e|] eqn:E; simpl;
      rewrite ?lookup_alter_ne by done;
      destruct (byId (page w) !! (theme ++ js "-help")) as [e'|] eqn:E'; simpl;
      rewrite ?lookup_alter_eq, ?lookup_alter_ne, ?lookup_alter_eq, ?E, ?E' by done; simpl;
      (split; [done|]); (split; [done|]); intros id H1 H2; by rewrite ?lookup_alter_ne.
Qed.

(** On a page with a footer and the content frame, a call whose
    selector holds no whitespace (the marked theme holding none either)
    shows the help of the selector, if the page has one, hides the help
    of the marked theme, if the page has one and the theme is another,
    and changes the display of no other element than the return link,
    whether the call returns or throws later on. *)
Theorem applyAppTheme_help (theme : jsstring) (w : World) :
  is_Some (footer_classList (page w)) ->
  has_element w (js "articleContent") ->
  existsb ascii_whitespace (marked_theme w) = false ->
  existsb ascii_whitespace theme = false ->
  let old := marked_theme w in
  let w' := exec_state (applyAppTheme theme) w in
  element_display w' (theme ++ js "-help")
    = (fun _ => js "block") <$> element_display w (theme ++ js "-help") /\
  (old <> theme ->
   element_display w' (old ++ js "-help")
     = (fun _ => js "none") <$> element_display w (old ++ js "-help")) /\
  (forall id, id <> old ++ js "-help" -> id <> theme ++ js "-help" ->
              id <> js "viewArticle" -> element_display w' id = element_display w id).
Proof.
  intros [f Hf] [ifr Hifr] Hold Hnew. cbv zeta. unfold marked_theme in *.
  set (oldTheme := default [] (html_dataset_theme (page w))) in *.
  pose proof (replace_nil_no_whitespace re_from_underscore _ Hold) as Hoa.
  pose proof (replace_nil_no_whitespace re_to_underscore _ Hold) as Hoc.
  pose proof (replace_nil_no_whitespace re_from_underscore _ Hnew) as Hna.
  pose proof (replace_nil_no_whitespace re_to_underscore _ Hnew) as Hnc.
  unfold applyAppTheme.
  erewrite exec_bind_ok; [|unfold footer, gets; rewrite Hf; reflexivity].
  erewrite exec_bind_ok; [|reflexivity].
  erewrite exec_bind_ok; [|unfold getElementById, gets; rewrite Hifr; reflexivity].
  erewrite exec_bind_ok; [|reflexivity].
  erewrite exec_bind_ok; [|reflexivity].
  cbv zeta. fold oldTheme.
  destruct (theme_shell_spec _ _ _ _ theme w f Hf Hoa Hoc Hna Hnc)
    as (w2 & E2 & _ & _ & _ & Hb2 & _).
  erewrite exec_bind_ok; [|exact E2].
  destruct (theme_help_spec oldTheme theme w2) as (w3 & E3 & _).
  erewrite exec_bind_ok; [|exact E3].
  destruct (theme_help_displays oldTheme theme w2) as (D1 & D2 & D3).
  unfold exec_state in D1, D2, D3. rewrite E3 in D1, D2, D3. simpl in D1, D2, D3.
  assert (forall id, element_display w2 id = element_display w id) as Hsame.
  { intros id. unfold element_display. by rewrite Hb2. }
  rewrite !Hsame in D1, D2. 
  match goal with |- context [exec_state ?m w3] =>
    assert (displays_kept w3 (exec_state m w3)) as Hk
  end.
  { apply stable_bind; [apply _|apply theme_content_displays_kept|].
    intros _. apply theme_return_link_displays_kept. }
  split; [|split].
  - rewrite Hk by apply help_is_not_the_return_link. exact D1.
  - intros Hne. rewrite Hk by apply help_is_not_the_return_link. by apply D2.
  - intros id H1 H2 H3. rewrite Hk by done. rewrite D3 by done. apply Hsame.
Qed.

(** A call that returns while the Config tab is active over a real
    article shows the return link and puts one more click listener on
    it; any other call that returns leaves the listeners of the return
    link alone. No call takes a listener off. *)
Theorem applyAppTheme_return_link (theme : jsstring) (w : World) :
  returns (applyAppTheme theme) w ->
  let w' := exec_state (applyAppTheme theme) w in
  return_link_listeners w'
    = return_link_listeners w
      ++ (if in_config w then [(js "click", ReturnToArticle)] else []) /\
  (in_config w = true -> element_display w' (js "viewArticle") = Some (js "block")).
Proof.
  intros Hr. cbv zeta. unfold applyAppTheme in *.
  apply returns_bind in Hr as (r & w1 & E & Hr & ->).
  unfold footer, gets in E. injection E as <- <-.
  apply returns_bind in Hr as (old & w1 & E & Hr & ->). injection E as <- <-.
  apply returns_bind in Hr as (iframe & w1 & E & Hr & ->).
  unfold getElementById, gets in E. injection E as <- <-.
  apply returns_bind in Hr as (x & w1 & E & Hr & ->).
  destruct (byId (page w) !! js "articleContent") as [ifr|] eqn:Hifr; [|discriminate E].
  injection E as _ <-.
  apply returns_bind in Hr as (doc & w1 & E & Hr & ->). injection E as <- <-.
  cbv zeta in *.
  apply returns_bind in Hr as ([] & w2 & E2 & Hr & ->).
  apply returns_bind in Hr as ([] & w3 & E3 & Hr & ->).
  apply returns_bind in Hr as ([] & w4 & E4 & Hr & ->).
  assert (nav_kept w w4) as [Hl Hc].
  { etrans; [|etrans].
    - eapply stable_ok; [apply theme_shell_nav_kept|exact E2].
    - eapply stable_ok; [apply theme_help_nav_kept|exact E3].
    - eapply stable_ok; [apply theme_content_nav_kept|exact E4]. }
  clear E2 E3 E4.
  specialize (Hc (js "liConfigureNav") ltac:(done)).
  specialize (Hl (js "viewArticle")).
  unfold return_link_listeners, in_config, element_display.
  unfold returns, exec_state, theme_return_link, classList_contains, showReturnLink in *.
  munfold. simpl in *.
  destruct (byId (page w4) !! js "liConfigureNav") as [li4|] eqn:Hli4;
    [|destruct Hr as [? Hr]; discriminate Hr].
  destruct (byId (page w) !! js "liConfigureNav") as [li|] eqn:Hli; [|done].
  simpl in Hc. injection Hc as Hc. simpl in *. rewrite ?Hli4, ?Hli in *. rewrite Hc in *.
  destruct (token_contains (js "active") (classList li)
            && match contentDocument (page w) with
               | Some d => negb (bool_decide
                   (doc_title d = js "Placeholder for injecting an article into the iframe"))
               | None => false
               end) eqn:Ec; simpl in *.
  - destruct (byId (page w4) !! js "viewArticle") as [va4|] eqn:Hva4;
      [|destruct Hr as [? Hr]; discriminate Hr].
    simpl in *. rewrite !lookup_alter_eq, Hva4. simpl.
    destruct (byId (page w) !! js "viewArticle") as [va|]; [|done].
    simpl in Hl. injection Hl as Hl. simpl. by rewrite Hl.
  - rewrite Hl, app_nil_r. done.
Qed.

End ThemeBlocks.

(** ** spinnerDisplay *)

Section SpinnerFacts.
Context `{pf : Platform}.

Lemma world_eq (w w' : World) :
  page w = page w' -> session w = session w' -> objectURLs w = objectURLs w' ->
  issued w = issued w' -> nodes w = nodes w' -> pending w = pending w' -> log w = log w' ->
  w = w'.
Proof. destruct w, w'. simpl. by intros -> -> -> -> -> -> ->. Qed.

Lemma page_eq (p p' : Page) :
  html_classList p = html_classList p' -> html_dataset_theme p = html_dataset_theme p' ->
  footer_classList p = footer_classList p' -> byId p = byId p' ->
  contentDocument p = contentDocument p' -> p = p'.
Proof. destruct p, p'. simpl. by intros -> -> -> -> ->. Qed.

(** Of two calls in a row the second decides: the page is left as if
    the first had not been made, whether the elements of the spinner are
    on the page or not. In particular a call made twice is a call made
    once. *)
Theorem spinnerDisplay_last_call (show1 show2 : bool) (message1 message2 : option jsstring)
    (w : World) :
  exec_state (spinnerDisplay show2 message2) (exec_state (spinnerDisplay show1 message1) w)
  = exec_state (spinnerDisplay show2 message2) w.
Proof.
  assert (js "searchingArticles" <> js "cachingAssets") as Hne by done.
  unfold spinnerDisplay. munfold. simpl.
  destruct (byId (page w) !! js "searchingArticles") as [sa|] eqn:Hsa; simpl.
  2: { destruct show1, show2; simpl; by rewrite ?Hsa. }
  destruct (byId (page w) !! js "cachingAssets") as [ca|] eqn:Hca; simpl.
  - destruct show1, show2, (truthy (default [] message1)), (truthy (default [] message2));
      simpl;
      rewrite ?lookup_alter_ne, ?lookup_alter_eq, ?lookup_alter_ne, ?Hsa, ?Hca by done; simpl;
      rewrite ?lookup_alter_ne, ?lookup_alter_eq, ?lookup_alter_ne, ?Hsa, ?Hca by done; simpl;
      (apply world_eq; try done; apply page_eq; try done; simpl;
       apply map_eq; intros i;
       destruct (decide (i = js "searchingArticles")) as [->|H1];
       [rewrite ?lookup_alter_ne, ?lookup_alter_eq, ?lookup_alter_ne, ?lookup_alter_eq,
          ?lookup_alter_ne, ?lookup_alter_eq, ?lookup_alter_ne, ?lookup_alter_eq, ?Hsa by done;
        done|];
       destruct (decide (i = js "cachingAssets")) as [->|H2];
       [rewrite ?lookup_alter_eq, ?lookup_alter_ne, ?lookup_alter_eq, ?lookup_alter_ne,
          ?lookup_alter_eq, ?lookup_alter_ne, ?lookup_alter_eq, ?lookup_alter_ne,
          ?lookup_alter_eq, ?Hca by done;
        done|];
       by rewrite !lookup_alter_ne by done).
  - destruct show1, show2, (truthy (default [] message1)), (truthy (default [] message2));
      simpl;
      rewrite ?lookup_alter_ne, ?lookup_alter_eq, ?lookup_alter_ne, ?Hsa, ?Hca by done; simpl;
      rewrite ?lookup_alter_ne, ?lookup_alter_eq, ?lookup_alter_ne, ?Hsa, ?Hca by done; simpl;
      (apply world_eq; try done; apply page_eq; try done; simpl;
       apply map_eq; intros i;
       destruct (decide (i = js "searchingArticles")) as [->|H1];
       [rewrite ?lookup_alter_eq, ?Hsa; done|];
       by rewrite !lookup_alter_ne by done).
Qed.


(** On a page that lacks the spinner or its message area the call
    throws a TypeError: at once when the spinner is missing, and after
    the spinner has been shown or hidden when only the message area is. *)
Theorem spinnerDisplay_markup_missing (show : bool) (message : option jsstring) (w : World) :
  ~ (has_element w (js "searchingArticles") /\ has_element w (js "cachingAssets")) ->
  spinnerDisplay show message w
  = (Throw TypeError,
     if bool_decide (is_Some (byId (page w) !! js "searchingArticles"))
     then with_page (with_byId (alter (with_display (if show then js "block" else js "none"))
                                  (js "searchingArticles"))) w
     else w).
Proof.
  unfold has_element. intros Hn.
  assert (js "searchingArticles" <> js "cachingAssets") as Hne by done.
  unfold spinnerDisplay. munfold. simpl.
  destruct (byId (page w) !! js "searchingArticles") as [sa|] eqn:Hsa; simpl.
  2: { by destruct show. }
  destruct (byId (page w) !! js "cachingAssets") as [ca|] eqn:Hca; simpl.
  { exfalso. apply Hn. split; by eexists. }
  destruct show, (truthy (default [] message)); reflexivity.
Qed.

End SpinnerFacts.

(** ** isElementInView *)

Lemma num_lt_spec (a b : Q) : num_lt a b = true <-> (a < b)%Q.
Proof.
  unfold num_lt. rewrite negb_true_iff. split.
  - intros H. apply Qnot_le_lt. intros Hle. apply Qle_bool_iff in Hle. congruence.
  - intros H. destruct (Qle_bool b a) eqn:E; [|done].
    apply Qle_bool_iff in E. exfalso. by apply (Qlt_not_le a b).
Qed.

Lemma num_gt_spec (a b : Q) : num_gt a b = true <-> (b < a)%Q.
Proof. apply num_lt_spec. Qed.

Lemma fully_spec (rect : DOMRect) (innerHeight innerWidth : Q) :
  isElementInView rect innerHeight innerWidth true = true <->
  (0 < rect_top rect /\ rect_bottom rect < innerHeight /\
   0 < rect_left rect /\ rect_right rect < innerWidth)%Q.
Proof.
  unfold isElementInView. rewrite !andb_true_iff, !num_lt_spec, !num_gt_spec. tauto.
Qed.

Lemma partly_spec (rect : DOMRect) (innerHeight innerWidth : Q) :
  isElementInView rect innerHeight innerWidth false = true <->
  (rect_top rect < innerHeight /\ 0 < rect_bottom rect /\
   rect_left rect < innerWidth /\ 0 < rect_right rect)%Q.
Proof.
  unfold isElementInView. rewrite !andb_true_iff, !num_lt_spec, !num_gt_spec. tauto.
Qed.

(** An element that is fully in view is partially in view: its
    rectangle has its top above its bottom and its left before its
    right. *)
Theorem isElementInView_fully_partially (rect : DOMRect) (innerHeight innerWidth : Q) :
  (rect_top rect <= rect_bottom rect)%Q ->
  (rect_left rect <= rect_right rect)%Q ->
  isElementInView rect innerHeight innerWidth true = true ->
  isElementInView rect innerHeight innerWidth false = true.
Proof.
  intros Hv Hh. rewrite fully_spec, partly_spec. intros (H1 & H2 & H3 & H4).
  repeat split.
  - by apply (Qle_lt_trans _ (rect_bottom rect)).
  - by apply (Qlt_le_trans _ (rect_top rect)).
  - by apply (Qle_lt_trans _ (rect_right rect)).
  - by apply (Qlt_le_trans _ (rect_left rect)).
Qed.

(** An element is fully in view only if it is smaller than the window
    in both directions and touches none of its edges; the empty
    rectangle at the origin, which is what an element that is not
    rendered has, is in view in neither sense, in whatever window. *)
Theorem isElementInView_strictly_inside (rect : DOMRect) (innerHeight innerWidth : Q) :
  (isElementInView rect innerHeight innerWidth true = true ->
   (rect_bottom rect - rect_top rect < innerHeight)%Q /\
   (rect_right rect - rect_left rect < innerWidth)%Q /\
   ~ (rect_top rect == 0)%Q /\ ~ (rect_left rect == 0)%Q /\
   ~ (rect_bottom rect == innerHeight)%Q /\ ~ (rect_right rect == innerWidth)%Q) /\
  (forall fully, isElementInView (mkDOMRect 0 0 0 0) innerHeight innerWidth fully = false).
Proof.
  split.
  - rewrite fully_spec. intros (H1 & H2 & H3 & H4). repeat split.
    + apply (Qplus_lt_l _ _ (rect_top rect)). ring_simplify.
      apply (Qlt_le_trans _ innerHeight); [done|].
      rewrite <- (Qplus_0_r innerHeight) at 1. rewrite (Qplus_comm (rect_top rect)).
      apply Qplus_le_r. by apply Qlt_le_weak.
    + apply (Qplus_lt_l _ _ (rect_left rect)). ring_simplify.
      apply (Qlt_le_trans _ innerWidth); [done|].
      rewrite <- (Qplus_0_r innerWidth) at 1. rewrite (Qplus_comm (rect_left rect)).
      apply Qplus_le_r. by apply Qlt_le_weak.
    + intros E. rewrite E in H1. by apply (Qlt_irrefl 0).
    + intros E. rewrite E in H3. by apply (Qlt_irrefl 0).
    + intros E. rewrite E in H2. by apply (Qlt_irrefl innerHeight).
    + intros E. rewrite E in H4. by apply (Qlt_irrefl innerWidth).
  - intros [|]; unfold isElementInView; simpl.
    + reflexivity.
    + rewrite andb_false_iff. left. rewrite andb_false_iff. left.
      rewrite andb_false_iff. right. reflexivity.
Qed.

(** ** The animation classes *)

Lemma with_classList_compose (g h : list jsstring -> list jsstring) (e : Element) :
  with_classList g (with_classList h e) = with_classList (fun l => g (h l)) e.
Proof. reflexivity. Qed.

Lemma with_classList_ext (g h : list jsstring -> list jsstring) (e : Element) :
  g (classList e) = h (classList e) -> with_classList g e = with_classList h e.
Proof. unfold with_classList. by intros ->. Qed.

Lemma filter_token_add (P : jsstring -> Prop) `{!forall x, Decision (P x)}
    (t : jsstring) (l : list jsstring) :
  ~ P t -> filter P (token_add t l) = filter P l.
Proof.
  intros Ht. unfold token_add. case_bool_decide; [done|].
  rewrite filter_app, filter_cons_False by done. by rewrite filter_nil, app_nil_r.
Qed.

Lemma filter_all (P : jsstring -> Prop) `{!forall x, Decision (P x)} (l : list jsstring) :
  (forall x, P x) -> filter P l = l.
Proof.
  intros Hall. induction l as [|x l IH]; [done|]. by rewrite filter_cons_True, IH.
Qed.

Section AnimationFacts.
Context `{pf : Platform} `{ly : Layout}.

(** What removeAnimationClasses leaves of the elements of the page. *)
Lemma removeAnimationClasses_lookup (w : World) (i : jsstring) :
  byId (page (exec_state removeAnimationClasses w)) !! i
  = with_classList (filter (fun x => x ∉ animation_classes i)) <$> byId (page w) !! i.
Proof.
  unfold exec_state, removeAnimationClasses, jquery_removeClass. munfold. simpl.
  assert (js "about" <> js "configuration") as N1 by done.
  assert (js "about" <> js "articleContent") as N2 by done.
  assert (js "configuration" <> js "articleContent") as N3 by done.
  unfold animation_classes.
  destruct (decide (i = js "about")) as [->|H1].
  { rewrite bool_decide_eq_true_2 by done.
    rewrite !lookup_alter_ne by done. rewrite !lookup_alter_eq.
    destruct (byId (page w) !! js "about") as [e|]; [|done]. simpl. f_equal.
    rewrite with_classList_compose. apply with_classList_ext.
    unfold token_remove. rewrite list_filter_filter. apply list_filter_iff.
    intros x. rewrite !not_elem_of_cons. pose proof (not_elem_of_nil x). tauto. }
  rewrite (bool_decide_eq_false_2 (i = js "about")) by done.
  destruct (decide (i = js "configuration")) as [->|H2].
  { rewrite bool_decide_eq_true_2 by done.
    rewrite !lookup_alter_ne by done. rewrite !lookup_alter_eq.
    rewrite !lookup_alter_ne by done.
    destruct (byId (page w) !! js "configuration") as [e|]; [|done]. simpl. f_equal.
    rewrite !with_classList_compose. apply with_classList_ext.
    unfold token_remove. rewrite !list_filter_filter. apply list_filter_iff.
    intros x. rewrite !not_elem_of_cons. pose proof (not_elem_of_nil x). tauto. }
  rewrite (bool_decide_eq_false_2 (i = js "configuration")) by done.
  destruct (decide (i = js "articleContent")) as [->|H3].
  { rewrite bool_decide_eq_true_2 by done.
    rewrite !lookup_alter_eq. rewrite !lookup_alter_ne by done.
    destruct (byId (page w) !! js "articleContent") as [e|]; [|done]. simpl. f_equal.
    rewrite !with_classList_compose. apply with_classList_ext.
    unfold token_remove. rewrite !list_filter_filter. apply list_filter_iff.
    intros x. rewrite !not_elem_of_cons. pose proof (not_elem_of_nil x). tauto. }
  rewrite (bool_decide_eq_false_2 (i = js "articleContent")) by done.
  rewrite !lookup_alter_ne by done.
  destruct (byId (page w) !! i) as [e|]; [|done]. simpl. f_equal.
  destruct e. unfold with_classList. simpl. f_equal.
  symmetry. apply filter_all. intros x. apply not_elem_of_nil.
Qed.

Lemma removeAnimationClasses_frame (w : World) :
  removeAnimationClasses w = (Ok tt, exec_state removeAnimationClasses w) /\
  html_classList (page (exec_state removeAnimationClasses w)) = html_classList (page w) /\
  html_dataset_theme (page (exec_state removeAnimationClasses w)) = html_dataset_theme (page w) /\
  footer_classList (page (exec_state removeAnimationClasses w)) = footer_classList (page w) /\
  contentDocument (page (exec_state removeAnimationClasses w)) = contentDocument (page w) /\
  session (exec_state removeAnimationClasses w) = session w /\
  objectURLs (exec_state removeAnimationClasses w) = objectURLs w /\
  issued (exec_state removeAnimationClasses w) = issued w /\
  nodes (exec_state removeAnimationClasses w) = nodes w /\
  pending (exec_state removeAnimationClasses w) = pending w /\
  log (exec_state removeAnimationClasses w) = log w.
Proof. repeat split. Qed.


(** An animation class put on a section does not survive
    removeAnimationClasses. *)
Lemma removeAnimationClasses_addClass (id name : jsstring) (w : World) :
  name ∈ animation_classes id ->
  exec_state removeAnimationClasses
    (with_page (with_byId (alter (with_classList (token_add name)) id)) w)
  = exec_state removeAnimationClasses w.
Proof.
  intros Hin. apply world_eq; try reflexivity. apply page_eq; try reflexivity.
  apply map_eq. intros i. rewrite !removeAnimationClasses_lookup. simpl.
  destruct (decide (id = i)) as [->|Hne]; [|by rewrite lookup_alter_ne].
  rewrite lookup_alter_eq. destruct (byId (page w) !! i) as [e|]; [|done]. simpl. f_equal.
  rewrite with_classList_compose. apply with_classList_ext.
  apply filter_token_add. tauto.
Qed.

Ltac layout_cases :=
  repeat match goal with
         | |- context [negb ?b] => destruct b; simpl
         end.

(** Whatever applyAnimationToSection puts on the sections,
    removeAnimationClasses takes off again: removing the animation
    classes after an animation was started leaves the page as removing
    them without it, for every section name and every layout. *)
Theorem removeAnimationClasses_after_animation (section : jsstring) (w : World) :
  exec_state removeAnimationClasses (exec_state (applyAnimationToSection section) w)
  = exec_state removeAnimationClasses w.
Proof.
  assert (js "slideOut_R" ∈ animation_classes (js "configuration")) as A1
    by (vm_compute; repeat constructor).
  assert (js "slideOut_R" ∈ animation_classes (js "about")) as A2 by (vm_compute; repeat constructor).
  assert (js "slideIn_R" ∈ animation_classes (js "articleContent")) as A3
    by (vm_compute; repeat constructor).
  assert (js "slideIn_R" ∈ animation_classes (js "configuration")) as A4
    by (vm_compute; repeat constructor).
  assert (js "slideOut_L" ∈ animation_classes (js "articleContent")) as A5
    by (vm_compute; repeat constructor).
  assert (js "slideIn_L" ∈ animation_classes (js "configuration")) as A6
    by (vm_compute; repeat constructor).
  assert (js "slideOut_L" ∈ animation_classes (js "configuration")) as A7
    by (vm_compute; repeat constructor).
  assert (js "slideIn_L" ∈ animation_classes (js "about")) as A8 by (vm_compute; repeat constructor).
  pose (R := exec_state removeAnimationClasses).
  assert (forall id name w0,
    name ∈ animation_classes id ->
    R (with_page (with_byId (alter (with_classList (token_add name)) id)) w0) = R w0) as HR
    by (intros; by apply removeAnimationClasses_addClass).
  change (R (exec_state (applyAnimationToSection section) w) = R w). clearbody R.
  unfold applyAnimationToSection, jquery_is_hidden, jquery_addClass.
  repeat case_bool_decide; munfold; cbn [fst snd];
    layout_cases; cbn [fst snd];
    rewrite ?HR by done; reflexivity.
Qed.

(** For the names home, config and about, applyAnimationToSection ends
    by scheduling the display of the section named, after at most two
    functions that hide another section (at most one for config); for
    any other name it schedules nothing and leaves the page alone. It
    never throws, and it takes no class off any element. *)
Theorem applyAnimationToSection_schedule (section : jsstring) (w : World) :
  exists timeouts w',
    applyAnimationToSection section w = (Ok timeouts, w') /\
    (forall id x, x ∈ element_classes w id -> x ∈ element_classes w' id) /\
    match section_element section with
    | Some target =>
        exists hides,
          timeouts = hides ++ [ShowSection target] /\
          Forall (fun t => exists id, t = HideSection id /\ id <> target) hides /\
          length hides <= (if bool_decide (section = js "config") then 1 else 2)
    | None => timeouts = [] /\ w' = w
    end.
Proof.
  assert (forall id name x w0,
    x ∈ element_classes w0 id ->
    x ∈ element_classes
          (with_page (with_byId (alter (with_classList (token_add name)) id)) w0) id) as Hadd.
  { intros id name x w0. unfold element_classes. simpl. rewrite lookup_alter_eq.
    destruct (byId (page w0) !! id) as [e|]; [|done]. simpl.
    rewrite elem_of_token_add. tauto. }
  assert (forall id id' name x w0,
    x ∈ element_classes w0 id ->
    x ∈ element_classes
          (with_page (with_byId (alter (with_classList (token_add name)) id')) w0) id) as Hadd'.
  { intros id id' name x w0. destruct (decide (id' = id)) as [->|Hne]; [apply Hadd|].
    unfold element_classes. simpl. by rewrite lookup_alter_ne. }
  assert (js "about" <> js "configuration") as N1 by done.
  assert (js "about" <> js "articleContent") as N2 by done.
  assert (js "configuration" <> js "articleContent") as N3 by done.
  assert (js "home" <> js "config") as N4 by done.
  assert (js "home" <> js "about") as N5 by done.
  assert (js "config" <> js "about") as N6 by done.
  unfold applyAnimationToSection, section_element, jquery_is_hidden, jquery_addClass.
  repeat case_bool_decide; try congruence; munfold; layout_cases;
    (eexists _, _; split; [reflexivity|]; split; [intros id x Hx; auto 10|]);
    try (split; reflexivity).
  all: try (exists []; split; [reflexivity|]; split; [constructor|simpl; lia]).
  all: match goal with
       | |- exists hides, [?a; _] = _ /\ _ => exists [a]
       | |- exists hides, [?a; ?b; _] = _ /\ _ => exists [a; b]
       end;
       (split; [reflexivity|]); (split; [|simpl; lia]);
       repeat (apply Forall_cons; split; [eexists; split; [reflexivity|done]|]);
       constructor.
Qed.

End AnimationFacts.

(** ** The click on the return link *)

Section ReturnFacts.
Context `{pf : Platform} `{ly : Layout}.

Lemma getElementById_some (id : jsstring) (w : World) :
  has_element w id -> getElementById id w = (Ok (Some id), w).
Proof. intros [e He]. unfold getElementById, gets. by rewrite He. Qed.

Lemma has_element_alter (g : Element -> Element) (id i : jsstring) (w : World) :
  has_element w i -> has_element (with_page (with_byId (alter g id)) w) i.
Proof. unfold has_element. simpl. by rewrite lookup_alter_is_Some. Qed.

Lemma has_element_stripped (i : jsstring) (w : World) :
  has_element w i -> has_element (exec_state removeAnimationClasses w) i.
Proof.
  unfold has_element. rewrite removeAnimationClasses_lookup. by rewrite fmap_is_Some.
Qed.

Ltac present :=
  repeat first [apply has_element_alter | apply has_element_stripped]; assumption.

(** The state a click leaves on a page that holds what it reaches for. *)
Lemma returnToArticle_run (w : World) :
  has_element w (js "liConfigureNav") ->
  has_element w (js "liHomeNav") ->
  has_element w (js "configuration") ->
  has_element w (js "articleContent") ->
  has_element w (js "navigationButtons") ->
  has_element w (js "formArticleSearch") ->
  exists w',
    returnToArticle false w = (Ok [], w') /\
    (forall i, byId (page w') !! i = returned i <$> byId (page w) !! i) /\
    html_classList (page w') = html_classList (page w) /\
    html_dataset_theme (page w') = html_dataset_theme (page w) /\
    footer_classList (page w') = footer_classList (page w) /\
    contentDocument (page w') = contentDocument (page w) /\
    session w' = session w /\ objectURLs w' = objectURLs w /\ issued w' = issued w /\
    nodes w' = nodes w /\ pending w' = pending w /\ log w' = log w.
Proof.
  intros H1 H2 H3 H4 H5 H6.
  eexists. split.
  { unfold returnToArticle.
    eapply bind_ok_eq; [by apply getElementById_some|].
    eapply bind_ok_eq; [reflexivity|].
    eapply bind_ok_eq; [apply getElementById_some; present|].
    eapply bind_ok_eq; [reflexivity|].
    eapply bind_ok_eq; [apply removeAnimationClasses_frame|].
    eapply bind_ok_eq.
    { eapply bind_ok_eq; [apply getElementById_some; present|].
      eapply bind_ok_eq; [reflexivity|].
      eapply bind_ok_eq; [apply getElementById_some; present|].
      eapply bind_ok_eq; [reflexivity|]. reflexivity. }
    eapply bind_ok_eq; [apply getElementById_some; present|].
    eapply bind_ok_eq; [reflexivity|].
    eapply bind_ok_eq; [apply getElementById_some; present|].
    eapply bind_ok_eq; [reflexivity|].
    eapply bind_ok_eq; [reflexivity|]. reflexivity. }
  split; [|repeat split].
  intros i. cbn [page byId with_page with_byId].
  assert (forall (g : Element -> Element) (id : jsstring) (m : gmap (list N) Element),
    alter g id m !! i = (if bool_decide (id = i) then g else fun e => e) <$> m !! i) as Halter.
  { intros g id m. case_bool_decide as Hi.
    - subst. apply lookup_alter_eq.
    - rewrite lookup_alter_ne by done. by destruct (m !! i). }
  rewrite !Halter, removeAnimationClasses_lookup. cbn [page byId with_page with_byId].
  rewrite !Halter.
  destruct (byId (page w) !! i) as [e|]; [|done]. simpl. f_equal.
  unfold returned.
  assert (forall a b : jsstring, bool_decide (a = b) = bool_decide (b = a)) as Hsym.
  { intros a b. apply bool_decide_ext. split; congruence. }
  rewrite !(Hsym _ i).
  destruct (decide (i = js "liHomeNav")) as [->|N1]; [by destruct e|].
  rewrite (bool_decide_eq_false_2 (i = js "liHomeNav")) by done.
  destruct (decide (i = js "liConfigureNav")) as [->|N2]; [by destruct e|].
  rewrite (bool_decide_eq_false_2 (i = js "liConfigureNav")) by done.
  destruct (decide (i = js "configuration")) as [->|N3]; [by destruct e|].
  rewrite (bool_decide_eq_false_2 (i = js "configuration")) by done.
  destruct (decide (i = js "articleContent")) as [->|N4]; [by destruct e|].
  rewrite (bool_decide_eq_false_2 (i = js "articleContent")) by done.
  destruct (decide (i = js "navigationButtons")) as [->|N5]; [by destruct e|].
  rewrite (bool_decide_eq_false_2 (i = js "navigationButtons")) by done.
  destruct (decide (i = js "formArticleSearch")) as [->|N6]; [by destruct e|].
  rewrite (bool_decide_eq_false_2 (i = js "formArticleSearch")) by done.
  destruct (decide (i = js "viewArticle")) as [->|N7]; [by destruct e|].
  rewrite (bool_decide_eq_false_2 (i = js "viewArticle")) by done.
  by destruct e.
Qed.


Lemma returned_twice (i : jsstring) (e : Element) : returned i (returned i e) = returned i e.
Proof.
  unfold returned. cbv zeta.
  set (shown := if bool_decide (i = js "configuration") then Some (js "none") else _).
  destruct shown, e; unfold with_classList, with_display; simpl; f_equal.
  all: destruct (decide (i = js "liHomeNav")) as [->|N1];
    [ change (animation_classes (js "liHomeNav")) with (@nil jsstring);
      rewrite !bool_decide_eq_true_2 by done;
      rewrite !filter_all by (intros; apply not_elem_of_nil);
      apply token_add_present, token_add_elem
    | rewrite !(bool_decide_eq_false_2 (i = js "liHomeNav")) by done ].
  all: destruct (decide (i = js "liConfigureNav")) as [->|N2];
    [ change (animation_classes (js "liConfigureNav")) with (@nil jsstring);
      rewrite !bool_decide_eq_true_2 by done;
      rewrite !filter_all by (intros; apply not_elem_of_nil);
      unfold token_remove; rewrite list_filter_filter; apply list_filter_iff; tauto
    | rewrite !(bool_decide_eq_false_2 (i = js "liConfigureNav")) by done ].
  all: rewrite list_filter_filter; apply list_filter_iff; tauto.
Qed.

(** Without animations, running the body of the click listener again,
    any number of times, leaves the page as the first run left it: the
    listeners that repeated calls of applyAppTheme put on the return
    link do not change what a click does. *)
Theorem returnToArticle_repeated (n : nat) (w : World) :
  has_element w (js "liConfigureNav") ->
  has_element w (js "liHomeNav") ->
  has_element w (js "configuration") ->
  has_element w (js "articleContent") ->
  has_element w (js "navigationButtons") ->
  has_element w (js "formArticleSearch") ->
  Nat.iter (S n) (exec_state (returnToArticle false)) w
  = exec_state (returnToArticle false) w.
Proof.
  intros H1 H2 H3 H4 H5 H6. induction n as [|n IH]; [reflexivity|].
  change (Nat.iter (S (S n)) ?f w) with (f (Nat.iter (S n) f w)). rewrite IH.
  destruct (returnToArticle_run w H1 H2 H3 H4 H5 H6)
    as (w1 & E1 & L1 & A1 & A2 & A3 & A4 & A5 & A6 & A7 & A8 & A9 & A10).
  unfold exec_state at 2. rewrite E1. cbn [snd].
  assert (forall i, has_element w i -> has_element w1 i) as Hkeep.
  { intros i. unfold has_element. rewrite L1. by rewrite fmap_is_Some. }
  destruct (returnToArticle_run w1) as (w2 & E2 & L2 & B1 & B2 & B3 & B4 & B5 & B6 & B7 & B8 & B9 & B10);
    try (by apply Hkeep).
  unfold exec_state. rewrite E2, E1. cbn [snd].
  apply world_eq; [|assumption..]. apply page_eq; [assumption..| |assumption].
  apply map_eq. intros i. rewrite L2, L1.
  destruct (byId (page w) !! i) as [e|]; [|done]. simpl. f_equal. apply returned_twice.
Qed.

End ReturnFacts.

(** ** displayActiveContentWarning *)

Lemma config_eq (c c' : Config) :
  controls c = controls c' -> activeContentWarningSetup c = activeContentWarningSetup c' ->
  clicked c = clicked c' -> c = c'.
Proof. destruct c, c'. simpl. by intros -> -> ->. Qed.

Lemma c_bind_ok {A B} (m : C A) (k : A -> C B) (c c1 : Config) (a : A) :
  m c = (Ok a, c1) -> c_bind m k c = k a c1.
Proof. unfold c_bind. by intros ->. Qed.

Lemma c_bind_throw {A B} (m : C A) (k : A -> C B) (c c1 : Config) (e : exn) :
  m c = (Throw e, c1) -> c_bind m k c = (Throw e, c1).
Proof. unfold c_bind. by intros ->. Qed.

Lemma c_getElementById_found (id : jsstring) (c : Config) (e : Control) :
  controls c !! ById id = Some e -> c_getElementById id c = (Ok (Some (ById id)), c).
Proof. intros He. unfold c_getElementById, c_gets. by rewrite He. Qed.

Lemma c_getElementById_null (id : jsstring) (c : Config) :
  controls c !! ById id = None -> c_getElementById id c = (Ok None, c).
Proof. intros He. unfold c_getElementById, c_gets. by rewrite He. Qed.

Lemma warned_write (r : Ref) (f : Control -> Control) (c : Config) :
  (forall e, c_display (f e) = c_display e) ->
  warned c -> warned (with_controls (insert r (f (control c r))) c).
Proof.
  intros Hf (Hs & a & Ha & Hd). split; [done|]. simpl.
  destruct (decide (r = ById (js "activeContent"))) as [->|Hne].
  - rewrite lookup_insert_eq. eexists. split; [done|].
    unfold control. rewrite Ha. simpl. by rewrite Hf.
  - rewrite lookup_insert_ne by done. eauto.
Qed.

Section Keeps.
Context (P : Config -> Prop).

Lemma c_keeps_ret {A} (a : A) : c_keeps P (c_ret a).
Proof. intros c. done. Qed.
Lemma c_keeps_throw {A} (e : exn) : c_keeps P (c_throw (A:=A) e).
Proof. intros c. done. Qed.
Lemma c_keeps_gets {A} (f : Config -> A) : c_keeps P (c_gets f).
Proof. intros c. done. Qed.
Lemma c_keeps_modify (f : Config -> Config) : (forall c, P c -> P (f c)) -> c_keeps P (c_modify f).
Proof. intros Hf c. apply Hf. Qed.
Lemma c_keeps_bind {A B} (m : C A) (k : A -> C B) :
  c_keeps P m -> (forall a, c_keeps P (k a)) -> c_keeps P (c_bind m k).
Proof.
  intros Hm Hk c Hc. unfold c_state, c_bind.
  specialize (Hm c Hc). unfold c_state in Hm.
  destruct (m c) as [[a|e] c']; simpl in *; [|done]. by apply Hk.
Qed.
Lemma c_keeps_forEach {A} (l : list A) (f : A -> C unit) :
  (forall a, c_keeps P (f a)) -> c_keeps P (c_forEach l f).
Proof.
  intros Hf. induction l as [|x l IH]; simpl.
  - apply c_keeps_ret.
  - apply c_keeps_bind; [apply Hf|]. intros _. exact IH.
Qed.
Lemma c_keeps_write (r : Ref) (f : Control -> Control) :
  (forall c, P c -> P (with_controls (insert r (f (control c r))) c)) ->
  c_keeps P (c_write r f).
Proof. intros Hf. unfold c_write. by apply c_keeps_modify. Qed.

End Keeps.

Lemma c_addEventListener_warned (r : option Ref) (type : jsstring) (h : WarningHandler) :
  c_keeps warned (c_addEventListener r type h).
Proof.
  unfold c_addEventListener. apply c_keeps_bind.
  - destruct r; [apply c_keeps_ret|apply c_keeps_throw].
  - intros x. apply c_keeps_write. intros c. by apply warned_write.
Qed.

Lemma c_data_hide_addClickListener_warned (r : option Ref) (h : WarningHandler) :
  c_keeps warned (c_data_hide_addClickListener r h).
Proof.
  unfold c_data_hide_addClickListener. apply c_keeps_bind.
  - destruct r; [apply c_keeps_ret|apply c_keeps_throw].
  - intros x. apply c_keeps_bind; [apply c_keeps_gets|]. intros e.
    destruct (c_data_hide e); [|apply c_keeps_throw].
    apply c_keeps_write. intros c. by apply warned_write.
Qed.

(** Once the warning is on the page, a call leaves it shown and set up. *)
Lemma displayActiveContentWarning_warned (c : Config) (a : Control) :
  controls c !! ById (js "activeContent") = Some a ->
  warned (c_state displayActiveContentWarning c).
Proof.
  intros Ha. unfold c_state, displayActiveContentWarning.
  rewrite (c_bind_ok _ _ _ _ _ (c_getElementById_found _ _ _ Ha)).
  erewrite c_bind_ok; [|reflexivity].
  erewrite c_bind_ok; [|reflexivity].
  cbn [activeContentWarningSetup with_controls].
  set (c1 := with_controls _ c).
  assert (exists a1, controls c1 !! ById (js "activeContent") = Some a1 /\
                     c_display a1 = js "block") as Hshown.
  { unfold c1. simpl. rewrite lookup_insert_eq. eauto. }
  destruct (activeContentWarningSetup c) eqn:Hs; cbn [negb c_when].
  - split; [done|exact Hshown].
  - erewrite c_bind_ok; [|reflexivity].
    match goal with |- warned (?m ?c2).2 =>
      change (warned (c_state m c2)); assert (c_keeps warned m) as Hk
    end.
    { apply c_keeps_bind; [apply c_data_hide_addClickListener_warned|]. intros _.
      apply (c_keeps_forEach warned [js "swModeLink"; js "stop"]). intros id.
      apply c_keeps_bind; [apply c_keeps_gets|]. intros link.
      apply c_addEventListener_warned. }
    apply Hk. split; [done|exact Hshown].
Qed.

(** On a page where the warning is shown and set up, a call changes
    nothing. *)
Lemma displayActiveContentWarning_of_warned (c : Config) :
  warned c -> displayActiveContentWarning c = (Ok tt, c).
Proof.
  intros (Hs & a & Ha & Hd). unfold displayActiveContentWarning.
  rewrite (c_bind_ok _ _ _ _ _ (c_getElementById_found _ _ _ Ha)).
  erewrite c_bind_ok; [|reflexivity].
  assert (with_controls
            (insert (ById (js "activeContent"))
               (with_c_display (js "block") (control c (ById (js "activeContent"))))) c = c)
    as ->.
  { apply config_eq; try done. simpl. apply insert_id. unfold control. rewrite Ha. simpl.
    f_equal. destruct a. simpl in *. by subst. }
  erewrite c_bind_ok; [|reflexivity]. by rewrite Hs.
Qed.

(** A call made again changes nothing: whatever the page holds, and
    whether the first call returned or threw, the second shows nothing
    more and registers no listener. *)
Theorem displayActiveContentWarning_again (c : Config) :
  c_state displayActiveContentWarning (c_state displayActiveContentWarning c)
  = c_state displayActiveContentWarning c.
Proof.
  destruct (controls c !! ById (js "activeContent")) as [a|] eqn:Ha.
  - pose proof (displayActiveContentWarning_warned c a Ha) as Hw.
    unfold c_state at 1. by rewrite (displayActiveContentWarning_of_warned _ Hw).
  - assert (displayActiveContentWarning c = (Throw TypeError, c)) as E.
    { unfold displayActiveContentWarning.
      rewrite (c_bind_ok _ _ _ _ _ (c_getElementById_null _ _ Ha)). reflexivity. }
    unfold c_state. rewrite E. cbn [snd]. by rewrite E.
Qed.

(** When the warning has no dismiss button, the first call throws a
    TypeError at line 153, after the one-time flag was set: neither
    link has got its listener, and no later call registers it, since
    every later call returns without setting anything up. *)
Theorem displayActiveContentWarning_setup_lost (c : Config) (a : Control) :
  controls c !! ById (js "activeContent") = Some a ->
  c_data_hide a = None ->
  activeContentWarningSetup c = false ->
  let c' := c_state displayActiveContentWarning c in
  displayActiveContentWarning c = (Throw TypeError, c') /\
  activeContentWarningSetup c' = true /\
  (forall r, r <> ById (js "activeContent") -> controls c' !! r = controls c !! r) /\
  displayActiveContentWarning c' = (Ok tt, c').
Proof.
  intros Ha Hh Hs. cbv zeta.
  assert (displayActiveContentWarning c
          = (Throw TypeError,
             with_activeContentWarningSetup true
               (with_controls
                  (insert (ById (js "activeContent")) (with_c_display (js "block") a)) c)))
    as E.
  { unfold displayActiveContentWarning.
    rewrite (c_bind_ok _ _ _ _ _ (c_getElementById_found _ _ _ Ha)).
    erewrite c_bind_ok; [|reflexivity].
    erewrite c_bind_ok; [|reflexivity].
    cbn [activeContentWarningSetup with_controls]. rewrite Hs. cbn [negb c_when].
    erewrite c_bind_ok; [|reflexivity].
    apply c_bind_throw.
    unfold c_data_hide_addClickListener.
    erewrite c_bind_ok; [|reflexivity].
    erewrite c_bind_ok; [|reflexivity].
    unfold control. simpl. rewrite lookup_insert_eq. simpl. rewrite Ha. simpl.
    by rewrite Hh. }
  unfold c_state. rewrite E. cbn [snd]. split; [done|]. split; [done|]. split.
  - intros r Hr. simpl. by rewrite lookup_insert_ne.
  - apply displayActiveContentWarning_of_warned. split; [done|]. simpl.
    rewrite lookup_insert_eq. eauto.
Qed.

Lemma c_try_returns (m : C unit) (c : Config) :
  c_try m (fun _ => c_ret tt) c = (Ok tt, c_state m c).
Proof. unfold c_try, c_state. by destruct (m c) as [[[]|e] c']. Qed.

Lemma c_forEach_snoc {A} (l : list A) (x : A) (f : A -> C unit) (c : Config) :
  (forall a c1, exists c2, f a c1 = (Ok tt, c2)) ->
  c_state (c_forEach (l ++ [x]) f) c = c_state (f x) (c_state (c_forEach l f) c).
Proof.
  intros Hf. revert c. induction l as [|y l IH]; intros c; simpl.
  - unfold c_state, c_bind, c_ret. simpl. destruct (Hf x c) as [c2 E]. by rewrite E.
  - unfold c_state, c_bind in *. destruct (Hf y c) as [c2 ->]. apply IH.
Qed.

Lemma control_insert_eq (c : Config) (r : Ref) (e : Control) :
  control (with_controls (insert r e) c) r = e.
Proof. unfold control. simpl. by rewrite lookup_insert_eq. Qed.

Lemma control_insert_ne (c : Config) (r r' : Ref) (e : Control) :
  r <> r' -> control (with_controls (insert r e) c) r' = control c r'.
Proof. intros Hr. unfold control. simpl. by rewrite lookup_insert_ne. Qed.

Lemma cancel_listeners_added (l : list (jsstring * WarningHandler)) (h : WarningHandler) :
  filter (fun p => p.1 = js "mousedown") (l ++ [(js "mousedown", h)])
  = filter (fun p => p.1 = js "mousedown") l ++ [(js "mousedown", h)].
Proof. rewrite filter_app. f_equal. Qed.

(** The run of the listener of a link of the warning, on a page that
    holds the option, the Home tab and the Configure tab. *)
Lemma ShowOption_run (c : Config) (id : jsstring) (o h b : Control) :
  controls c !! ById (option_of_link id) = Some o ->
  controls c !! ById (js "btnHome") = Some h ->
  controls c !! ById (js "btnConfigure") = Some b ->
  let label := ParentOf (option_of_link id) in
  let cancel := (js "mousedown", ClearHighlight label) in
  warning_listener (ShowOption id) c
  = (Ok tt,
     with_clicked (fun l => l ++ [js "btnConfigure"])
       (with_controls
          (fun m =>
             <[ById (js "btnHome") := with_c_listeners (fun l => l ++ [cancel]) h]>
               (<[label := with_c_listeners (fun l => l ++ [cancel])
                             (with_c_borderStyle (js "solid")
                                (with_c_borderColor (js "red") (control c label)))]> m)) c)).
Proof.
  intros Ho Hh Hb. cbv zeta. unfold warning_listener.
  rewrite (c_bind_ok _ _ _ _ _ (c_getElementById_found _ _ _ Ho)).
  erewrite c_bind_ok; [|reflexivity].
  erewrite c_bind_ok; [|reflexivity].
  erewrite c_bind_ok; [|reflexivity].
  erewrite c_bind_ok; cycle 1.
  { apply c_getElementById_found with (e := h). simpl.
    by rewrite !lookup_insert_ne. }
  erewrite c_bind_ok; [|reflexivity].
  erewrite c_bind_ok; cycle 1.
  { apply c_getElementById_found with (e := b). simpl.
    rewrite lookup_insert_ne by done. by rewrite !lookup_insert_ne. }
  unfold c_click, c_deref, c_bind, c_ret, c_modify. f_equal.
  apply config_eq; try done. simpl.
  rewrite !control_insert_eq.
  unfold control at 1. simpl. rewrite lookup_insert_ne by done.
  rewrite !lookup_insert_ne by done. rewrite Hh. simpl.
  rewrite !insert_insert_eq. reflexivity.
Qed.

Lemma ClearHighlight_clears (label : Ref) (c : Config) :
  let c' := c_state (warning_listener (ClearHighlight label)) c in
  c_borderColor (control c' label) = [] /\ c_borderStyle (control c' label) = [].
Proof.
  cbv zeta. unfold c_state, warning_listener, c_style_borderColor_set, c_style_borderStyle_set,
    c_deref, c_write, c_bind, c_ret, c_modify. cbn [snd fst].
  by rewrite !control_insert_eq.
Qed.

Lemma c_dispatch_last (r : Ref) (type : jsstring) (h : WarningHandler) (c : Config)
    (l : list (jsstring * WarningHandler)) :
  filter (fun p => p.1 = type) (c_listeners (control c r)) = l ++ [(type, h)] ->
  exists c1, c_state (c_dispatch r type) c = c_state (warning_listener h) c1.
Proof.
  intros Hl. unfold c_dispatch.
  exists (c_state (c_forEach (snd <$> l)
                     (fun h => c_try (warning_listener h) (fun _ => c_ret tt))) c).
  unfold c_state at 1. erewrite c_bind_ok; [|reflexivity].
  rewrite Hl, fmap_app. cbn [fmap list_fmap snd].
  match goal with |- (c_forEach ?k ?f _).2 = _ =>
    change ((c_forEach k f c).2) with (c_state (c_forEach k f) c)
  end.
  rewrite c_forEach_snoc.
  - unfold c_state at 1. by rewrite c_try_returns.
  - intros a c1. rewrite c_try_returns. eauto.
Qed.

(** After such a click, a mousedown on the highlighted label or on the
    Home tab takes the border away again: the listener that the click
    registered is the last of the mousedown listeners of the warning on
    that element, and it resets both border properties. *)
Theorem displayActiveContentWarning_highlight_cancelled
    (c : Config) (id : jsstring) (o h b : Control) (r : Ref) :
  controls c !! ById (option_of_link id) = Some o ->
  controls c !! ById (js "btnHome") = Some h ->
  controls c !! ById (js "btnConfigure") = Some b ->
  let label := ParentOf (option_of_link id) in
  r = label \/ r = ById (js "btnHome") ->
  let c' := c_state (c_dispatch r (js "mousedown"))
              (c_state (warning_listener (ShowOption id)) c) in
  c_borderColor (control c' label) = [] /\ c_borderStyle (control c' label) = [].
Proof.
  intros Ho Hh Hb. cbv zeta. intros Hr.
  assert (exists l,
             filter (fun p => p.1 = js "mousedown")
               (c_listeners (control (c_state (warning_listener (ShowOption id)) c) r))
             = l ++ [(js "mousedown", ClearHighlight (ParentOf (option_of_link id)))])
    as [l Hl].
  { unfold c_state. rewrite (ShowOption_run c id o h b Ho Hh Hb). cbn [snd].
    unfold control. simpl. destruct Hr as [-> | ->].
    - rewrite lookup_insert_ne by done. rewrite lookup_insert_eq. simpl.
      eexists. apply cancel_listeners_added.
    - rewrite lookup_insert_eq. simpl. eexists. apply cancel_listeners_added. }
  destruct (c_dispatch_last _ _ _ _ _ Hl) as [c1 ->].
  apply ClearHighlight_clears.
Qed.

(** * The further theorems at concrete inputs *)

(** Closes a goal about the units of a literal. *)
Ltac units :=
  vm_compute;
  repeat first [apply Forall_nil_2 | apply Forall_cons_2; [try split; discriminate|]].

Lemma removeUrlParameters_query_witness :
  Forall (fun c => c <> N_of_ascii "#") (js "A/Einstein.html?lang=en") /\
  Forall (fun c => c <> N_of_ascii "?") (js "x=1#top") /\
  removeUrlParameters (js "A/Einstein.html?lang=en?x=1#top") = js "A/Einstein.html?lang=en".
Proof.
  assert (Forall (fun c => c <> N_of_ascii "#") (js "A/Einstein.html?lang=en")) as H1 by units.
  assert (Forall (fun c => c <> N_of_ascii "?") (js "x=1#top")) as H2 by units.
  split; [exact H1|]. split; [exact H2|].
  exact (removeUrlParameters_query (js "A/Einstein.html?lang=en") (js "x=1#top") H1 H2).
Defined.

Lemma removeUrlParameters_anchor_witness :
  Forall (fun c => c <> N_of_ascii "?") (js "A/C#.html#History") /\
  Forall (fun c => c <> N_of_ascii "#" /\ c <> N_of_ascii ";") (js "History") /\
  removeUrlParameters (js "A/C#.html#History") = js "A/C#.html".
Proof.
  assert (Forall (fun c => c <> N_of_ascii "?") (js "A/C#.html#History")) as H1 by units.
  assert (Forall (fun c => c <> N_of_ascii "#" /\ c <> N_of_ascii ";") (js "History")) as H2
    by units.
  split; [exact H1|]. split; [exact H2|].
  exact (removeUrlParameters_anchor (js "A/C#.html") (js "History") H1 H2).
Defined.

Lemma loaded_download_alert : has_data_hide_button Example.loaded (js "downloadAlert").
Proof. vm_compute. eauto. Defined.

Lemma loaded_alert_message : has_element Example.loaded (js "alertMessage").
Proof. vm_compute. eauto. Defined.

Lemma displayFileDownloadAlert_given_name_witness :
  has_data_hide_button Example.loaded (js "downloadAlert") /\
  has_element Example.loaded (js "alertMessage") /\
  offered_download
    (exec_state (displayFileDownloadAlert (pf:=Example.browser) (js "A/report")
                   (DString (js "report: 1/2.pdf")) None []) Example.loaded)
  = Some (js "report_ 1_2.pdf").
Proof.
  split; [exact loaded_download_alert|]. split; [exact loaded_alert_message|].
  pose proof (displayFileDownloadAlert_given_name (pf:=Example.browser) (js "A/report")
                (js "report: 1/2.pdf") None [] Example.loaded
                loaded_download_alert loaded_alert_message) as H.
  cbv zeta in H. destruct H as (H & _). exact H.
Defined.

Lemma displayFileDownloadAlert_title_name_witness :
  has_data_hide_button Example.loaded (js "downloadAlert") /\
  has_element Example.loaded (js "alertMessage") /\
  forallb dot (js "/docs/2024") = true /\
  js "a:b.txt" <> [] /\
  Forall (fun c => c <> N_of_ascii "/") (js "a:b.txt") /\
  offered_download
    (exec_state (displayFileDownloadAlert (pf:=Example.browser) (js "/docs/2024/a:b.txt")
                   (DBoolean true) None []) Example.loaded)
  = Some (js "a_b.txt").
Proof.
  assert (Forall (fun c => c <> N_of_ascii "/") (js "a:b.txt")) as H5 by units.
  assert (js "a:b.txt" <> []) as H4 by (vm_compute; discriminate).
  split; [exact loaded_download_alert|]. split; [exact loaded_alert_message|].
  split; [reflexivity|]. split; [exact H4|]. split; [exact H5|].
  exact (displayFileDownloadAlert_title_name (pf:=Example.browser) (js "/docs/2024")
           (js "a:b.txt") None [] Example.loaded
           loaded_download_alert loaded_alert_message eq_refl H4 H5).
Defined.

Lemma displayFileDownloadAlert_title_whole_witness :
  has_data_hide_button Example.loaded (js "downloadAlert") /\
  has_element Example.loaded (js "alertMessage") /\
  (Forall (fun c => c <> N_of_ascii "/") (js "A/dir/") \/
   last (js "A/dir/") = Some (N_of_ascii "/")) /\
  offered_download
    (exec_state (displayFileDownloadAlert (pf:=Example.browser) (js "A/dir/")
                   (DBoolean true) None []) Example.loaded)
  = Some (js "A_dir_").
Proof.
  assert (Forall (fun c => c <> N_of_ascii "/") (js "A/dir/") \/
          last (js "A/dir/") = Some (N_of_ascii "/")) as H3 by (right; reflexivity).
  split; [exact loaded_download_alert|]. split; [exact loaded_alert_message|].
  split; [exact H3|].
  exact (displayFileDownloadAlert_title_whole (pf:=Example.browser) (js "A/dir/") None []
           Example.loaded loaded_download_alert loaded_alert_message H3).
Defined.


Lemma displayFileDownloadAlert_click_witness :
  has_data_hide_button Example.loaded (js "downloadAlert") /\
  has_element Example.loaded (js "alertMessage") /\
  download_name (js "A/a.pdf") (DBoolean true) = Some (js "a.pdf") /\
  a_listeners <$>
    download_links
      (exec_state (displayFileDownloadAlert (pf:=Example.legacy_browser) (js "A/a.pdf")
                     (DBoolean true) None []) Example.loaded)
  = [[(js "click",
       MsSaveBlobAndPrevent (new_Blob [] (js "application/octet-stream")) (js "a.pdf"))]].
Proof.
  split; [exact loaded_download_alert|]. split; [exact loaded_alert_message|].
  split; [reflexivity|].
  pose proof (displayFileDownloadAlert_click (pf:=Example.legacy_browser) (js "A/a.pdf")
                (DBoolean true) None [] (js "a.pdf") Example.loaded
                loaded_download_alert loaded_alert_message eq_refl) as H.
  cbv zeta in H. destruct H as (_ & _ & H). exact H.
Defined.

Lemma bare_no_download_alert : ~ has_data_hide_button Sample.bare (js "downloadAlert").
Proof. intros [x Hx]. vm_compute in Hx. discriminate Hx. Defined.

Lemma displayFileDownloadAlert_markup_missing_witness :
  ~ has_data_hide_button Sample.bare (js "downloadAlert") /\
  downloadAlertSetup (session Sample.bare) = false /\
  displayFileDownloadAlert (pf:=Example.browser) (js "A/a.pdf") (DBoolean true) None []
    Sample.bare = (Throw TypeError, Sample.bare).
Proof.
  split; [exact bare_no_download_alert|]. split; [reflexivity|].
  pose proof (displayFileDownloadAlert_markup_missing (pf:=Example.browser) (js "A/a.pdf")
                (DBoolean true) None [] Sample.bare bare_no_download_alert eq_refl) as H.
  cbv zeta in H. destruct H as (H & _). rewrite H. reflexivity.
Defined.

Lemma feedNodeWithBlob_released_on_load_witness :
  webpMachine (Platform:=Example.browser) && test re_webp (js "image/png") = false /\
  ~ live (run (pf:=Example.browser)
            ([ApplyAppTheme (js "dark"); FeedNodeWithBlob 1 (js "src") [] (js "image/png") None]
             ++ [Load 0])
            (exec_state (feedNodeWithBlob (pf:=Example.browser) 0 (js "src") []
                           (js "image/png") (Some 7)) Example.loaded))
         (object_url (pf:=Example.browser) (issued Example.loaded)).
Proof.
  split; [reflexivity|].
  pose proof (feedNodeWithBlob_released_on_load (pf:=Example.browser) 0 (js "src") []
                (js "image/png") (Some 7)
                [ApplyAppTheme (js "dark"); FeedNodeWithBlob 1 (js "src") [] (js "image/png") None]
                Example.loaded eq_refl) as H.
  cbv zeta in H. destruct H as (_ & H). exact H.
Defined.

Lemma feedNodeWithBlob_decoded_invalid_attribute_witness :
  webpMachine (Platform:=Example.legacy_browser) = true /\
  test re_webp (js "image/WebP") = true /\
  valid_attribute_name (Platform:=Example.legacy_browser) (js "") = false /\
  log (exec_state (settle (pf:=Example.legacy_browser) (length (pending Example.loaded))
                     (Decoded (js "data:image/png;base64,AA==")))
         (exec_state (feedNodeWithBlob (pf:=Example.legacy_browser) 0 (js "") []
                        (js "image/WebP") (Some 7)) Example.loaded))
  = log Example.loaded
    ++ [Call 7 (Some (js "data:image/png;base64,AA=="));
        ConsoleError (js "There was an error decoding image in WebpMachine");
        Call 7 None].
Proof.
  split; [reflexivity|]. split; [reflexivity|]. split; [reflexivity|].
  pose proof (feedNodeWithBlob_decoded_invalid_attribute (pf:=Example.legacy_browser) 0 (js "") []
                (js "image/WebP") 7 (js "data:image/png;base64,AA==") Example.loaded
                eq_refl eq_refl eq_refl) as H.
  cbv zeta in H. destruct H as (_ & H & _). exact H.
Defined.

Lemma loaded_update_alert : has_element Example.loaded (js "updateAlert").
Proof. vm_compute. eauto. Defined.

Lemma loaded_persistent_message : has_element Example.loaded (js "persistentMessage").
Proof. vm_compute. eauto. Defined.

Lemma checkUpdateStatus_last_key_witness :
  let keys := Example.keyList ++ [js "kiwix-appCache-3.3.0"; js "unrelated"] in
  updateAlert (session Example.loaded) = Some (js "updateAlert") /\
  has_element Example.loaded (js "updateAlert") /\
  has_element Example.loaded (js "persistentMessage") /\
  last (List.filter (announces Example.cacheNames) keys) = Some (js "kiwix-appCache-3.3.0") /\
  element_innerHTML
    (exec_state (caches_keys_then Example.cacheNames keys) Example.loaded)
    (js "persistentMessage")
  = Some (js "Version 3.3.0 is ready to install. (Re-launch app to install.)").
Proof.
  cbv zeta.
  assert (last (List.filter (announces Example.cacheNames)
                  (Example.keyList ++ [js "kiwix-appCache-3.3.0"; js "unrelated"]))
          = Some (js "kiwix-appCache-3.3.0")) as H4 by reflexivity.
  split; [reflexivity|]. split; [exact loaded_update_alert|].
  split; [exact loaded_persistent_message|]. split; [exact H4|].
  pose proof (checkUpdateStatus_last_key Example.cacheNames
                (Example.keyList ++ [js "kiwix-appCache-3.3.0"; js "unrelated"])
                (js "kiwix-appCache-3.3.0") Example.loaded eq_refl
                loaded_update_alert loaded_persistent_message H4) as H.
  cbv zeta in H. destruct H as (_ & _ & _ & H). exact H.
Defined.

Lemma bare_no_update_alert : ~ has_element Sample.bare (js "updateAlert").
Proof. intros [x Hx]. vm_compute in Hx. discriminate Hx. Defined.

Lemma checkUpdateStatus_without_alert_witness :
  ~ has_element Sample.bare (js "updateAlert") /\
  pwaUpdateNeeded
    (session (run (pf:=Example.browser) Example.check_sees_update
                (exec_state module_load Sample.bare))) = false.
Proof.
  split; [exact bare_no_update_alert|].
  pose proof (checkUpdateStatus_without_alert (pf:=Example.browser) Example.cacheNames
                Example.keyList Example.check_sees_update Sample.bare bare_no_update_alert) as H.
  cbv zeta in H. destruct H as (H & _). exact H.
Defined.

Lemma applyAppTheme_selector_parts_witness :
  forallb dot (js "dark_mwInvert") = true /\
  replace re_from_underscore [] (js "dark_mwInvert")
  ++ replace re_to_underscore [] (js "dark_mwInvert") = js "dark_mwInvert".
Proof.
  split; [reflexivity|].
  pose proof (applyAppTheme_selector_parts (js "dark_mwInvert") eq_refl) as H.
  cbv zeta in H. destruct H as (H & _). exact H.
Defined.

Lemma loaded_footer : footer_classList (page Example.loaded) = Some [].
Proof. reflexivity. Defined.

Lemma loaded_frame : has_element Example.loaded (js "articleContent").
Proof. vm_compute. eauto. Defined.

Lemma applyAppTheme_switches_witness :
  footer_classList (page Example.loaded) = Some [] /\
  has_element Example.loaded (js "articleContent") /\
  existsb ascii_whitespace (marked_theme Example.loaded) = false /\
  existsb ascii_whitespace (js "dark_invert") = false /\
  html_dataset_theme
    (page (exec_state (applyAppTheme (pf:=Example.browser) (js "dark_invert")) Example.loaded))
  = Some (js "dark_invert").
Proof.
  split; [exact loaded_footer|]. split; [exact loaded_frame|].
  split; [reflexivity|]. split; [reflexivity|].
  pose proof (applyAppTheme_switches (pf:=Example.browser) (js "dark_invert") Example.loaded []
                loaded_footer loaded_frame eq_refl eq_refl) as H.
  cbv zeta in H. destruct H as (H & _). exact H.
Defined.

Lemma footerless_frame : has_element Sample.footerless (js "articleContent").
Proof. vm_compute. eauto. Defined.

Lemma applyAppTheme_without_footer_witness :
  footer_classList (page Sample.footerless) = None /\
  has_element Sample.footerless (js "articleContent") /\
  existsb ascii_whitespace (marked_theme Sample.footerless) = false /\
  fst (applyAppTheme (pf:=Example.browser) (js "dark") Sample.footerless) = Throw TypeError.
Proof.
  split; [reflexivity|]. split; [exact footerless_frame|]. split; [reflexivity|].
  pose proof (applyAppTheme_without_footer (pf:=Example.browser) (js "dark") Sample.footerless
                eq_refl footerless_frame eq_refl) as H.
  cbv zeta in H. destruct H as (H & _). by rewrite H.
Defined.

Lemma index_file : Forall (fun c => c <> N_of_ascii "/") (js "index.html").
Proof. units. Defined.

Lemma applyAppTheme_attaches_sheet_witness :
  footer_classList (page Example.loaded) = Some [] /\
  has_element Example.loaded (js "articleContent") /\
  existsb ascii_whitespace (marked_theme Example.loaded) = false /\
  existsb ascii_whitespace (js "dark_invert") = false /\
  contentDocument (page Example.loaded) = Some Example.article /\
  find_sheet Example.article = None /\
  location_pathname (Platform:=Example.browser) = js "/www" ++ N_of_ascii "/" :: js "index.html" /\
  Forall (fun c => c <> N_of_ascii "/") (js "index.html") /\
  replace re_to_underscore [] (js "dark_invert") <> [] /\
  contentDocument
    (page (exec_state (applyAppTheme (pf:=Example.browser) (js "dark_invert")) Example.loaded))
  = Some (mkDoc (js "Ray Charles")
            [mkHeadChild (js "kiwixJSTheme") (js "stylesheet") (js "text/css")
               (js "https://kiwix.example/www/css/kiwixJS_invert.css")]).
Proof.
  assert (replace re_to_underscore [] (js "dark_invert") <> []) as H9
    by (vm_compute; discriminate).
  split; [exact loaded_footer|]. split; [exact loaded_frame|].
  split; [reflexivity|]. split; [reflexivity|]. split; [reflexivity|]. split; [reflexivity|].
  split; [reflexivity|]. split; [exact index_file|]. split; [exact H9|].
  pose proof (applyAppTheme_attaches_sheet (pf:=Example.browser) (js "dark_invert")
                Example.loaded [] Example.article (js "/www") (js "index.html")
                loaded_footer loaded_frame eq_refl eq_refl eq_refl eq_refl eq_refl
                index_file) as H.
  cbv zeta in H. destruct (H H9) as (H' & _). exact H'.
Defined.

Lemma themed_footer : footer_classList (page Example.themed) = Some [js "_mwInvert"].
Proof. vm_compute. reflexivity. Defined.

Lemma themed_frame : has_element Example.themed (js "articleContent").
Proof. vm_compute. eauto. Defined.

Lemma themed_document :
  contentDocument (page Example.themed)
  = Some (mkDoc (js "Ray Charles")
            [mkHeadChild kiwixJSTheme (js "stylesheet") (js "text/css")
               (js "https://kiwix.example/www/css/kiwixJS_mwInvert.css")]).
Proof. vm_compute. reflexivity. Defined.

Lemma applyAppTheme_removes_sheet_witness :
  footer_classList (page Example.themed) = Some [js "_mwInvert"] /\
  has_element Example.themed (js "articleContent") /\
  existsb ascii_whitespace (marked_theme Example.themed) = false /\
  existsb ascii_whitespace (js "light") = false /\
  replace re_to_underscore [] (js "light") = [] /\
  replace re_to_underscore [] (marked_theme Example.themed) <> [] /\
  contentDocument
    (page (exec_state (applyAppTheme (pf:=Example.browser) (js "light")) Example.themed))
  = Some (mkDoc (js "Ray Charles") []).
Proof.
  assert (existsb ascii_whitespace (marked_theme Example.themed) = false) as H3
    by (vm_compute; reflexivity).
  assert (replace re_to_underscore [] (marked_theme Example.themed) <> []) as H7
    by (vm_compute; discriminate).
  split; [exact themed_footer|]. split; [exact themed_frame|].
  split; [exact H3|]. split; [reflexivity|]. split; [reflexivity|]. split; [exact H7|].
  pose proof (applyAppTheme_removes_sheet (pf:=Example.browser) (js "light") Example.themed
                [js "_mwInvert"] _ themed_footer themed_frame H3 eq_refl themed_document
                eq_refl) as H.
  cbv zeta in H. destruct (H H7) as (H' & _). exact H'.
Defined.

Lemma loaded_has_footer : is_Some (footer_classList (page Example.loaded)).
Proof. vm_compute. eauto. Defined.

Lemma applyAppTheme_help_witness :
  is_Some (footer_classList (page Example.loaded)) /\
  has_element Example.loaded (js "articleContent") /\
  existsb ascii_whitespace (marked_theme Example.loaded) = false /\
  existsb ascii_whitespace (js "dark_invert") = false /\
  element_display
    (exec_state (applyAppTheme (pf:=Example.browser) (js "dark_invert")) Example.loaded)
    (js "dark_invert-help") = Some (js "block").
Proof.
  split; [exact loaded_has_footer|]. split; [exact loaded_frame|].
  split; [reflexivity|]. split; [reflexivity|].
  pose proof (applyAppTheme_help (pf:=Example.browser) (js "dark_invert") Example.loaded
                loaded_has_footer loaded_frame eq_refl eq_refl) as H.
  cbv zeta in H. destruct H as (H & _). exact H.
Defined.

Lemma loaded_theme_returns :
  returns (applyAppTheme (pf:=Example.browser) (js "dark_invert")) Example.loaded.
Proof. exists tt. vm_compute. reflexivity. Defined.

Lemma applyAppTheme_return_link_witness :
  returns (applyAppTheme (pf:=Example.browser) (js "dark_invert")) Example.loaded /\
  return_link_listeners
    (exec_state (applyAppTheme (pf:=Example.browser) (js "dark_invert")) Example.loaded)
  = [(js "click", ReturnToArticle)].
Proof.
  split; [exact loaded_theme_returns|].
  pose proof (applyAppTheme_return_link (pf:=Example.browser) (js "dark_invert") Example.loaded
                loaded_theme_returns) as H.
  cbv zeta in H. destruct H as (H & _). exact H.
Defined.

Lemma bare_no_spinner :
  ~ (has_element Sample.bare (js "searchingArticles") /\
     has_element Sample.bare (js "cachingAssets")).
Proof. intros [[x Hx] _]. vm_compute in Hx. discriminate Hx. Defined.

Lemma spinnerDisplay_markup_missing_witness :
  ~ (has_element Sample.bare (js "searchingArticles") /\
     has_element Sample.bare (js "cachingAssets")) /\
  spinnerDisplay true None Sample.bare = (Throw TypeError, Sample.bare).
Proof.
  split; [exact bare_no_spinner|].
  exact (spinnerDisplay_markup_missing true None Sample.bare
           bare_no_spinner).
Defined.

Lemma shell_spinner : has_element Sample.shell (js "searchingArticles").
Proof. vm_compute. eauto. Defined.

Lemma shell_spinner_message : has_element Sample.shell (js "cachingAssets").
Proof. vm_compute. eauto. Defined.

Lemma isElementInView_fully_partially_witness :
  (rect_top Sample.inside <= rect_bottom Sample.inside)%Q /\
  (rect_left Sample.inside <= rect_right Sample.inside)%Q /\
  isElementInView Sample.inside 600 800 true = true /\
  isElementInView Sample.inside 600 800 false = true.
Proof.
  assert (rect_top Sample.inside <= rect_bottom Sample.inside)%Q as H1
    by (vm_compute; discriminate).
  assert (rect_left Sample.inside <= rect_right Sample.inside)%Q as H2
    by (vm_compute; discriminate).
  split; [exact H1|]. split; [exact H2|]. split; [reflexivity|].
  exact (isElementInView_fully_partially Sample.inside 600 800 H1 H2 eq_refl).
Defined.

Lemma shell_configure_tab : has_element Sample.shell (js "liConfigureNav").
Proof. vm_compute. eauto. Defined.
Lemma shell_home_tab : has_element Sample.shell (js "liHomeNav").
Proof. vm_compute. eauto. Defined.
Lemma shell_configuration : has_element Sample.shell (js "configuration").
Proof. vm_compute. eauto. Defined.
Lemma shell_article : has_element Sample.shell (js "articleContent").
Proof. vm_compute. eauto. Defined.
Lemma shell_navigation : has_element Sample.shell (js "navigationButtons").
Proof. vm_compute. eauto. Defined.
Lemma shell_search_form : has_element Sample.shell (js "formArticleSearch").
Proof. vm_compute. eauto. Defined.
Lemma shell_return_link : has_element Sample.shell (js "viewArticle").
Proof. vm_compute. eauto. Defined.

Lemma returnToArticle_repeated_witness :
  has_element Sample.shell (js "liConfigureNav") /\
  has_element Sample.shell (js "liHomeNav") /\
  has_element Sample.shell (js "configuration") /\
  has_element Sample.shell (js "articleContent") /\
  has_element Sample.shell (js "navigationButtons") /\
  has_element Sample.shell (js "formArticleSearch") /\
  Nat.iter 3 (exec_state (returnToArticle (ly:=Sample.by_display) false))
    Sample.shell
  = exec_state (returnToArticle (ly:=Sample.by_display) false)
      Sample.shell.
Proof.
  split; [exact shell_configure_tab|]. split; [exact shell_home_tab|].
  split; [exact shell_configuration|]. split; [exact shell_article|].
  split; [exact shell_navigation|]. split; [exact shell_search_form|].
  exact (returnToArticle_repeated (ly:=Sample.by_display) 2 Sample.shell
           shell_configure_tab shell_home_tab shell_configuration shell_article
           shell_navigation shell_search_form).
Defined.

Lemma tab_warning : controls ConfigSample.tab !! ById (js "activeContent") = Some blank.
Proof. vm_compute. reflexivity. Defined.

Lemma tab_option :
  controls ConfigSample.tab !! ById (option_of_link (js "stop")) = Some blank.
Proof. vm_compute. reflexivity. Defined.

Lemma tab_home : controls ConfigSample.tab !! ById (js "btnHome") = Some blank.
Proof. vm_compute. reflexivity. Defined.

Lemma tab_configure : controls ConfigSample.tab !! ById (js "btnConfigure") = Some blank.
Proof. vm_compute. reflexivity. Defined.

Lemma displayActiveContentWarning_setup_lost_witness :
  controls ConfigSample.tab !! ById (js "activeContent") = Some blank /\
  c_data_hide blank = None /\
  activeContentWarningSetup ConfigSample.tab = false /\
  c_listeners (control (c_state displayActiveContentWarning ConfigSample.tab)
                 (ById (js "stop")))
  = c_listeners (control ConfigSample.tab (ById (js "stop"))).
Proof.
  split; [exact tab_warning|]. split; [reflexivity|]. split; [reflexivity|].
  pose proof (displayActiveContentWarning_setup_lost ConfigSample.tab blank
                tab_warning eq_refl eq_refl) as H.
  cbv zeta in H. destruct H as (_ & _ & H & _).
  unfold control. rewrite (H (ById (js "stop"))); [reflexivity|discriminate].
Defined.

Lemma displayActiveContentWarning_highlight_cancelled_witness :
  controls ConfigSample.tab !! ById (option_of_link (js "stop")) = Some blank /\
  controls ConfigSample.tab !! ById (js "btnHome") = Some blank /\
  controls ConfigSample.tab !! ById (js "btnConfigure") = Some blank /\
  c_borderColor
    (control
       (c_state (c_dispatch (ById (js "btnHome")) (js "mousedown"))
          (c_state (warning_listener (ShowOption (js "stop"))) ConfigSample.tab))
       (ParentOf (option_of_link (js "stop")))) = [].
Proof.
  split; [exact tab_option|]. split; [exact tab_home|]. split; [exact tab_configure|].
  pose proof (displayActiveContentWarning_highlight_cancelled ConfigSample.tab (js "stop")
                blank blank blank (ById (js "btnHome"))
                tab_option tab_home tab_configure) as H.
  cbv zeta in H. destruct (H (or_intror eq_refl)) as (H1 & _). exact H1.
Defined.
